(** * sigbak: the backup-file engine of sbk.c and the frame decoder of
    backup.pb-c.c, as a shallow embedding.

    Bytes are [Byte.byte]; C buffers are [list byte]; unsigned C integers
    are [Z] with their wrap-around written out; functions that return
    NULL or 0 on failure return [option]. *)

From Stdlib Require Import ZArith List Lia Bool.
From Stdlib.Strings Require Import String Ascii Byte.
From Stdlib Require Import Decimal DecimalString DecimalZ.
From stdpp Require Import gmap.
Import ListNotations.

Local Open Scope Z_scope.

(** ** Bytes *)

Definition Zb (b : byte) : Z := Z.of_N (Byte.to_N b).

Definition B (n : Z) : byte :=
  match Byte.of_N (Z.to_N (n mod 256)) with
  | Some b => b
  | None => x00
  end.

Definition byte_eqb (a b : byte) : bool := Zb a =? Zb b.

Definition byte_xor (a b : byte) : byte := B (Z.lxor (Zb a) (Zb b)).

Fixpoint bytes_eqb (a b : list byte) : bool :=
  match a, b with
  | [], [] => true
  | x :: a', y :: b' => byte_eqb x y && bytes_eqb a' b'
  | _, _ => false
  end.

(** The bytes of a C string literal. *)
Fixpoint cstr (s : string) : list byte :=
  match s with
  | EmptyString => []
  | String c s' => byte_of_ascii c :: cstr s'
  end.

Definition len {A} (l : list A) : Z := Z.of_nat (List.length l).

(** A pointer that may be NULL is an [option]; [non_null p] is [p != NULL]. *)
Definition non_null {A} (p : option A) : bool :=
  match p with Some _ => true | None => false end.

(** ** backup.pb-c.c: the protobuf decoder *)

Module Pb.

Definition VARINT_CONTINUE_BIT : Z := 0x80.
Definition VARINT_VALUE_MASK : Z := 0x7f.
Definition TAG_FIELDNUM_SHIFT : Z := 3.
Definition TAG_WIRETYPE_MASK : Z := 0x7.

Definition WIRETYPE_VARINT : Z := 0.
Definition WIRETYPE_64BIT : Z := 1.
Definition WIRETYPE_LENGTH_DELIM : Z := 2.
Definition WIRETYPE_32BIT : Z := 5.

Definition FIELDNUM_HEADER_IV : Z := 1.
Definition FIELDNUM_HEADER_SALT : Z := 2.
Definition FIELDNUM_SQLSTATEMENT_STATEMENT : Z := 1.
Definition FIELDNUM_SQLSTATEMENT_PARAMETERS : Z := 2.
Definition FIELDNUM_SQLPARAMETER_STRINGPARAMTER : Z := 1.
Definition FIELDNUM_SQLPARAMETER_INTEGERPARAMETER : Z := 2.
Definition FIELDNUM_SQLPARAMETER_DOUBLEPARAMETER : Z := 3.
Definition FIELDNUM_SQLPARAMETER_BLOBPARAMETER : Z := 4.
Definition FIELDNUM_SQLPARAMETER_NULLPARAMETER : Z := 5.
Definition FIELDNUM_SHAREDPREFERENCE_FILE : Z := 1.
Definition FIELDNUM_SHAREDPREFERENCE_KEY : Z := 2.
Definition FIELDNUM_SHAREDPREFERENCE_VALUE : Z := 3.
Definition FIELDNUM_ATTACHMENT_ROWID : Z := 1.
Definition FIELDNUM_ATTACHMENT_ATTACHMENTID : Z := 2.
Definition FIELDNUM_ATTACHMENT_LENGTH : Z := 3.
Definition FIELDNUM_DATABASEVERSION_VERSION : Z := 1.
Definition FIELDNUM_AVATAR_NAME : Z := 1.
Definition FIELDNUM_AVATAR_LENGTH : Z := 2.
Definition FIELDNUM_AVATAR_RECIPIENTID : Z := 3.
Definition FIELDNUM_STICKER_ROWID : Z := 1.
Definition FIELDNUM_STICKER_LENGTH : Z := 2.
Definition FIELDNUM_BACKUPFRAME_HEADER : Z := 1.
Definition FIELDNUM_BACKUPFRAME_STATEMENT : Z := 2.
Definition FIELDNUM_BACKUPFRAME_PREFERENCE : Z := 3.
Definition FIELDNUM_BACKUPFRAME_ATTACHMENT : Z := 4.
Definition FIELDNUM_BACKUPFRAME_VERSION : Z := 5.
Definition FIELDNUM_BACKUPFRAME_END : Z := 6.
Definition FIELDNUM_BACKUPFRAME_AVATAR : Z := 7.
Definition FIELDNUM_BACKUPFRAME_STICKER : Z := 8.

Definition UINT32_MAX : Z := 2 ^ 32 - 1.

Record tag := { fieldnum : Z; wiretype : Z }.

(** [varint_unpack]: the loop [for (i = 0; i < buflen && i * 7 < 64; i++)],
    started at index [i] with the bits accumulated so far; the shift is a
    uint64_t shift, so bits pushed past bit 63 are lost.  The result is the
    number of bytes read and the value; [None] is the C return value 0. *)
Fixpoint varint_unpack_from (i : nat) (varint : Z) (buf : list byte)
  : option (nat * Z) :=
  match buf with
  | [] => None
  | b :: buf' =>
      if 64 <=? Z.of_nat i * 7 then None
      else
        let varint' :=
          Z.lor varint
            (Z.shiftl (Z.land (Zb b) VARINT_VALUE_MASK) (Z.of_nat i * 7)
             mod 2 ^ 64) in
        if Z.land (Zb b) VARINT_CONTINUE_BIT =? 0 then Some (S i, varint')
        else varint_unpack_from (S i) varint' buf'
  end.

Definition varint_unpack (buf : list byte) : option (nat * Z) :=
  varint_unpack_from 0 0 buf.

Definition tag_unpack (buf : list byte) : option (nat * tag) :=
  match varint_unpack buf with
  | None => None
  | Some (n, varint) =>
      if UINT32_MAX <? varint then None
      else Some (n, {| fieldnum := Z.shiftr varint TAG_FIELDNUM_SHIFT;
                       wiretype := Z.land varint TAG_WIRETYPE_MASK |})
  end.

Definition fieldlen_unpack (buf : list byte) : option (nat * nat) :=
  match varint_unpack buf with
  | None => None
  | Some (n, varint) =>
      if len buf - Z.of_nat n <? varint then None
      else Some (n, Z.to_nat varint)
  end.

Definition bool_unpack (buf : list byte) : option (nat * bool) :=
  match varint_unpack buf with
  | None => None
  | Some (n, varint) => Some (n, negb (varint =? 0))
  end.

Definition uint32_unpack (buf : list byte) : option (nat * Z) :=
  match varint_unpack buf with
  | None => None
  | Some (n, varint) =>
      if UINT32_MAX <? varint then None else Some (n, varint)
  end.

Definition uint64_unpack (buf : list byte) : option (nat * Z) :=
  varint_unpack buf.

Definition fixed64_unpack (buf : list byte) : option (nat * Z) :=
  match buf with
  | b0 :: b1 :: b2 :: b3 :: b4 :: b5 :: b6 :: b7 :: _ =>
      Some (8%nat,
            Z.lor (Zb b0) (Z.lor (Z.shiftl (Zb b1) 8)
              (Z.lor (Z.shiftl (Zb b2) 16) (Z.lor (Z.shiftl (Zb b3) 24)
                (Z.lor (Z.shiftl (Zb b4) 32) (Z.lor (Z.shiftl (Zb b5) 40)
                  (Z.lor (Z.shiftl (Zb b6) 48) (Z.shiftl (Zb b7) 56))))))))
  | _ => None
  end.

(** A double is kept as its 64-bit pattern: the C code reinterprets the
    fixed64 it read. *)
Definition double_unpack (buf : list byte) : option (nat * Z) :=
  match fixed64_unpack buf with
  | None => None
  | Some (_, fixed64) => Some (8%nat, fixed64)
  end.

(** [string_unpack] copies [buflen] bytes and appends a NUL; the result is
    the copied bytes (the C string ends at its first NUL byte, if any).
    Allocation succeeds in this model, and a buffer is shorter than
    SIZE_MAX. *)
Definition string_unpack (buflen : nat) (buf : list byte)
  : option (list byte) :=
  Some (firstn buflen buf).

(** [binarydata_unpack] returns [buflen], also when it is 0. *)
Definition binarydata_unpack (buflen : nat) (buf : list byte)
  : nat * list byte :=
  (buflen, firstn buflen buf).

(** The step every length-delimited case repeats: read the field length,
    advance past it, and split the buffer into the field's bytes and what
    follows them. *)
Definition length_delim (buf : list byte)
  : option (list byte * list byte) :=
  match fieldlen_unpack buf with
  | None => None
  | Some (n, fieldlen) =>
      Some (firstn fieldlen (skipn n buf), skipn fieldlen (skipn n buf))
  end.

(** The loop [while (buflen > 0)] every unpack function runs: read a tag,
    advance, and dispatch on the field number; [field] is the body of the
    switch, which returns the updated message and the advanced buffer, or
    [None] for [goto error].  Each round consumes at least the tag byte, so
    the buffer length bounds the number of rounds. *)
Fixpoint unpack_loop {M : Type}
    (field : M -> tag -> list byte -> option (M * list byte))
    (fuel : nat) (m : M) (buf : list byte) : option M :=
  match buf with
  | [] => Some m
  | _ :: _ =>
      match fuel with
      | O => None
      | S fuel' =>
          match tag_unpack buf with
          | None => None
          | Some (n, tag) =>
              match field m tag (skipn n buf) with
              | None => None
              | Some (m', buf') => unpack_loop field fuel' m' buf'
              end
          end
      end
  end.

Definition unpack {M : Type}
    (field : M -> tag -> list byte -> option (M * list byte))
    (init : M) (buf : list byte) : option M :=
  unpack_loop field (List.length buf) init buf.

(** *** Header *)

Record Signal__Header := {
  has_iv : bool;
  iv : list byte;
  has_salt : bool;
  salt : list byte
}.

Definition header_init : Signal__Header :=
  {| has_iv := false; iv := []; has_salt := false; salt := [] |}.

Definition header_field (hdr : Signal__Header) (tag : tag) (buf : list byte)
  : option (Signal__Header * list byte) :=
  if fieldnum tag =? FIELDNUM_HEADER_IV then
    if has_iv hdr then None
    else if negb (wiretype tag =? WIRETYPE_LENGTH_DELIM) then None
    else
      match length_delim buf with
      | None => None
      | Some (data, rest) =>
          let (n, bin) := binarydata_unpack (List.length data) data in
          if (n =? 0)%nat then None
          else Some ({| has_iv := true; iv := bin;
                        has_salt := has_salt hdr; salt := salt hdr |}, rest)
      end
  else if fieldnum tag =? FIELDNUM_HEADER_SALT then
    if has_salt hdr then None
    else if negb (wiretype tag =? WIRETYPE_LENGTH_DELIM) then None
    else
      match length_delim buf with
      | None => None
      | Some (data, rest) =>
          let (n, bin) := binarydata_unpack (List.length data) data in
          if (n =? 0)%nat then None
          else Some ({| has_iv := has_iv hdr; iv := iv hdr;
                        has_salt := true; salt := bin |}, rest)
      end
  else None.

Definition signal__header__unpack (buf : list byte) : option Signal__Header :=
  unpack header_field header_init buf.

(** *** SqlStatement.SqlParameter *)

Record Signal__SqlStatement__SqlParameter := {
  stringparamter : option (list byte);
  has_integerparameter : bool;
  integerparameter : Z;
  has_doubleparameter : bool;
  doubleparameter : Z;
  has_blobparameter : bool;
  blobparameter : list byte;
  has_nullparameter : bool;
  nullparameter : bool
}.

Definition sql_parameter_init : Signal__SqlStatement__SqlParameter :=
  {| stringparamter := None;
     has_integerparameter := false; integerparameter := 0;
     has_doubleparameter := false; doubleparameter := 0;
     has_blobparameter := false; blobparameter := [];
     has_nullparameter := false; nullparameter := false |}.

Definition sql_parameter_field (par : Signal__SqlStatement__SqlParameter)
    (tag : tag) (buf : list byte)
  : option (Signal__SqlStatement__SqlParameter * list byte) :=
  if fieldnum tag =? FIELDNUM_SQLPARAMETER_STRINGPARAMTER then
    if non_null (stringparamter par) then None
    else if negb (wiretype tag =? WIRETYPE_LENGTH_DELIM) then None
    else
      match length_delim buf with
      | None => None
      | Some (data, rest) =>
          match string_unpack (List.length data) data with
          | None => None
          | Some str =>
              Some ({| stringparamter := Some str;
                       has_integerparameter := has_integerparameter par;
                       integerparameter := integerparameter par;
                       has_doubleparameter := has_doubleparameter par;
                       doubleparameter := doubleparameter par;
                       has_blobparameter := has_blobparameter par;
                       blobparameter := blobparameter par;
                       has_nullparameter := has_nullparameter par;
                       nullparameter := nullparameter par |}, rest)
          end
      end
  else if fieldnum tag =? FIELDNUM_SQLPARAMETER_INTEGERPARAMETER then
    if has_integerparameter par then None
    else if negb (wiretype tag =? WIRETYPE_VARINT) then None
    else
      match uint64_unpack buf with
      | None => None
      | Some (n, v) =>
          Some ({| stringparamter := stringparamter par;
                   has_integerparameter := true;
                   integerparameter := v;
                   has_doubleparameter := has_doubleparameter par;
                   doubleparameter := doubleparameter par;
                   has_blobparameter := has_blobparameter par;
                   blobparameter := blobparameter par;
                   has_nullparameter := has_nullparameter par;
                   nullparameter := nullparameter par |}, skipn n buf)
      end
  else if fieldnum tag =? FIELDNUM_SQLPARAMETER_DOUBLEPARAMETER then
    if has_doubleparameter par then None
    else if negb (wiretype tag =? WIRETYPE_64BIT) then None
    else
      match double_unpack buf with
      | None => None
      | Some (n, v) =>
          Some ({| stringparamter := stringparamter par;
                   has_integerparameter := has_integerparameter par;
                   integerparameter := integerparameter par;
                   has_doubleparameter := true;
                   doubleparameter := v;
                   has_blobparameter := has_blobparameter par;
                   blobparameter := blobparameter par;
                   has_nullparameter := has_nullparameter par;
                   nullparameter := nullparameter par |}, skipn n buf)
      end
  else if fieldnum tag =? FIELDNUM_SQLPARAMETER_BLOBPARAMETER then
    if has_blobparameter par then None
    else if negb (wiretype tag =? WIRETYPE_LENGTH_DELIM) then None
    else
      match length_delim buf with
      | None => None
      | Some (data, rest) =>
          let (n, bin) := binarydata_unpack (List.length data) data in
          if (n =? 0)%nat then None
          else
            Some ({| stringparamter := stringparamter par;
                     has_integerparameter := has_integerparameter par;
                     integerparameter := integerparameter par;
                     has_doubleparameter := has_doubleparameter par;
                     doubleparameter := doubleparameter par;
                     has_blobparameter := true;
                     blobparameter := bin;
                     has_nullparameter := has_nullparameter par;
                     nullparameter := nullparameter par |}, rest)
      end
  else if fieldnum tag =? FIELDNUM_SQLPARAMETER_NULLPARAMETER then
    if has_nullparameter par then None
    else if negb (wiretype tag =? WIRETYPE_VARINT) then None
    else
      match bool_unpack buf with
      | None => None
      | Some (n, v) =>
          Some ({| stringparamter := stringparamter par;
                   has_integerparameter := has_integerparameter par;
                   integerparameter := integerparameter par;
                   has_doubleparameter := has_doubleparameter par;
                   doubleparameter := doubleparameter par;
                   has_blobparameter := has_blobparameter par;
                   blobparameter := blobparameter par;
                   has_nullparameter := true;
                   nullparameter := v |}, skipn n buf)
      end
  else None.

Definition signal__sql_statement__sql_parameter__unpack (buf : list byte)
  : option Signal__SqlStatement__SqlParameter :=
  unpack sql_parameter_field sql_parameter_init buf.

(** *** SqlStatement *)

Record Signal__SqlStatement := {
  statement : option (list byte);
  parameters : list Signal__SqlStatement__SqlParameter
}.

Definition sql_statement_init : Signal__SqlStatement :=
  {| statement := None; parameters := [] |}.

Definition sql_statement_field (sql : Signal__SqlStatement) (tag : tag)
    (buf : list byte) : option (Signal__SqlStatement * list byte) :=
  if fieldnum tag =? FIELDNUM_SQLSTATEMENT_STATEMENT then
    if non_null (statement sql) then None
    else if negb (wiretype tag =? WIRETYPE_LENGTH_DELIM) then None
    else
      match length_delim buf with
      | None => None
      | Some (data, rest) =>
          match string_unpack (List.length data) data with
          | None => None
          | Some str =>
              Some ({| statement := Some str;
                       parameters := parameters sql |}, rest)
          end
      end
  else if fieldnum tag =? FIELDNUM_SQLSTATEMENT_PARAMETERS then
    if negb (wiretype tag =? WIRETYPE_LENGTH_DELIM) then None
    else
      match length_delim buf with
      | None => None
      | Some (data, rest) =>
          match signal__sql_statement__sql_parameter__unpack data with
          | None => None
          | Some par =>
              Some ({| statement := statement sql;
                       parameters := parameters sql ++ [par] |}, rest)
          end
      end
  else None.

Definition signal__sql_statement__unpack (buf : list byte)
  : option Signal__SqlStatement :=
  unpack sql_statement_field sql_statement_init buf.

(** *** SharedPreference *)

Record Signal__SharedPreference := {
  prf_file : option (list byte);
  prf_key : option (list byte);
  prf_value : option (list byte)
}.

Definition shared_preference_init : Signal__SharedPreference :=
  {| prf_file := None; prf_key := None; prf_value := None |}.

Definition shared_preference_field (prf : Signal__SharedPreference)
    (tag : tag) (buf : list byte)
  : option (Signal__SharedPreference * list byte) :=
  if fieldnum tag =? FIELDNUM_SHAREDPREFERENCE_FILE then
    if non_null (prf_file prf) then None
    else if negb (wiretype tag =? WIRETYPE_LENGTH_DELIM) then None
    else
      match length_delim buf with
      | None => None
      | Some (data, rest) =>
          match string_unpack (List.length data) data with
          | None => None
          | Some str =>
              Some ({| prf_file := Some str;
                   prf_key := prf_key prf;
                   prf_value := prf_value prf |}, rest)
          end
      end
  else if fieldnum tag =? FIELDNUM_SHAREDPREFERENCE_KEY then
    if non_null (prf_key prf) then None
    else if negb (wiretype tag =? WIRETYPE_LENGTH_DELIM) then None
    else
      match length_delim buf with
      | None => None
      | Some (data, rest) =>
          match string_unpack (List.length data) data with
          | None => None
          | Some str =>
              Some ({| prf_file := prf_file prf;
                   prf_key := Some str;
                   prf_value := prf_value prf |}, rest)
          end
      end
  else if fieldnum tag =? FIELDNUM_SHAREDPREFERENCE_VALUE then
    if non_null (prf_value prf) then None
    else if negb (wiretype tag =? WIRETYPE_LENGTH_DELIM) then None
    else
      match length_delim buf with
      | None => None
      | Some (data, rest) =>
          match string_unpack (List.length data) data with
          | None => None
          | Some str =>
              Some ({| prf_file := prf_file prf;
                   prf_key := prf_key prf;
                   prf_value := Some str |}, rest)
          end
      end
  else None.

Definition signal__shared_preference__unpack (buf : list byte)
  : option Signal__SharedPreference :=
  unpack shared_preference_field shared_preference_init buf.

(** *** Attachment *)

Record Signal__Attachment := {
  att_has_rowid : bool;
  att_rowid : Z;
  att_has_attachmentid : bool;
  att_attachmentid : Z;
  att_has_length : bool;
  att_length : Z
}.

Definition attachment_init : Signal__Attachment :=
  {| att_has_rowid := false; att_rowid := 0;
     att_has_attachmentid := false; att_attachmentid := 0;
     att_has_length := false; att_length := 0 |}.

Definition attachment_field (att : Signal__Attachment) (tag : tag)
    (buf : list byte) : option (Signal__Attachment * list byte) :=
  if fieldnum tag =? FIELDNUM_ATTACHMENT_ROWID then
    if att_has_rowid att then None
    else if negb (wiretype tag =? WIRETYPE_VARINT) then None
    else
      match uint64_unpack buf with
      | None => None
      | Some (n, v) =>
          Some ({| att_has_rowid := true;
                   att_rowid := v;
                   att_has_attachmentid := att_has_attachmentid att;
                   att_attachmentid := att_attachmentid att;
                   att_has_length := att_has_length att;
                   att_length := att_length att |}, skipn n buf)
      end
  else if fieldnum tag =? FIELDNUM_ATTACHMENT_ATTACHMENTID then
    if att_has_attachmentid att then None
    else if negb (wiretype tag =? WIRETYPE_VARINT) then None
    else
      match uint64_unpack buf with
      | None => None
      | Some (n, v) =>
          Some ({| att_has_rowid := att_has_rowid att;
                   att_rowid := att_rowid att;
                   att_has_attachmentid := true;
                   att_attachmentid := v;
                   att_has_length := att_has_length att;
                   att_length := att_length att |}, skipn n buf)
      end
  else if fieldnum tag =? FIELDNUM_ATTACHMENT_LENGTH then
    if att_has_length att then None
    else if negb (wiretype tag =? WIRETYPE_VARINT) then None
    else
      match uint32_unpack buf with
      | None => None
      | Some (n, v) =>
          Some ({| att_has_rowid := att_has_rowid att;
                   att_rowid := att_rowid att;
                   att_has_attachmentid := att_has_attachmentid att;
                   att_attachmentid := att_attachmentid att;
                   att_has_length := true;
                   att_length := v |}, skipn n buf)
      end
  else None.

Definition signal__attachment__unpack (buf : list byte)
  : option Signal__Attachment :=
  unpack attachment_field attachment_init buf.

(** *** DatabaseVersion *)

Record Signal__DatabaseVersion := {
  ver_has_version : bool;
  ver_version : Z
}.

Definition database_version_init : Signal__DatabaseVersion :=
  {| ver_has_version := false; ver_version := 0 |}.

Definition database_version_field (ver : Signal__DatabaseVersion) (tag : tag)
    (buf : list byte) : option (Signal__DatabaseVersion * list byte) :=
  if fieldnum tag =? FIELDNUM_DATABASEVERSION_VERSION then
    if ver_has_version ver then None
    else if negb (wiretype tag =? WIRETYPE_VARINT) then None
    else
      match uint32_unpack buf with
      | None => None
      | Some (n, v) =>
          Some ({| ver_has_version := true;
                   ver_version := v |}, skipn n buf)
      end
  else None.

Definition signal__database_version__unpack (buf : list byte)
  : option Signal__DatabaseVersion :=
  unpack database_version_field database_version_init buf.

(** *** Avatar *)

Record Signal__Avatar := {
  ava_name : option (list byte);
  ava_has_length : bool;
  ava_length : Z;
  ava_recipientid : option (list byte)
}.

Definition avatar_init : Signal__Avatar :=
  {| ava_name := None; ava_has_length := false; ava_length := 0;
     ava_recipientid := None |}.

Definition avatar_field (ava : Signal__Avatar) (tag : tag) (buf : list byte)
  : option (Signal__Avatar * list byte) :=
  if fieldnum tag =? FIELDNUM_AVATAR_NAME then
    if non_null (ava_name ava) then None
    else if negb (wiretype tag =? WIRETYPE_LENGTH_DELIM) then None
    else
      match length_delim buf with
      | None => None
      | Some (data, rest) =>
          match string_unpack (List.length data) data with
          | None => None
          | Some str =>
              Some ({| ava_name := Some str;
                   ava_has_length := ava_has_length ava;
                   ava_length := ava_length ava;
                   ava_recipientid := ava_recipientid ava |}, rest)
          end
      end
  else if fieldnum tag =? FIELDNUM_AVATAR_LENGTH then
    if ava_has_length ava then None
    else if negb (wiretype tag =? WIRETYPE_VARINT) then None
    else
      match uint32_unpack buf with
      | None => None
      | Some (n, v) =>
          Some ({| ava_name := ava_name ava;
                   ava_has_length := true;
                   ava_length := v;
                   ava_recipientid := ava_recipientid ava |}, skipn n buf)
      end
  else if fieldnum tag =? FIELDNUM_AVATAR_RECIPIENTID then
    if non_null (ava_recipientid ava) then None
    else if negb (wiretype tag =? WIRETYPE_LENGTH_DELIM) then None
    else
      match length_delim buf with
      | None => None
      | Some (data, rest) =>
          match string_unpack (List.length data) data with
          | None => None
          | Some str =>
              Some ({| ava_name := ava_name ava;
                   ava_has_length := ava_has_length ava;
                   ava_length := ava_length ava;
                   ava_recipientid := Some str |}, rest)
          end
      end
  else None.

Definition signal__avatar__unpack (buf : list byte) : option Signal__Avatar :=
  unpack avatar_field avatar_init buf.

(** *** Sticker *)

Record Signal__Sticker := {
  sti_has_rowid : bool;
  sti_rowid : Z;
  sti_has_length : bool;
  sti_length : Z
}.

Definition sticker_init : Signal__Sticker :=
  {| sti_has_rowid := false; sti_rowid := 0;
     sti_has_length := false; sti_length := 0 |}.

Definition sticker_field (sti : Signal__Sticker) (tag : tag) (buf : list byte)
  : option (Signal__Sticker * list byte) :=
  if fieldnum tag =? FIELDNUM_STICKER_ROWID then
    if sti_has_rowid sti then None
    else if negb (wiretype tag =? WIRETYPE_VARINT) then None
    else
      match uint64_unpack buf with
      | None => None
      | Some (n, v) =>
          Some ({| sti_has_rowid := true;
                   sti_rowid := v;
                   sti_has_length := sti_has_length sti;
                   sti_length := sti_length sti |}, skipn n buf)
      end
  else if fieldnum tag =? FIELDNUM_STICKER_LENGTH then
    if sti_has_length sti then None
    else if negb (wiretype tag =? WIRETYPE_VARINT) then None
    else
      match uint32_unpack buf with
      | None => None
      | Some (n, v) =>
          Some ({| sti_has_rowid := sti_has_rowid sti;
                   sti_rowid := sti_rowid sti;
                   sti_has_length := true;
                   sti_length := v |}, skipn n buf)
      end
  else None.

Definition signal__sticker__unpack (buf : list byte)
  : option Signal__Sticker :=
  unpack sticker_field sticker_init buf.

(** *** BackupFrame *)

Record Signal__BackupFrame := {
  frm_header : option Signal__Header;
  frm_statement : option Signal__SqlStatement;
  frm_preference : option Signal__SharedPreference;
  frm_attachment : option Signal__Attachment;
  frm_version : option Signal__DatabaseVersion;
  frm_has_end : bool;
  frm_end : bool;
  frm_avatar : option Signal__Avatar;
  frm_sticker : option Signal__Sticker
}.

Definition backup_frame_init : Signal__BackupFrame :=
  {| frm_header := None; frm_statement := None; frm_preference := None;
     frm_attachment := None; frm_version := None;
     frm_has_end := false; frm_end := false;
     frm_avatar := None; frm_sticker := None |}.

Definition backup_frame_field (frm : Signal__BackupFrame) (tag : tag)
    (buf : list byte) : option (Signal__BackupFrame * list byte) :=
  if fieldnum tag =? FIELDNUM_BACKUPFRAME_HEADER then
    if non_null (frm_header frm) then None
    else if negb (wiretype tag =? WIRETYPE_LENGTH_DELIM) then None
    else
      match length_delim buf with
      | None => None
      | Some (data, rest) =>
          match signal__header__unpack data with
          | None => None
          | Some sub =>
              Some ({| frm_header := Some sub;
                   frm_statement := frm_statement frm;
                   frm_preference := frm_preference frm;
                   frm_attachment := frm_attachment frm;
                   frm_version := frm_version frm;
                   frm_has_end := frm_has_end frm;
                   frm_end := frm_end frm;
                   frm_avatar := frm_avatar frm;
                   frm_sticker := frm_sticker frm |}, rest)
          end
      end
  else if fieldnum tag =? FIELDNUM_BACKUPFRAME_STATEMENT then
    if non_null (frm_statement frm) then None
    else if negb (wiretype tag =? WIRETYPE_LENGTH_DELIM) then None
    else
      match length_delim buf with
      | None => None
      | Some (data, rest) =>
          match signal__sql_statement__unpack data with
          | None => None
          | Some sub =>
              Some ({| frm_header := frm_header frm;
                   frm_statement := Some sub;
                   frm_preference := frm_preference frm;
                   frm_attachment := frm_attachment frm;
                   frm_version := frm_version frm;
                   frm_has_end := frm_has_end frm;
                   frm_end := frm_end frm;
                   frm_avatar := frm_avatar frm;
                   frm_sticker := frm_sticker frm |}, rest)
          end
      end
  else if fieldnum tag =? FIELDNUM_BACKUPFRAME_PREFERENCE then
    if non_null (frm_preference frm) then None
    else if negb (wiretype tag =? WIRETYPE_LENGTH_DELIM) then None
    else
      match length_delim buf with
      | None => None
      | Some (data, rest) =>
          match signal__shared_preference__unpack data with
          | None => None
          | Some sub =>
              Some ({| frm_header := frm_header frm;
                   frm_statement := frm_statement frm;
                   frm_preference := Some sub;
                   frm_attachment := frm_attachment frm;
                   frm_version := frm_version frm;
                   frm_has_end := frm_has_end frm;
                   frm_end := frm_end frm;
                   frm_avatar := frm_avatar frm;
                   frm_sticker := frm_sticker frm |}, rest)
          end
      end
  else if fieldnum tag =? FIELDNUM_BACKUPFRAME_ATTACHMENT then
    if non_null (frm_attachment frm) then None
    else if negb (wiretype tag =? WIRETYPE_LENGTH_DELIM) then None
    else
      match length_delim buf with
      | None => None
      | Some (data, rest) =>
          match signal__attachment__unpack data with
          | None => None
          | Some sub =>
              Some ({| frm_header := frm_header frm;
                   frm_statement := frm_statement frm;
                   frm_preference := frm_preference frm;
                   frm_attachment := Some sub;
                   frm_version := frm_version frm;
                   frm_has_end := frm_has_end frm;
                   frm_end := frm_end frm;
                   frm_avatar := frm_avatar frm;
                   frm_sticker := frm_sticker frm |}, rest)
          end
      end
  else if fieldnum tag =? FIELDNUM_BACKUPFRAME_VERSION then
    if non_null (frm_version frm) then None
    else if negb (wiretype tag =? WIRETYPE_LENGTH_DELIM) then None
    else
      match length_delim buf with
      | None => None
      | Some (data, rest) =>
          match signal__database_version__unpack data with
          | None => None
          | Some sub =>
              Some ({| frm_header := frm_header frm;
                   frm_statement := frm_statement frm;
                   frm_preference := frm_preference frm;
                   frm_attachment := frm_attachment frm;
                   frm_version := Some sub;
                   frm_has_end := frm_has_end frm;
                   frm_end := frm_end frm;
                   frm_avatar := frm_avatar frm;
                   frm_sticker := frm_sticker frm |}, rest)
          end
      end
  else if fieldnum tag =? FIELDNUM_BACKUPFRAME_END then
    if frm_has_end frm then None
    else if negb (wiretype tag =? WIRETYPE_VARINT) then None
    else
      match bool_unpack buf with
      | None => None
      | Some (n, v) =>
          Some ({| frm_header := frm_header frm;
                   frm_statement := frm_statement frm;
                   frm_preference := frm_preference frm;
                   frm_attachment := frm_attachment frm;
                   frm_version := frm_version frm;
                   frm_has_end := true;
                   frm_end := v;
                   frm_avatar := frm_avatar frm;
                   frm_sticker := frm_sticker frm |}, skipn n buf)
      end
  else if fieldnum tag =? FIELDNUM_BACKUPFRAME_AVATAR then
    if non_null (frm_avatar frm) then None
    else if negb (wiretype tag =? WIRETYPE_LENGTH_DELIM) then None
    else
      match length_delim buf with
      | None => None
      | Some (data, rest) =>
          match signal__avatar__unpack data with
          | None => None
          | Some sub =>
              Some ({| frm_header := frm_header frm;
                   frm_statement := frm_statement frm;
                   frm_preference := frm_preference frm;
                   frm_attachment := frm_attachment frm;
                   frm_version := frm_version frm;
                   frm_has_end := frm_has_end frm;
                   frm_end := frm_end frm;
                   frm_avatar := Some sub;
                   frm_sticker := frm_sticker frm |}, rest)
          end
      end
  else if fieldnum tag =? FIELDNUM_BACKUPFRAME_STICKER then
    if non_null (frm_sticker frm) then None
    else if negb (wiretype tag =? WIRETYPE_LENGTH_DELIM) then None
    else
      match length_delim buf with
      | None => None
      | Some (data, rest) =>
          match signal__sticker__unpack data with
          | None => None
          | Some sub =>
              Some ({| frm_header := frm_header frm;
                   frm_statement := frm_statement frm;
                   frm_preference := frm_preference frm;
                   frm_attachment := frm_attachment frm;
                   frm_version := frm_version frm;
                   frm_has_end := frm_has_end frm;
                   frm_end := frm_end frm;
                   frm_avatar := frm_avatar frm;
                   frm_sticker := Some sub |}, rest)
          end
      end
  else None.

Definition signal__backup_frame__unpack (buf : list byte)
  : option Signal__BackupFrame :=
  unpack backup_frame_field backup_frame_init buf.

End Pb.

(** ** The protobuf wire format

    The encoding the decoder above reads, written from the wire format's
    definition: a message is a sequence of fields, each a varint key
    (field number * 8 + wire type) followed by its value.  It is used to
    state what the decoder does with a message that carries a given
    sequence of fields, and to build examples. *)

Module Wire.

Inductive value :=
| Varint (v : Z)
| Fixed64 (v : Z)
| LengthDelim (data : list byte)
| Fixed32 (v : Z).

Record field := { number : Z; payload : value }.

Definition wire_type (v : value) : Z :=
  match v with
  | Varint _ => 0
  | Fixed64 _ => 1
  | LengthDelim _ => 2
  | Fixed32 _ => 5
  end.

(** Base-128 digits, lowest first, all but the last with the top bit
    set; [n] bounds the number of bytes. *)
Fixpoint varint_bytes (n : nat) (v : Z) : list byte :=
  match n with
  | O => []
  | S n' =>
      if v <? 128 then [B v]
      else B (v mod 128 + 128) :: varint_bytes n' (v / 128)
  end.

Definition varint (v : Z) : list byte := varint_bytes 10 v.

(** The [n] low bytes of [z], lowest first. *)
Fixpoint le_bytes (n : nat) (z : Z) : list byte :=
  match n with
  | O => []
  | S n' => B z :: le_bytes n' (Z.shiftr z 8)
  end.

Definition encode_value (v : value) : list byte :=
  match v with
  | Varint v => varint v
  | Fixed64 v => le_bytes 8 v
  | LengthDelim data => varint (len data) ++ data
  | Fixed32 v => le_bytes 4 v
  end.

Definition encode_field (f : field) : list byte :=
  varint (number f * 8 + wire_type (payload f)) ++ encode_value (payload f).

Definition encode (fields : list field) : list byte :=
  concat (map encode_field fields).

(** A field of a message: a field number of at most 29 bits, and a value
    that fits its encoding. *)
Definition value_ok (v : value) : Prop :=
  match v with
  | Varint v => 0 <= v < 2 ^ 64
  | Fixed64 v => 0 <= v < 2 ^ 64
  | LengthDelim data => len data < 2 ^ 64
  | Fixed32 v => 0 <= v < 2 ^ 32
  end.

Definition field_ok (f : field) : Prop :=
  0 <= number f < 2 ^ 29 /\ value_ok (payload f).

End Wire.

(** ** The libraries sbk.c is linked against

    OpenSSL, SQLite and the C library are not part of the repository; the
    functions sbk.c calls are the methods of these classes. *)

(** OpenSSL.  [SHA512 data] is the digest that SHA512_Init, the
    SHA512_Update calls (whose concatenated input is [data]) and
    SHA512_Final produce; [HMAC_SHA256 key data] likewise for HMAC_Init_ex,
    HMAC_Update and HMAC_Final; [HKDF_SHA256 out_len secret salt info] is
    HKDF() with EVP_sha256(), [None] when it returns 0;
    [AES256_CTR_keystream key iv i] is byte [i] of the AES-256-CTR key
    stream, with which EVP_aes_256_ctr() decrypts by exclusive or. *)
Class OpenSSL := {
  SHA512 : list byte -> list byte;
  HMAC_SHA256 : list byte -> list byte -> list byte;
  HKDF_SHA256 : nat -> list byte -> list byte -> list byte ->
                option (list byte);
  AES256_CTR_keystream : list byte -> list byte -> nat -> byte
}.

(** The C library's constants sbk.c depends on. *)
Class Libc := {
  BUFSIZ : nat;
  SIZE_MAX : Z
}.

Definition SQLITE_OK : Z := 0.
Definition SQLITE_ROW : Z := 100.
Definition SQLITE_DONE : Z := 101.
Definition SQLITE_NULL : Z := 5.

(** SQLite.  A prepared statement is a value; binding returns the
    statement with the parameter bound, or [None] when the call does not
    return SQLITE_OK; so do [sqlite3_open] and [sqlite3_exec], which return
    the database.  [sqlite3_step] returns the result code and the
    database after the step (used where sbk.c steps a statement once).
    [sqlite3_rows] gives, for the loops
    [while (sbk_sqlite_step(ctx, stm) == SQLITE_ROW)], the statement as it
    stands at each successive row and the code of the step that ends the
    loop.  The column functions read the current row. *)
Class SQLite := {
  sqlite3 : Type;
  sqlite3_stmt : Type;
  sqlite3_open : list byte -> option sqlite3;
  sqlite3_exec : sqlite3 -> list byte -> option sqlite3;
  sqlite3_prepare_v2 : sqlite3 -> list byte -> option sqlite3_stmt;
  sqlite3_bind_blob : sqlite3_stmt -> Z -> list byte -> option sqlite3_stmt;
  sqlite3_bind_double : sqlite3_stmt -> Z -> Z -> option sqlite3_stmt;
  sqlite3_bind_int : sqlite3_stmt -> Z -> Z -> option sqlite3_stmt;
  sqlite3_bind_int64 : sqlite3_stmt -> Z -> Z -> option sqlite3_stmt;
  sqlite3_bind_null : sqlite3_stmt -> Z -> option sqlite3_stmt;
  sqlite3_bind_text : sqlite3_stmt -> Z -> list byte -> option sqlite3_stmt;
  sqlite3_step : sqlite3 -> sqlite3_stmt -> Z * sqlite3;
  sqlite3_rows : sqlite3 -> sqlite3_stmt -> list sqlite3_stmt * Z;
  sqlite3_column_type : sqlite3_stmt -> Z -> Z;
  sqlite3_column_text : sqlite3_stmt -> Z -> option (list byte);
  sqlite3_column_int : sqlite3_stmt -> Z -> Z;
  sqlite3_column_int64 : sqlite3_stmt -> Z -> Z
}.

(** ** sbk.c *)

Definition SBK_IV_LEN : nat := 16.
Definition SBK_KEY_LEN : nat := 32.
Definition SBK_CIPHERKEY_LEN : nat := 32.
Definition SBK_MACKEY_LEN : nat := 32.
Definition SBK_DERIVKEY_LEN : nat := SBK_CIPHERKEY_LEN + SBK_MACKEY_LEN.
Definition SBK_MAC_LEN : nat := 10.
Definition SBK_ROUNDS : N := 250000.
Definition SBK_HKDF_INFO : list byte := cstr "Backup Export".
Definition EVP_MAX_BLOCK_LENGTH : Z := 32.


Definition SBK_DB_VERSION_REACTIONS : Z := 37.

(** Modelled from the spec: sigbak.h is not under src/; the spec gives
    ATTACHMENT_TRANSFER_DONE the value 0. *)
Definition SBK_ATTACHMENT_TRANSFER_DONE : Z := 0.

(** The bytes of the C string stored in a buffer: those before its first
    NUL byte. *)
Fixpoint strz (s : list byte) : list byte :=
  match s with
  | [] => []
  | c :: s' => if Zb c =? 0 then [] else c :: strz s'
  end.

Definition uint32 (z : Z) : Z := z mod 2 ^ 32.

(** Conversion of an unsigned value to a signed type of [w] bits, as the
    compilers sigbak is built with do it. *)
Definition to_signed (w : Z) (z : Z) : Z :=
  let u := z mod 2 ^ w in if u <? 2 ^ (w - 1) then u else u - 2 ^ w.

Record sbk_file := {
  pos : nat;
  len_ : Z;
  counter_ : Z
}.

(** What sbk_error_set, sbk_error_setx and sbk_error_sqlite_set leave in
    ctx->error: the literal message, or the message followed by the text of
    errno or of the SQLite error. *)
Inductive sbk_errmsg :=
| Errx (msg : string)
| Errno (msg : option string)
| ErrSqlite (msg : string).

(** A stdio stream on the backup file: its bytes and the read position. *)
Record FILE := {
  f_data : list byte;
  f_pos : nat
}.

(** HMAC_CTX: the key given to HMAC_Init_ex and the input since the last
    (re)initialisation. *)
Record HMAC_CTX := {
  hmac_key : list byte;
  hmac_data : list byte
}.

(** EVP_CIPHER_CTX in CTR mode: key, IV and the number of bytes
    processed since EVP_DecryptInit_ex. *)
Record EVP_CIPHER_CTX := {
  cipher_key : list byte;
  cipher_iv : list byte;
  cipher_num : nat
}.

(** *** Recipients *)

Record sbk_contact := {
  phone : option (list byte);
  email : option (list byte);
  system_display_name : option (list byte);
  system_phone_label : option (list byte);
  profile_name : option (list byte);
  profile_family_name : option (list byte);
  profile_joined_name : option (list byte)
}.

Record sbk_group := {
  name : option (list byte)
}.

Inductive sbk_recipient :=
| SBK_CONTACT (contact : sbk_contact)
| SBK_GROUP (group : sbk_group).

Record sbk_recipient_id := {
  old : option (list byte);
  new : Z
}.

Section Sbk.

Context `{OpenSSL} `{Libc} `{SQLite}.

(** The attachment tree is a map from (rowid, attachmentid) to the entry's
    file pointer, which may be NULL;
    the recipient tree is kept as the list of its entries, searched with
    the tree's comparison function. *)
Record sbk_ctx := {
  fp : option FILE;
  db : option sqlite3;
  db_version : Z;
  attachments : gmap (Z * Z) (option sbk_file);
  recipients : list (sbk_recipient_id * sbk_recipient);
  cipher : EVP_CIPHER_CTX;
  hmac : HMAC_CTX;
  cipherkey : list byte;
  mackey : list byte;
  iv : list byte;
  counter : Z;
  ibuf : list byte;
  ibufsize : Z;
  obuf : list byte;
  obufsize : Z;
  firstframe : bool;
  eof : bool;
  error : option sbk_errmsg
}.

Definition set_fp (v : option FILE) (ctx : sbk_ctx) : sbk_ctx :=
  {| fp := v; db := db ctx; db_version := db_version ctx; attachments := attachments ctx; recipients := recipients ctx; cipher := cipher ctx; hmac := hmac ctx; cipherkey := cipherkey ctx; mackey := mackey ctx; iv := iv ctx; counter := counter ctx; ibuf := ibuf ctx; ibufsize := ibufsize ctx; obuf := obuf ctx; obufsize := obufsize ctx; firstframe := firstframe ctx; eof := eof ctx; error := error ctx |}.

Definition set_db (v : option sqlite3) (ctx : sbk_ctx) : sbk_ctx :=
  {| fp := fp ctx; db := v; db_version := db_version ctx; attachments := attachments ctx; recipients := recipients ctx; cipher := cipher ctx; hmac := hmac ctx; cipherkey := cipherkey ctx; mackey := mackey ctx; iv := iv ctx; counter := counter ctx; ibuf := ibuf ctx; ibufsize := ibufsize ctx; obuf := obuf ctx; obufsize := obufsize ctx; firstframe := firstframe ctx; eof := eof ctx; error := error ctx |}.

Definition set_db_version (v : Z) (ctx : sbk_ctx) : sbk_ctx :=
  {| fp := fp ctx; db := db ctx; db_version := v; attachments := attachments ctx; recipients := recipients ctx; cipher := cipher ctx; hmac := hmac ctx; cipherkey := cipherkey ctx; mackey := mackey ctx; iv := iv ctx; counter := counter ctx; ibuf := ibuf ctx; ibufsize := ibufsize ctx; obuf := obuf ctx; obufsize := obufsize ctx; firstframe := firstframe ctx; eof := eof ctx; error := error ctx |}.

Definition set_attachments (v : gmap (Z * Z) (option sbk_file)) (ctx : sbk_ctx) : sbk_ctx :=
  {| fp := fp ctx; db := db ctx; db_version := db_version ctx; attachments := v; recipients := recipients ctx; cipher := cipher ctx; hmac := hmac ctx; cipherkey := cipherkey ctx; mackey := mackey ctx; iv := iv ctx; counter := counter ctx; ibuf := ibuf ctx; ibufsize := ibufsize ctx; obuf := obuf ctx; obufsize := obufsize ctx; firstframe := firstframe ctx; eof := eof ctx; error := error ctx |}.

Definition set_recipients (v : list (sbk_recipient_id * sbk_recipient)) (ctx : sbk_ctx) : sbk_ctx :=
  {| fp := fp ctx; db := db ctx; db_version := db_version ctx; attachments := attachments ctx; recipients := v; cipher := cipher ctx; hmac := hmac ctx; cipherkey := cipherkey ctx; mackey := mackey ctx; iv := iv ctx; counter := counter ctx; ibuf := ibuf ctx; ibufsize := ibufsize ctx; obuf := obuf ctx; obufsize := obufsize ctx; firstframe := firstframe ctx; eof := eof ctx; error := error ctx |}.

Definition set_cipher (v : EVP_CIPHER_CTX) (ctx : sbk_ctx) : sbk_ctx :=
  {| fp := fp ctx; db := db ctx; db_version := db_version ctx; attachments := attachments ctx; recipients := recipients ctx; cipher := v; hmac := hmac ctx; cipherkey := cipherkey ctx; mackey := mackey ctx; iv := iv ctx; counter := counter ctx; ibuf := ibuf ctx; ibufsize := ibufsize ctx; obuf := obuf ctx; obufsize := obufsize ctx; firstframe := firstframe ctx; eof := eof ctx; error := error ctx |}.

Definition set_hmac (v : HMAC_CTX) (ctx : sbk_ctx) : sbk_ctx :=
  {| fp := fp ctx; db := db ctx; db_version := db_version ctx; attachments := attachments ctx; recipients := recipients ctx; cipher := cipher ctx; hmac := v; cipherkey := cipherkey ctx; mackey := mackey ctx; iv := iv ctx; counter := counter ctx; ibuf := ibuf ctx; ibufsize := ibufsize ctx; obuf := obuf ctx; obufsize := obufsize ctx; firstframe := firstframe ctx; eof := eof ctx; error := error ctx |}.

Definition set_cipherkey (v : list byte) (ctx : sbk_ctx) : sbk_ctx :=
  {| fp := fp ctx; db := db ctx; db_version := db_version ctx; attachments := attachments ctx; recipients := recipients ctx; cipher := cipher ctx; hmac := hmac ctx; cipherkey := v; mackey := mackey ctx; iv := iv ctx; counter := counter ctx; ibuf := ibuf ctx; ibufsize := ibufsize ctx; obuf := obuf ctx; obufsize := obufsize ctx; firstframe := firstframe ctx; eof := eof ctx; error := error ctx |}.

Definition set_mackey (v : list byte) (ctx : sbk_ctx) : sbk_ctx :=
  {| fp := fp ctx; db := db ctx; db_version := db_version ctx; attachments := attachments ctx; recipients := recipients ctx; cipher := cipher ctx; hmac := hmac ctx; cipherkey := cipherkey ctx; mackey := v; iv := iv ctx; counter := counter ctx; ibuf := ibuf ctx; ibufsize := ibufsize ctx; obuf := obuf ctx; obufsize := obufsize ctx; firstframe := firstframe ctx; eof := eof ctx; error := error ctx |}.

Definition set_iv (v : list byte) (ctx : sbk_ctx) : sbk_ctx :=
  {| fp := fp ctx; db := db ctx; db_version := db_version ctx; attachments := attachments ctx; recipients := recipients ctx; cipher := cipher ctx; hmac := hmac ctx; cipherkey := cipherkey ctx; mackey := mackey ctx; iv := v; counter := counter ctx; ibuf := ibuf ctx; ibufsize := ibufsize ctx; obuf := obuf ctx; obufsize := obufsize ctx; firstframe := firstframe ctx; eof := eof ctx; error := error ctx |}.

Definition set_counter (v : Z) (ctx : sbk_ctx) : sbk_ctx :=
  {| fp := fp ctx; db := db ctx; db_version := db_version ctx; attachments := attachments ctx; recipients := recipients ctx; cipher := cipher ctx; hmac := hmac ctx; cipherkey := cipherkey ctx; mackey := mackey ctx; iv := iv ctx; counter := v; ibuf := ibuf ctx; ibufsize := ibufsize ctx; obuf := obuf ctx; obufsize := obufsize ctx; firstframe := firstframe ctx; eof := eof ctx; error := error ctx |}.

Definition set_ibuf (v : list byte) (ctx : sbk_ctx) : sbk_ctx :=
  {| fp := fp ctx; db := db ctx; db_version := db_version ctx; attachments := attachments ctx; recipients := recipients ctx; cipher := cipher ctx; hmac := hmac ctx; cipherkey := cipherkey ctx; mackey := mackey ctx; iv := iv ctx; counter := counter ctx; ibuf := v; ibufsize := ibufsize ctx; obuf := obuf ctx; obufsize := obufsize ctx; firstframe := firstframe ctx; eof := eof ctx; error := error ctx |}.

Definition set_ibufsize (v : Z) (ctx : sbk_ctx) : sbk_ctx :=
  {| fp := fp ctx; db := db ctx; db_version := db_version ctx; attachments := attachments ctx; recipients := recipients ctx; cipher := cipher ctx; hmac := hmac ctx; cipherkey := cipherkey ctx; mackey := mackey ctx; iv := iv ctx; counter := counter ctx; ibuf := ibuf ctx; ibufsize := v; obuf := obuf ctx; obufsize := obufsize ctx; firstframe := firstframe ctx; eof := eof ctx; error := error ctx |}.

Definition set_obuf (v : list byte) (ctx : sbk_ctx) : sbk_ctx :=
  {| fp := fp ctx; db := db ctx; db_version := db_version ctx; attachments := attachments ctx; recipients := recipients ctx; cipher := cipher ctx; hmac := hmac ctx; cipherkey := cipherkey ctx; mackey := mackey ctx; iv := iv ctx; counter := counter ctx; ibuf := ibuf ctx; ibufsize := ibufsize ctx; obuf := v; obufsize := obufsize ctx; firstframe := firstframe ctx; eof := eof ctx; error := error ctx |}.

Definition set_obufsize (v : Z) (ctx : sbk_ctx) : sbk_ctx :=
  {| fp := fp ctx; db := db ctx; db_version := db_version ctx; attachments := attachments ctx; recipients := recipients ctx; cipher := cipher ctx; hmac := hmac ctx; cipherkey := cipherkey ctx; mackey := mackey ctx; iv := iv ctx; counter := counter ctx; ibuf := ibuf ctx; ibufsize := ibufsize ctx; obuf := obuf ctx; obufsize := v; firstframe := firstframe ctx; eof := eof ctx; error := error ctx |}.

Definition set_firstframe (v : bool) (ctx : sbk_ctx) : sbk_ctx :=
  {| fp := fp ctx; db := db ctx; db_version := db_version ctx; attachments := attachments ctx; recipients := recipients ctx; cipher := cipher ctx; hmac := hmac ctx; cipherkey := cipherkey ctx; mackey := mackey ctx; iv := iv ctx; counter := counter ctx; ibuf := ibuf ctx; ibufsize := ibufsize ctx; obuf := obuf ctx; obufsize := obufsize ctx; firstframe := v; eof := eof ctx; error := error ctx |}.

Definition set_eof (v : bool) (ctx : sbk_ctx) : sbk_ctx :=
  {| fp := fp ctx; db := db ctx; db_version := db_version ctx; attachments := attachments ctx; recipients := recipients ctx; cipher := cipher ctx; hmac := hmac ctx; cipherkey := cipherkey ctx; mackey := mackey ctx; iv := iv ctx; counter := counter ctx; ibuf := ibuf ctx; ibufsize := ibufsize ctx; obuf := obuf ctx; obufsize := obufsize ctx; firstframe := firstframe ctx; eof := v; error := error ctx |}.

Definition set_error (v : option sbk_errmsg) (ctx : sbk_ctx) : sbk_ctx :=
  {| fp := fp ctx; db := db ctx; db_version := db_version ctx; attachments := attachments ctx; recipients := recipients ctx; cipher := cipher ctx; hmac := hmac ctx; cipherkey := cipherkey ctx; mackey := mackey ctx; iv := iv ctx; counter := counter ctx; ibuf := ibuf ctx; ibufsize := ibufsize ctx; obuf := obuf ctx; obufsize := obufsize ctx; firstframe := firstframe ctx; eof := eof ctx; error := v |}.

(** A function of sbk.c that takes the context: it returns a result, or
    fails (the C function returns -1 or NULL), and leaves a context. *)
Definition M (A : Type) : Type := sbk_ctx -> option A * sbk_ctx.

Definition ret {A} (a : A) : M A := fun ctx => (Some a, ctx).

Definition bind {A B} (c : M A) (k : A -> M B) : M B :=
  fun ctx =>
    match c ctx with
    | (Some a, ctx') => k a ctx'
    | (None, ctx') => (None, ctx')
    end.

Definition get : M sbk_ctx := fun ctx => (Some ctx, ctx).

Definition modify (f : sbk_ctx -> sbk_ctx) : M unit :=
  fun ctx => (Some tt, f ctx).

(** Return -1 (or NULL) without touching the context. *)
Definition fail {A} : M A := fun ctx => (None, ctx).

Notation "x <- c ;; k" := (bind c (fun x => k))
  (at level 100, c at next level, right associativity).
Notation "c ;;; k" := (bind c (fun _ => k))
  (at level 100, right associativity).

Definition sbk_error_set {A} (msg : option string) : M A :=
  fun ctx => (None, set_error (Some (Errno msg)) ctx).

Definition sbk_error_setx {A} (msg : string) : M A :=
  fun ctx => (None, set_error (Some (Errx msg)) ctx).

Definition sbk_error_sqlite_set {A} (msg : string) : M A :=
  fun ctx => (None, set_error (Some (ErrSqlite msg)) ctx).

(** realloc() succeeds in this model. *)
Definition sbk_enlarge_buffers (size : Z) : M unit :=
  ctx <- get ;;
  (if ibufsize ctx <? size then modify (set_ibufsize size) else ret tt) ;;;
  if SIZE_MAX - EVP_MAX_BLOCK_LENGTH <? size then
    sbk_error_setx "Buffer size too large"
  else
    let size := size + EVP_MAX_BLOCK_LENGTH in
    ctx <- get ;;
    if obufsize ctx <? size then modify (set_obufsize size) else ret tt.

(** The IV with its first four bytes replaced by the counter, big-endian. *)
Definition counter_iv (iv : list byte) (counter : Z) : list byte :=
  <[3%nat := B counter]>
    (<[2%nat := B (Z.shiftr counter 8)]>
      (<[1%nat := B (Z.shiftr counter 16)]>
        (<[0%nat := B (Z.shiftr counter 24)]> iv))).

(** HMAC_Init_ex(ctx->hmac, NULL, 0, NULL, NULL) restarts the HMAC with
    the key it has; EVP_DecryptInit_ex restarts the cipher with the key and
    IV given.  Both succeed on the contexts sbk_open has set up. *)
Definition sbk_decrypt_init (counter : Z) : M unit :=
  ctx <- get ;;
  let iv' := counter_iv (iv ctx) counter in
  modify (set_iv iv') ;;;
  modify (set_hmac {| hmac_key := hmac_key (hmac ctx); hmac_data := [] |}) ;;;
  modify (set_cipher {| cipher_key := cipherkey ctx; cipher_iv := iv';
                        cipher_num := 0 |}).

Fixpoint ctr_crypt (key iv : list byte) (i : nat) (data : list byte)
  : list byte :=
  match data with
  | [] => []
  | b :: data' =>
      byte_xor b (AES256_CTR_keystream key iv i) :: ctr_crypt key iv (S i) data'
  end.

Definition HMAC_Update (h : HMAC_CTX) (data : list byte) : HMAC_CTX :=
  {| hmac_key := hmac_key h; hmac_data := hmac_data h ++ data |}.

Definition HMAC_Final (h : HMAC_CTX) : list byte :=
  HMAC_SHA256 (hmac_key h) (hmac_data h).

Definition EVP_DecryptUpdate (c : EVP_CIPHER_CTX) (data : list byte)
  : EVP_CIPHER_CTX * list byte :=
  ({| cipher_key := cipher_key c; cipher_iv := cipher_iv c;
      cipher_num := cipher_num c + List.length data |},
   ctr_crypt (cipher_key c) (cipher_iv c) (cipher_num c) data).

(** In CTR mode EVP_DecryptFinal_ex has nothing left to write. *)
Definition EVP_DecryptFinal_ex (c : EVP_CIPHER_CTX) : list byte := [].

(** Returns [*obuflen]; the plaintext is left in ctx->obuf. *)
Definition sbk_decrypt_update (ibuflen : nat) : M nat :=
  ctx <- get ;;
  let data := firstn ibuflen (ibuf ctx) in
  modify (set_hmac (HMAC_Update (hmac ctx) data)) ;;;
  let (c', out) := EVP_DecryptUpdate (cipher ctx) data in
  modify (set_cipher c') ;;;
  modify (set_obuf out) ;;;
  ret (List.length out).

(** Takes and returns [*obuflen]. *)
Definition sbk_decrypt_final (obuflen : nat) (theirmac : list byte) : M nat :=
  ctx <- get ;;
  let out := EVP_DecryptFinal_ex (cipher ctx) in
  modify (set_obuf (firstn obuflen (obuf ctx) ++ out)) ;;;
  let obuflen := (obuflen + List.length out)%nat in
  let ourmac := HMAC_Final (hmac ctx) in
  if negb (bytes_eqb (firstn SBK_MAC_LEN ourmac) (firstn SBK_MAC_LEN theirmac))
  then sbk_error_setx "HMAC mismatch"
  else ret obuflen.

(** fread(ptr, size, 1, ctx->fp): one item of [size] bytes, or nothing.
    The stream has no read errors, so a short read is the end of the
    file. *)
Definition sbk_read (size : nat) : M (list byte) :=
  ctx <- get ;;
  match fp ctx with
  | None => sbk_error_set None
  | Some f =>
      if (size =? 0)%nat then sbk_error_setx "Unexpected end of file"
      else if (f_pos f + size <=? List.length (f_data f))%nat then
        modify (set_fp (Some {| f_data := f_data f;
                                f_pos := f_pos f + size |})) ;;;
        ret (firstn size (skipn (f_pos f) (f_data f)))
      else
        modify (set_fp (Some {| f_data := f_data f;
                                f_pos := Nat.max (f_pos f)
                                           (List.length (f_data f)) |})) ;;;
        sbk_error_setx "Unexpected end of file"
  end.

(** On success the frame is in ctx->ibuf and its length is returned. *)
Definition sbk_read_frame : M nat :=
  lenbuf <- sbk_read 4 ;;
  let b i := Zb (nth i lenbuf x00) in
  let len :=
    to_signed 32
      (Z.lor (Z.shiftl (b 0%nat) 24)
         (Z.lor (Z.shiftl (b 1%nat) 16)
            (Z.lor (Z.shiftl (b 2%nat) 8) (b 3%nat)))) in
  if len <=? 0 then sbk_error_setx "Invalid frame size"
  else
    sbk_enlarge_buffers len ;;;
    data <- sbk_read (Z.to_nat len) ;;
    modify (set_ibuf data) ;;;
    ret (Z.to_nat len).

Definition sbk_has_file_data (frm : Pb.Signal__BackupFrame) : bool :=
  non_null (Pb.frm_attachment frm) || non_null (Pb.frm_avatar frm) ||
  non_null (Pb.frm_sticker frm).

(** The length sbk_skip_file_data takes: that of the first of attachment,
    avatar and sticker that is present and has a length. *)
Definition file_data_length (frm : Pb.Signal__BackupFrame) : option Z :=
  let of_sticker :=
    match Pb.frm_sticker frm with
    | Some sti =>
        if Pb.sti_has_length sti then Some (Pb.sti_length sti) else None
    | None => None
    end in
  let of_avatar :=
    match Pb.frm_avatar frm with
    | Some ava =>
        if Pb.ava_has_length ava then Some (Pb.ava_length ava)
        else of_sticker
    | None => of_sticker
    end in
  match Pb.frm_attachment frm with
  | Some att =>
      if Pb.att_has_length att then Some (Pb.att_length att) else of_avatar
  | None => of_avatar
  end.

(** fseek(ctx->fp, offset, SEEK_CUR) with an offset that is not negative. *)
Definition fseek_cur (offset : Z) : M unit :=
  ctx <- get ;;
  match fp ctx with
  | None => sbk_error_set (Some "Cannot seek"%string)
  | Some f =>
      modify (set_fp (Some {| f_data := f_data f;
                              f_pos := f_pos f + Z.to_nat offset |}))
  end.

Definition fseek_set (offset : nat) : M unit :=
  ctx <- get ;;
  match fp ctx with
  | None => sbk_error_set (Some "Cannot seek"%string)
  | Some f =>
      modify (set_fp (Some {| f_data := f_data f; f_pos := offset |}))
  end.

(** [len + SBK_MAC_LEN] is computed in uint32_t. *)
Definition sbk_skip_file_data (frm : Pb.Signal__BackupFrame) : M unit :=
  match file_data_length frm with
  | None => sbk_error_setx "Invalid frame"
  | Some len =>
      fseek_cur (uint32 (len + Z.of_nat SBK_MAC_LEN)) ;;;
      ctx <- get ;;
      modify (set_counter (uint32 (counter ctx + 1)))
  end.

Definition sbk_unpack_frame (buf : list byte) : M Pb.Signal__BackupFrame :=
  match Pb.signal__backup_frame__unpack buf with
  | None => sbk_error_setx "Cannot unpack frame"
  | Some frm => ret frm
  end.

(** malloc() succeeds in this model; ftell() fails on a closed stream. *)
Definition sbk_get_file (frm : Pb.Signal__BackupFrame) : M sbk_file :=
  ctx <- get ;;
  match fp ctx with
  | None => sbk_error_set None
  | Some f =>
      let mk len := ret {| pos := f_pos f; len_ := len;
                           counter_ := counter ctx |} in
      match Pb.frm_attachment frm with
      | Some att =>
          if negb (Pb.att_has_length att) then
            sbk_error_setx "Invalid attachment frame"
          else mk (Pb.att_length att)
      | None =>
          match Pb.frm_avatar frm with
          | Some ava =>
              if negb (Pb.ava_has_length ava) then
                sbk_error_setx "Invalid avatar frame"
              else mk (Pb.ava_length ava)
          | None =>
              match Pb.frm_sticker frm with
              | Some sti =>
                  if negb (Pb.sti_has_length sti) then
                    sbk_error_setx "Invalid sticker frame"
                  else mk (Pb.sti_length sti)
              | None => mk 0
              end
          end
      end
  end.

(** [want_file] says whether the C caller passes a [file] pointer; the
    result is the frame and [*file].  NULL is returned without an error
    when ctx->eof is set. *)
Definition sbk_get_frame (want_file : bool)
  : M (Pb.Signal__BackupFrame * option sbk_file) :=
  ctx <- get ;;
  if eof ctx then fail
  else
    ibuflen <- sbk_read_frame ;;
    ctx <- get ;;
    if firstframe ctx then
      modify (set_firstframe false) ;;;
      frm <- sbk_unpack_frame (firstn ibuflen (ibuf ctx)) ;;
      ret (frm, None)
    else if (ibuflen <=? SBK_MAC_LEN)%nat then
      sbk_error_setx "Invalid frame size"
    else
      let ibuflen := (ibuflen - SBK_MAC_LEN)%nat in
      let mac := skipn ibuflen (ibuf ctx) in
      sbk_decrypt_init (counter ctx) ;;;
      obuflen <- sbk_decrypt_update ibuflen ;;
      obuflen <- sbk_decrypt_final obuflen mac ;;
      ctx <- get ;;
      frm <- sbk_unpack_frame (firstn obuflen (obuf ctx)) ;;
      (if Pb.frm_has_end frm then modify (set_eof true) else ret tt) ;;;
      ctx <- get ;;
      modify (set_counter (uint32 (counter ctx + 1))) ;;;
      if sbk_has_file_data frm then
        if negb want_file then
          sbk_skip_file_data frm ;;;
          ret (frm, None)
        else
          file <- sbk_get_file frm ;;
          sbk_skip_file_data frm ;;;
          ret (frm, Some file)
      else ret (frm, None).

(** fwrite(buf, size, 1, fp): one item of [size] bytes; it returns 0 when
    [size] is 0, and the stream has no write errors. *)
Definition fwrite (buf : list byte) (out : list byte) : Z * list byte :=
  if (List.length buf =? 0)%nat then (0, out) else (1, out ++ buf).

(** The loop [for (len = file->len; len > 0; len -= ibuflen)] of
    sbk_write_file.  [out] is the stream [fp] ([None] for NULL); it is
    returned also when the call fails, with what was written before.  Each
    round reads at least one byte or fails, so [len] bounds the rounds. *)
Fixpoint sbk_write_file_loop (fuel len : nat) (out : option (list byte))
    (ctx : sbk_ctx) : option unit * option (list byte) * sbk_ctx :=
  if (len =? 0)%nat then (Some tt, out, ctx)
  else
    match fuel with
    | O => (None, out, ctx)
    | S fuel' =>
        let ibuflen := if (len <? BUFSIZ)%nat then len else BUFSIZ in
        match (data <- sbk_read ibuflen ;;
               modify (set_ibuf data) ;;;
               sbk_decrypt_update ibuflen) ctx with
        | (None, ctx') => (None, out, ctx')
        | (Some obuflen, ctx') =>
            match out with
            | None => sbk_write_file_loop fuel' (len - ibuflen) None ctx'
            | Some o =>
                let (n, o') := fwrite (firstn obuflen (obuf ctx')) o in
                if negb (n =? 1) then
                  (None, Some o',
                   snd (sbk_error_set (A := unit)
                          (Some "Cannot write file"%string) ctx'))
                else
                  sbk_write_file_loop fuel' (len - ibuflen) (Some o') ctx'
            end
        end
    end.

Definition sbk_write_file (file : sbk_file) (out : option (list byte))
    (ctx : sbk_ctx) : option unit * option (list byte) * sbk_ctx :=
  match (sbk_enlarge_buffers (Z.of_nat BUFSIZ) ;;;
         fseek_set (pos file) ;;;
         sbk_decrypt_init (counter_ file) ;;;
         ctx <- get ;;
         modify (set_hmac (HMAC_Update (hmac ctx)
                             (firstn SBK_IV_LEN (iv ctx))))) ctx with
  | (None, ctx) => (None, out, ctx)
  | (Some _, ctx) =>
      let len := Z.to_nat (len_ file) in
      match sbk_write_file_loop len len out ctx with
      | (None, out, ctx) => (None, out, ctx)
      | (Some _, out, ctx) =>
          match (mac <- sbk_read SBK_MAC_LEN ;;
                 sbk_decrypt_final 0 mac) ctx with
          | (None, ctx) => (None, out, ctx)
          | (Some obuflen, ctx) =>
              match out with
              | Some o =>
                  if (0 <? obuflen)%nat then
                    let (n, o') := fwrite (firstn obuflen (obuf ctx)) o in
                    if negb (n =? 1) then
                      (None, Some o',
                       snd (sbk_error_set (A := unit)
                              (Some "Cannot write file"%string) ctx))
                    else (Some tt, Some o', ctx)
                  else (Some tt, out, ctx)
              | None => (Some tt, None, ctx)
              end
          end
      end
  end.

(** The loop of sbk_get_file_as_string; [str] is what has been copied to
    the result so far. *)
Fixpoint sbk_get_file_as_string_loop (fuel len : nat) (str : list byte)
  : M (list byte) :=
  if (len =? 0)%nat then ret str
  else
    match fuel with
    | O => fail
    | S fuel' =>
        let ibuflen := if (len <? BUFSIZ)%nat then len else BUFSIZ in
        data <- sbk_read ibuflen ;;
        modify (set_ibuf data) ;;;
        obuflen <- sbk_decrypt_update ibuflen ;;
        ctx <- get ;;
        sbk_get_file_as_string_loop fuel' (len - ibuflen)
          (str ++ firstn obuflen (obuf ctx))
    end.

(** The result is the buffer before the NUL that ends it. *)
Definition sbk_get_file_as_string (file : sbk_file) : M (list byte) :=
  sbk_enlarge_buffers (Z.of_nat BUFSIZ) ;;;
  fseek_set (pos file) ;;;
  if SIZE_MAX - EVP_MAX_BLOCK_LENGTH - 1 <? len_ file then
    sbk_error_setx "File too large"
  else
    sbk_decrypt_init (counter_ file) ;;;
    ctx <- get ;;
    modify (set_hmac (HMAC_Update (hmac ctx) (firstn SBK_IV_LEN (iv ctx)))) ;;;
    let len := Z.to_nat (len_ file) in
    str <- sbk_get_file_as_string_loop len len [] ;;
    mac <- sbk_read SBK_MAC_LEN ;;
    obuflen <- sbk_decrypt_final 0 mac ;;
    ctx <- get ;;
    ret (if (0 <? obuflen)%nat then str ++ firstn obuflen (obuf ctx)
         else str).

(** [salt] is [None] for a NULL pointer.  The loop runs SBK_ROUNDS - 1
    times. *)
Definition sbk_compute_keys (passphr : list byte) (salt : option (list byte))
  : M unit :=
  let key :=
    SHA512 ((match salt with Some s => s | None => [] end)
            ++ passphr ++ passphr) in
  let key :=
    N.iter (SBK_ROUNDS - 1) (fun key => SHA512 (key ++ passphr)) key in
  match HKDF_SHA256 SBK_DERIVKEY_LEN (firstn SBK_KEY_LEN key) []
          SBK_HKDF_INFO with
  | None => sbk_error_setx "Cannot compute keys"
  | Some derivkey =>
      modify (set_cipherkey (firstn SBK_CIPHERKEY_LEN derivkey)) ;;;
      modify (set_mackey
                (firstn SBK_MACKEY_LEN (skipn SBK_CIPHERKEY_LEN derivkey)))
  end.

Definition sbk_rewind : M unit :=
  fseek_set 0 ;;;
  modify (set_eof false) ;;;
  modify (set_firstframe true).

Definition explicit_bzero (n : nat) : list byte := repeat x00 n.

(** [fs path] is the contents of the file fopen() opens, [None] when it
    cannot be opened.  After [goto error] the keys are zeroed and the
    stream is closed. *)
Definition sbk_open (fs : string -> option (list byte)) (path : string)
    (passphr : list byte) : M unit :=
  match fs path with
  | None => sbk_error_set None
  | Some data =>
      fun ctx =>
        match
          (modify (set_fp (Some {| f_data := data; f_pos := 0 |})) ;;;
           modify (set_firstframe true) ;;;
           modify (set_eof false) ;;;
           r <- sbk_get_frame false ;;
           match Pb.frm_header (fst r) with
           | None => sbk_error_setx "Missing header frame"
           | Some hdr =>
               if negb (Pb.has_iv hdr) then sbk_error_setx "Missing IV"
               else if negb (List.length (Pb.iv hdr) =? SBK_IV_LEN)%nat then
                 sbk_error_setx "Invalid IV size"
               else
                 modify (set_iv (Pb.iv hdr)) ;;;
                 let b i := Zb (nth i (Pb.iv hdr) x00) in
                 modify (set_counter
                           (uint32
                              (Z.lor (Z.shiftl (b 0%nat) 24)
                                 (Z.lor (Z.shiftl (b 1%nat) 16)
                                    (Z.lor (Z.shiftl (b 2%nat) 8)
                                       (b 3%nat)))))) ;;;
                 sbk_compute_keys passphr
                   (if Pb.has_salt hdr then Some (Pb.salt hdr) else None) ;;;
                 ctx <- get ;;
                 modify (set_hmac
                           {| hmac_key := firstn SBK_MACKEY_LEN (mackey ctx);
                              hmac_data := [] |}) ;;;
                 sbk_rewind ;;;
                 modify (set_db None) ;;;
                 modify (set_db_version 0) ;;;
                 modify (set_attachments ∅) ;;;
                 modify (set_recipients [])
           end) ctx
        with
        | (Some _, ctx') => (Some tt, ctx')
        | (None, ctx') =>
            (None,
             set_fp None
               (set_mackey (explicit_bzero SBK_MACKEY_LEN)
                  (set_cipherkey (explicit_bzero SBK_CIPHERKEY_LEN) ctx')))
        end
  end.

(** *** SQLite wrappers *)

Definition sbk_sqlite_bind (r : option sqlite3_stmt) : M sqlite3_stmt :=
  match r with
  | None => sbk_error_sqlite_set "Cannot bind SQL parameter"
  | Some stm => ret stm
  end.

Definition sbk_sqlite_bind_blob (stm : sqlite3_stmt) (idx : Z)
    (val : list byte) : M sqlite3_stmt :=
  sbk_sqlite_bind (sqlite3_bind_blob stm idx val).

Definition sbk_sqlite_bind_double (stm : sqlite3_stmt) (idx : Z) (val : Z)
  : M sqlite3_stmt :=
  sbk_sqlite_bind (sqlite3_bind_double stm idx val).

Definition sbk_sqlite_bind_int (stm : sqlite3_stmt) (idx : Z) (val : Z)
  : M sqlite3_stmt :=
  sbk_sqlite_bind (sqlite3_bind_int stm idx val).

Definition sbk_sqlite_bind_int64 (stm : sqlite3_stmt) (idx : Z) (val : Z)
  : M sqlite3_stmt :=
  sbk_sqlite_bind (sqlite3_bind_int64 stm idx val).

Definition sbk_sqlite_bind_null (stm : sqlite3_stmt) (idx : Z)
  : M sqlite3_stmt :=
  sbk_sqlite_bind (sqlite3_bind_null stm idx).

(** The text is passed with length -1: SQLite takes the C string. *)
Definition sbk_sqlite_bind_text (stm : sqlite3_stmt) (idx : Z)
    (val : list byte) : M sqlite3_stmt :=
  sbk_sqlite_bind (sqlite3_bind_text stm idx (strz val)).

(** The active branch (notyet is not defined): strdup() of the column
    text. *)
Definition sbk_sqlite_column_text_copy (stm : sqlite3_stmt) (idx : Z)
  : M (option (list byte)) :=
  if sqlite3_column_type stm idx =? SQLITE_NULL then ret None
  else
    match sqlite3_column_text stm idx with
    | None => sbk_error_sqlite_set "Cannot get column text"
    | Some txt => ret (Some (strz txt))
    end.

Definition sbk_sqlite_open (path : list byte) : M sqlite3 :=
  match sqlite3_open path with
  | None => sbk_error_sqlite_set "Cannot open database"
  | Some d => ret d
  end.

(** A call on a NULL database handle fails in SQLite. *)
Definition sbk_sqlite_prepare (query : list byte) : M sqlite3_stmt :=
  ctx <- get ;;
  match db ctx with
  | None => sbk_error_sqlite_set "Cannot prepare SQL statement"
  | Some d =>
      match sqlite3_prepare_v2 d (strz query) with
      | None => sbk_error_sqlite_set "Cannot prepare SQL statement"
      | Some stm => ret stm
      end
  end.

Definition SQLITE_MISUSE : Z := 21.

(** Returns the result code, with the error set when it is neither
    SQLITE_ROW nor SQLITE_DONE. *)
Definition sbk_sqlite_step (stm : sqlite3_stmt) : M Z :=
  fun ctx =>
    match db ctx with
    | None =>
        (Some SQLITE_MISUSE,
         set_error (Some (ErrSqlite "Cannot execute SQL statement")) ctx)
    | Some d =>
        let (rc, d') := sqlite3_step d stm in
        let ctx' := set_db (Some d') ctx in
        if negb (rc =? SQLITE_ROW) && negb (rc =? SQLITE_DONE) then
          (Some rc,
           set_error (Some (ErrSqlite "Cannot execute SQL statement")) ctx')
        else (Some rc, ctx')
    end.

Definition sbk_sqlite_exec (sql : list byte) : M unit :=
  ctx <- get ;;
  match db ctx with
  | None => sbk_error_sqlite_set "Cannot execute SQL statement"
  | Some d =>
      match sqlite3_exec d sql with
      | None => sbk_error_sqlite_set "Cannot execute SQL statement"
      | Some d' => modify (set_db (Some d'))
      end
  end.

(** *** The attachment tree *)

(** sbk_cmp_attachment_entries, on the keys (rowid, attachmentid) of two
    entries. *)
Definition sbk_cmp_attachment_entries (a b : Z * Z) : Z :=
  if fst a <? fst b then -1
  else if fst b <? fst a then 1
  else if snd a <? snd b then -1
  else if snd b <? snd a then 1 else 0.

(** RB_INSERT leaves the tree as it is when the key is present. *)
Definition sbk_insert_attachment_entry (frm : Pb.Signal__BackupFrame)
    (file : option sbk_file) : M unit :=
  match Pb.frm_attachment frm with
  | None => fail
  | Some att =>
      if negb (Pb.att_has_rowid att) || negb (Pb.att_has_attachmentid att)
      then sbk_error_setx "Invalid attachment frame"
      else
        let key := (to_signed 64 (Pb.att_rowid att),
                    to_signed 64 (Pb.att_attachmentid att)) in
        ctx <- get ;;
        match attachments ctx !! key with
        | Some _ => ret tt
        | None => modify (set_attachments (<[key := file]> (attachments ctx)))
        end
  end.

Definition sbk_get_attachment_file (ctx : sbk_ctx) (rowid attachmentid : Z)
  : option sbk_file :=
  match attachments ctx !! (rowid, attachmentid) with
  | Some file => file
  | None => None
  end.

(** *** Replaying statements *)

Definition sbk_bind_param (stm : sqlite3_stmt) (idx : Z)
    (par : Pb.Signal__SqlStatement__SqlParameter) : M sqlite3_stmt :=
  match Pb.stringparamter par with
  | Some str => sbk_sqlite_bind_text stm idx str
  | None =>
      if Pb.has_integerparameter par then
        sbk_sqlite_bind_int64 stm idx
          (to_signed 64 (Pb.integerparameter par))
      else if Pb.has_doubleparameter par then
        sbk_sqlite_bind_double stm idx (Pb.doubleparameter par)
      else if Pb.has_blobparameter par then
        sbk_sqlite_bind_blob stm idx (Pb.blobparameter par)
      else if Pb.has_nullparameter par then
        sbk_sqlite_bind_null stm idx
      else sbk_error_setx "Unknown SQL parameter type"
  end.

Definition tolower (c : byte) : Z :=
  let z := Zb c in
  if (Zb "A" <=? z) && (z <=? Zb "Z") then z + 32 else z.

(** strncasecmp() in the C locale; a list ends with the NUL of its C
    string. *)
Fixpoint strncasecmp (s1 s2 : list byte) (n : nat) : Z :=
  match n with
  | O => 0
  | S n' =>
      let c1 := hd x00 s1 in
      let c2 := hd x00 s2 in
      if negb (tolower c1 =? tolower c2) then tolower c1 - tolower c2
      else if Zb c1 =? 0 then 0
      else strncasecmp (tl s1) (tl s2) n'
  end.

(** The loop [for (i = 0; i < sql->n_parameters; i++)], from index [i]. *)
Fixpoint sbk_bind_params (stm : sqlite3_stmt) (i : Z)
    (pars : list Pb.Signal__SqlStatement__SqlParameter) : M sqlite3_stmt :=
  match pars with
  | [] => ret stm
  | par :: pars' =>
      stm' <- sbk_bind_param stm (i + 1) par ;;
      sbk_bind_params stm' (i + 1) pars'
  end.

Definition sbk_exec_statement (sql : Pb.Signal__SqlStatement) : M unit :=
  match Pb.statement sql with
  | None => sbk_error_setx "Invalid SQL frame"
  | Some text =>
      if strncasecmp text (cstr "create table sqlite_") 20 =? 0 then ret tt
      else
        stm <- sbk_sqlite_prepare text ;;
        stm <- sbk_bind_params stm 0 (Pb.parameters sql) ;;
        rc <- sbk_sqlite_step stm ;;
        if negb (rc =? SQLITE_DONE) then fail else ret tt
  end.

(** The decimal digits printf("%" PRIu32) writes. *)
Definition decimal (n : Z) : list byte :=
  cstr (NilZero.string_of_uint (N.to_uint (Z.to_N n))).

Definition sbk_set_database_version (ver : Pb.Signal__DatabaseVersion)
  : M unit :=
  if negb (Pb.ver_has_version ver) then
    sbk_error_setx "Invalid version frame"
  else
    modify (set_db_version (Pb.ver_version ver)) ;;;
    sbk_sqlite_exec (cstr "PRAGMA user_version = "
                     ++ decimal (Pb.ver_version ver)).

(** The body of the loop of sbk_create_database for one frame. *)
Definition sbk_replay_frame (frm : Pb.Signal__BackupFrame)
    (file : option sbk_file) : M unit :=
  match Pb.frm_version frm with
  | Some ver => sbk_set_database_version ver
  | None =>
      match Pb.frm_statement frm with
      | Some sql => sbk_exec_statement sql
      | None =>
          if non_null (Pb.frm_attachment frm) then
            sbk_insert_attachment_entry frm file
          else ret tt
      end
  end.

(** [while ((frm = sbk_get_frame(ctx, &file)) != NULL)]: the loop ends
    when no frame is returned, and fails when a frame's action fails. *)
Fixpoint sbk_replay_frames (fuel : nat) : M unit :=
  match fuel with
  | O => fail
  | S fuel' =>
      fun ctx =>
        match sbk_get_frame true ctx with
        | (None, ctx') => (Some tt, ctx')
        | (Some (frm, file), ctx') =>
            match sbk_replay_frame frm file ctx' with
            | (None, ctx'') => (None, ctx'')
            | (Some _, ctx'') => sbk_replay_frames fuel' ctx''
            end
        end
  end.

(** Every frame read takes bytes of the file, so the file's length bounds
    the number of frames. *)
Definition sbk_create_database : M unit :=
  fun ctx =>
    if non_null (db ctx) then (Some tt, ctx)
    else
      match
        (d <- sbk_sqlite_open (cstr ":memory:") ;;
         modify (set_db (Some d)) ;;;
         sbk_rewind ;;;
         sbk_sqlite_exec (cstr "BEGIN TRANSACTION") ;;;
         ctx <- get ;;
         sbk_replay_frames
           (S (match fp ctx with
               | Some f => List.length (f_data f)
               | None => 0
               end)) ;;;
         sbk_sqlite_exec (cstr "END TRANSACTION") ;;;
         ctx <- get ;;
         if negb (eof ctx) then fail else ret tt) ctx
      with
      | (Some _, ctx') => (Some tt, ctx')
      | (None, ctx') => (None, set_db None (set_attachments ∅ ctx'))
      end.

(** *** Recipients *)

Fixpoint strcmp (s1 s2 : list byte) : Z :=
  match s1, s2 with
  | [], [] => 0
  | [], c :: _ => - Zb c
  | c :: _, [] => Zb c
  | c1 :: t1, c2 :: t2 =>
      if Zb c1 =? Zb c2 then strcmp t1 t2 else Zb c1 - Zb c2
  end.















(** *** Attachments *)

(** Modelled from the spec: struct sbk_attachment is declared in sigbak.h,
    which is not under src/; the fields are those sbk_get_attachment
    assigns.  [att_size] holds the data_size column, and is compared with
    the file's length as an integer: the column value is an int64_t and
    the length a uint32_t, so the C comparison agrees with it whether the
    field is declared int64_t or uint64_t. *)
Record sbk_attachment := {
  att_filename : option (list byte);
  att_content_type : option (list byte);
  att_rowid_ : Z;
  att_attachmentid_ : Z;
  att_status : Z;
  att_size : Z;
  att_file : option sbk_file
}.

Definition SBK_ATTACHMENTS_SELECT : string :=
  "SELECT file_name, ct, _id, unique_id, pending_push, data_size FROM part ".

Definition SBK_ATTACHMENTS_WHERE_THREAD : string :=
  "WHERE mid IN (SELECT _id FROM mms WHERE thread_id = ?) ".

Definition SBK_ATTACHMENTS_WHERE_MESSAGE : string := "WHERE mid = ? ".

Definition SBK_ATTACHMENTS_ORDER : string := "ORDER BY unique_id, _id".

Definition SBK_ATTACHMENTS_QUERY_ALL : list byte :=
  cstr (SBK_ATTACHMENTS_SELECT ++ SBK_ATTACHMENTS_ORDER).

Definition SBK_ATTACHMENTS_QUERY_THREAD : list byte :=
  cstr (SBK_ATTACHMENTS_SELECT ++ SBK_ATTACHMENTS_WHERE_THREAD
        ++ SBK_ATTACHMENTS_ORDER).

Definition SBK_ATTACHMENTS_QUERY_MESSAGE : list byte :=
  cstr (SBK_ATTACHMENTS_SELECT ++ SBK_ATTACHMENTS_WHERE_MESSAGE
        ++ SBK_ATTACHMENTS_ORDER).

Definition sbk_get_attachment (stm : sqlite3_stmt) : M sbk_attachment :=
  filename <- sbk_sqlite_column_text_copy stm 0 ;;
  content_type <- sbk_sqlite_column_text_copy stm 1 ;;
  let rowid := sqlite3_column_int64 stm 2 in
  let attachmentid := sqlite3_column_int64 stm 3 in
  let status := sqlite3_column_int stm 4 in
  let size := sqlite3_column_int64 stm 5 in
  let att file :=
    {| att_filename := filename; att_content_type := content_type;
       att_rowid_ := rowid; att_attachmentid_ := attachmentid;
       att_status := status; att_size := size; att_file := file |} in
  if status =? SBK_ATTACHMENT_TRANSFER_DONE then
    ctx <- get ;;
    match sbk_get_attachment_file ctx rowid attachmentid with
    | None => sbk_error_setx "Cannot find attachment file"
    | Some file =>
        if negb (size =? len_ file) then
          sbk_error_setx "Inconsistent attachment size"
        else ret (att (Some file))
    end
  else ret (att None).

(** The loop of sbk_get_attachments over the rows of the statement. *)
Fixpoint sbk_get_attachment_rows (rows : list sqlite3_stmt)
  : M (list sbk_attachment) :=
  match rows with
  | [] => ret []
  | row :: rows' =>
      att <- sbk_get_attachment row ;;
      lst <- sbk_get_attachment_rows rows' ;;
      ret (att :: lst)
  end.

Definition sbk_get_attachments (stm : sqlite3_stmt)
  : M (list sbk_attachment) :=
  ctx <- get ;;
  match db ctx with
  | None => sbk_error_sqlite_set "Cannot execute SQL statement"
  | Some d =>
      let (rows, rc) := sqlite3_rows d stm in
      lst <- sbk_get_attachment_rows rows ;;
      if negb (rc =? SQLITE_DONE) then
        sbk_error_sqlite_set "Cannot execute SQL statement"
      else ret lst
  end.

Definition sbk_get_all_attachments : M (list sbk_attachment) :=
  sbk_create_database ;;;
  stm <- sbk_sqlite_prepare SBK_ATTACHMENTS_QUERY_ALL ;;
  sbk_get_attachments stm.

Definition sbk_get_attachments_for_thread (thread_id : Z)
  : M (list sbk_attachment) :=
  sbk_create_database ;;;
  stm <- sbk_sqlite_prepare SBK_ATTACHMENTS_QUERY_THREAD ;;
  stm <- sbk_sqlite_bind_int stm 1 thread_id ;;
  sbk_get_attachments stm.

(** *** Mentions *)
















End Sbk.

(** ** cmd-attachments.c *)

Definition extensions : list (string * string) := [
  ("application/gzip", "gz");
  ("application/msword", "doc");
  ("application/pdf", "pdf");
  ("application/rtf", "rtf");
  ("application/vnd.oasis.opendocument.presentation", "odp");
  ("application/vnd.oasis.opendocument.spreadsheet", "ods");
  ("application/vnd.oasis.opendocument.text", "odt");
  ("application/vnd.openxmlformats-officedocument.presentationml.presentation",
   "pptx");
  ("application/vnd.openxmlformats-officedocument.spreadsheetml.sheet",
   "xlsx");
  ("application/vnd.openxmlformats-officedocument.wordprocessingml.document",
   "docx");
  ("application/vnd.rar", "rar");
  ("application/x-7z-compressed", "7z");
  ("application/x-bzip2", "bz2");
  ("application/x-tar", "tar");
  ("application/zip", "zip");

  ("audio/aac", "aac");
  ("audio/flac", "flac");
  ("audio/ogg", "ogg");
  ("audio/mp4", "mp4");
  ("audio/mpeg", "mp3");

  ("image/gif", "gif");
  ("image/jpeg", "jpg");
  ("image/png", "png");
  ("image/svg+xml", "svg");
  ("image/tiff", "tiff");
  ("image/webp", "webp");

  ("text/html", "html");
  ("text/plain", "txt");
  ("text/x-signal-plain", "txt");

  ("video/mp4", "mp4");
  ("video/mpeg", "mpg")
]%string.

(** The loop of get_extension over the entries from index [i] on. *)
Fixpoint get_extension_from (tbl : list (string * string))
    (type : list byte) : option (list byte) :=
  match tbl with
  | [] => None
  | (t, e) :: tbl' =>
      if strcmp (cstr t) type =? 0 then Some (cstr e)
      else get_extension_from tbl' type
  end.

Definition get_extension (type : list byte) : option (list byte) :=
  get_extension_from extensions type.

(** What the conversion "%" PRId64 prints: the decimal digits of the
    value, after a minus sign when it is negative. *)
Definition PRId64 (z : Z) : list byte :=
  cstr (NilZero.string_of_int (Z.to_int z)).

(** get_filename.  asprintf() fails only when memory runs out, which is
    not modelled, as for the allocations of sbk.c. *)
Definition get_filename (att : sbk_attachment) : list byte :=
  let ext :=
    match att_content_type att with
    | None => None
    | Some type => get_extension type
    end in
  PRId64 (att_rowid_ att) ++ cstr "-" ++ PRId64 (att_attachmentid_ att)
  ++ (if non_null ext then cstr "." else cstr "")
  ++ (match ext with Some e => e | None => cstr "" end).

#[global] Instance byte_eq_decision : EqDecision byte := Byte.byte_eq_dec.

#[global] Instance byte_countable : Countable byte :=
  inj_countable Byte.to_N Byte.of_N Byte.of_to_N.

(** The directory the attachments are written to: the contents of its
    files by name. *)
Abbreviation directory := (gmap (list byte) (list byte)).

(** fopen(fname, "wx") creates the file and fails when it exists; the
    result is the new, empty stream.  Other failures of fopen() (no
    permission, no space) are not modelled. *)
Definition fopen_wx (dir : directory) (fname : list byte)
  : option (list byte) :=
  match dir !! fname with
  | Some _ => None
  | None => Some []
  end.

Section CmdAttachments.
Context `{OpenSSL} `{Libc} `{SQLite}.

(** The TAILQ_FOREACH loop of write_attachments; [ret] is the variable of
    that name.  The file exists from fopen() on, and holds after fclose()
    what sbk_write_file wrote, also when that failed. *)
Fixpoint write_attachments_loop (lst : list sbk_attachment)
    (dir : directory) (ret : Z) (ctx : sbk_ctx)
  : Z * directory * sbk_ctx :=
  match lst with
  | [] => (ret, dir, ctx)
  | att :: lst' =>
      match att_file att with
      | None => write_attachments_loop lst' dir ret ctx
      | Some file =>
          let fname := get_filename att in
          match fopen_wx dir fname with
          | None => write_attachments_loop lst' dir 1 ctx
          | Some fp =>
              match sbk_write_file file (Some fp) ctx with
              | (r, out, ctx') =>
                  let written :=
                    match out with Some o => o | None => fp end in
                  write_attachments_loop lst' (<[fname := written]> dir)
                    (if non_null r then ret else 1) ctx'
              end
          end
      end
  end.

Definition write_attachments (lst : list sbk_attachment) (dir : directory)
    (ctx : sbk_ctx) : Z * directory * sbk_ctx :=
  write_attachments_loop lst dir 0 ctx.

End CmdAttachments.

(** ** Stand-ins for the libraries, to run the model on concrete backups

    These are not OpenSSL or SQLite: they are small functions with the
    interfaces above, so that the definitions can be evaluated. *)

Module Toy.

(** A running sum of 80 bits in which every input byte and its position
    count. *)
Definition mix (data : list byte) : Z :=
  fold_left (fun a b => (a * 31 + Zb b + 7) mod 2 ^ 80) data 1.

(** [n] bytes that depend on [z]. *)
Definition spread (n : nat) (z : Z) : list byte :=
  map (fun i => B (z + Z.of_nat i * 37)) (seq 0 n).

#[export] Instance openssl : OpenSSL := {
  SHA512 data := firstn 64 data;
  HMAC_SHA256 key data := Wire.le_bytes 32 (mix (key ++ x00 :: data));
  HKDF_SHA256 n secret salt info :=
    Some (spread n (mix (secret ++ x01 :: salt ++ x02 :: info)));
  AES256_CTR_keystream key iv i :=
    B (mix (key ++ iv) + Z.of_nat i * 13)
}.

#[export] Instance libc : Libc := {
  BUFSIZ := 4;
  SIZE_MAX := 2 ^ 64 - 1
}.

Inductive value :=
| VNull
| VInt (z : Z)
| VReal (bits : Z)
| VText (s : list byte)
| VBlob (s : list byte).

(** A statement: its SQL text, the parameters bound so far and the
    current row. *)
Record stmt := {
  st_sql : list byte;
  st_binds : list (Z * value);
  st_row : list value
}.

(** A database: the statements executed, and for each query text the rows
    it yields. *)
Record database := {
  db_log : list (list byte * list (Z * value));
  db_rows : list (list byte * list (list value))
}.

Definition bind_value (stm : stmt) (idx : Z) (v : value) : option stmt :=
  if idx <=? 0 then None
  else Some {| st_sql := st_sql stm; st_binds := st_binds stm ++ [(idx, v)];
               st_row := st_row stm |}.

Definition column (stm : stmt) (idx : Z) : value :=
  nth (Z.to_nat idx) (st_row stm) VNull.

Definition rows_of (d : database) (sql : list byte) : list (list value) :=
  match List.find (fun e => bytes_eqb (fst e) sql) (db_rows d) with
  | Some e => snd e
  | None => []
  end.

#[export] Instance sqlite : SQLite := {
  sqlite3 := database;
  sqlite3_stmt := stmt;
  sqlite3_open path := Some {| db_log := []; db_rows := [] |};
  sqlite3_exec d sql :=
    Some {| db_log := db_log d ++ [(sql, [])]; db_rows := db_rows d |};
  sqlite3_prepare_v2 d sql :=
    match sql with
    | [] => None
    | _ => Some {| st_sql := sql; st_binds := []; st_row := [] |}
    end;
  sqlite3_bind_blob stm idx v := bind_value stm idx (VBlob v);
  sqlite3_bind_double stm idx v := bind_value stm idx (VReal v);
  sqlite3_bind_int stm idx v := bind_value stm idx (VInt v);
  sqlite3_bind_int64 stm idx v := bind_value stm idx (VInt v);
  sqlite3_bind_null stm idx := bind_value stm idx VNull;
  sqlite3_bind_text stm idx v := bind_value stm idx (VText v);
  sqlite3_step d stm :=
    (SQLITE_DONE,
     {| db_log := db_log d ++ [(st_sql stm, st_binds stm)];
        db_rows := db_rows d |});
  sqlite3_rows d stm :=
    (map (fun r => {| st_sql := st_sql stm; st_binds := st_binds stm;
                      st_row := r |}) (rows_of d (st_sql stm)),
     SQLITE_DONE);
  sqlite3_column_type stm idx :=
    match column stm idx with
    | VNull => SQLITE_NULL
    | VInt _ => 1
    | VReal _ => 2
    | VText _ => 3
    | VBlob _ => 4
    end;
  sqlite3_column_text stm idx :=
    match column stm idx with
    | VText s | VBlob s => Some s
    | _ => Some []
    end;
  sqlite3_column_int stm idx :=
    match column stm idx with
    | VInt z => to_signed 32 z
    | _ => 0
    end;
  sqlite3_column_int64 stm idx :=
    match column stm idx with
    | VInt z => z
    | _ => 0
    end
}.

(** A context as sbk_ctx_new leaves it. *)
Definition ctx_new : sbk_ctx :=
  {| fp := None; db := None; db_version := 0; attachments := ∅;
     recipients := [];
     cipher := {| cipher_key := []; cipher_iv := []; cipher_num := 0 |};
     hmac := {| hmac_key := []; hmac_data := [] |};
     cipherkey := repeat x00 32; mackey := repeat x00 32;
     iv := repeat x00 16; counter := 0;
     ibuf := []; ibufsize := 1024; obuf := []; obufsize := 1056;
     firstframe := false; eof := false; error := None |}.

(** *** A sample backup *)

Definition be32_bytes (n : Z) : list byte := rev (Wire.le_bytes 4 n).

(** A record of the file: the length and the bytes. *)
Definition record (payload : list byte) : list byte :=
  be32_bytes (len payload) ++ payload.

Definition fs (data : list byte) (path : string) : option (list byte) :=
  if String.eqb path "backup" then Some data else None.

Definition passphrase : list byte := cstr "012345678901234567890123456789".

Definition header_iv : list byte :=
  [x00; x01; x02; x03; x04; x05; x06; x07;
   x08; x09; x0a; x0b; x0c; x0d; x0e; x0f].

Definition header_frame : list byte :=
  Wire.encode
    [ {| Wire.number := 1;
         Wire.payload :=
           Wire.LengthDelim
             (Wire.encode
                [ {| Wire.number := 1;
                     Wire.payload := Wire.LengthDelim header_iv |};
                  {| Wire.number := 2;
                     Wire.payload :=
                       Wire.LengthDelim [xaa; xbb; xcc; xdd] |} ]) |} ].

(** The context sbk_open leaves for a file that holds the header only. *)
Definition opened : sbk_ctx :=
  Eval vm_compute in
    snd (sbk_open (fs (record header_frame)) "backup" passphrase ctx_new).

(** An encrypted frame and an encrypted file, as the writer of a backup
    produces them for counter [c]. *)
Definition seal_frame (c : Z) (plain : list byte) : list byte :=
  let ct := ctr_crypt (cipherkey opened) (counter_iv header_iv c) 0 plain in
  record (ct ++ firstn 10 (HMAC_SHA256 (mackey opened) ct)).

Definition seal_file (c : Z) (plain : list byte) : list byte :=
  let ct := ctr_crypt (cipherkey opened) (counter_iv header_iv c) 0 plain in
  ct ++ firstn 10 (HMAC_SHA256 (mackey opened) (counter_iv header_iv c ++ ct)).

Definition frame_of (num : Z) (fields : list Wire.field) : list byte :=
  Wire.encode
    [ {| Wire.number := num;
         Wire.payload := Wire.LengthDelim (Wire.encode fields) |} ].

Definition version_frame : list byte :=
  frame_of 5 [ {| Wire.number := 1; Wire.payload := Wire.Varint 68 |} ].

Definition parameter (fields : list Wire.field) : Wire.field :=
  {| Wire.number := 2;
     Wire.payload := Wire.LengthDelim (Wire.encode fields) |}.

Definition statement_frame (sql : string) (pars : list Wire.field)
  : list byte :=
  frame_of 2
    ({| Wire.number := 1; Wire.payload := Wire.LengthDelim (cstr sql) |}
     :: pars).

Definition create_frame : list byte :=
  statement_frame "CREATE TABLE t (a, b, c)" [].

Definition reserved_frame : list byte :=
  statement_frame "CREATE TABLE sqlite_sequence(name,seq)" [].

Definition insert_frame : list byte :=
  statement_frame "INSERT INTO t VALUES (?, ?, ?)"
    [ parameter [ {| Wire.number := 1;
                     Wire.payload := Wire.LengthDelim (cstr "hi") |} ];
      parameter [ {| Wire.number := 2; Wire.payload := Wire.Varint 42 |} ];
      parameter [ {| Wire.number := 5; Wire.payload := Wire.Varint 1 |} ] ].

Definition attachment_frame : list byte :=
  frame_of 4
    [ {| Wire.number := 1; Wire.payload := Wire.Varint 1 |};
      {| Wire.number := 2; Wire.payload := Wire.Varint 2 |};
      {| Wire.number := 3; Wire.payload := Wire.Varint 5 |} ].

Definition end_frame : list byte :=
  Wire.encode [ {| Wire.number := 6; Wire.payload := Wire.Varint 1 |} ].

(** The header IV starts with 00 01 02 03, so the first counter is
    0x00010203 = 66051. *)
Definition backup : list byte :=
  Eval vm_compute in
    record header_frame
    ++ seal_frame 66051 version_frame
    ++ seal_frame 66052 create_frame
    ++ seal_frame 66053 reserved_frame
    ++ seal_frame 66054 insert_frame
    ++ seal_frame 66055 attachment_frame
    ++ seal_file 66056 (cstr "hello")
    ++ seal_frame 66057 end_frame.

End Toy.

(** * Proofs *)

(** ** Bytes and big-endian words *)

Lemma Zb_range (b : byte) : 0 <= Zb b < 256.
Proof.
  unfold Zb. pose proof (Byte.to_N_bounded b) as Hb. lia.
Qed.

Lemma Zb_inj (a b : byte) : Zb a = Zb b -> a = b.
Proof.
  unfold Zb. intros E. apply N2Z.inj in E.
  pose proof (Byte.of_to_N a) as Ha. pose proof (Byte.of_to_N b) as Hb.
  rewrite E in Ha. congruence.
Qed.

Lemma byte_eqb_eq (a b : byte) : byte_eqb a b = true <-> a = b.
Proof.
  unfold byte_eqb. rewrite Z.eqb_eq. split; [apply Zb_inj | congruence].
Qed.

Lemma bytes_eqb_eq (a b : list byte) : bytes_eqb a b = true <-> a = b.
Proof.
  revert b. induction a as [|x a IH]; intros [|y b]; simpl; try easy.
  rewrite andb_true_iff, byte_eqb_eq, IH. split.
  - intros [-> ->]. reflexivity.
  - intros E. injection E. auto.
Qed.

Lemma lor_shiftl_add (hi lo k : Z) :
  0 <= k -> 0 <= lo < 2 ^ k -> Z.lor (Z.shiftl hi k) lo = hi * 2 ^ k + lo.
Proof.
  intros Hk Hlo.
  rewrite <- Z.shiftl_mul_pow2 by assumption.
  rewrite <- Z.lxor_lor, <- Z.add_nocarry_lxor; try reflexivity.
  all: apply Z.bits_inj'; intros n Hn; rewrite Z.land_spec, Z.bits_0.
  all: destruct (Z.lt_ge_cases n k) as [Hlt | Hge].
  all: try (rewrite Z.shiftl_spec_low by assumption; reflexivity).
  all: rewrite <- (Z.mod_small lo (2 ^ k)) by assumption.
  all: rewrite Z.mod_pow2_bits_high by lia; apply andb_false_r.
Qed.

Lemma be32_value (b0 b1 b2 b3 : byte) :
  Z.lor (Z.shiftl (Zb b0) 24)
    (Z.lor (Z.shiftl (Zb b1) 16) (Z.lor (Z.shiftl (Zb b2) 8) (Zb b3)))
  = Zb b0 * 2 ^ 24 + Zb b1 * 2 ^ 16 + Zb b2 * 2 ^ 8 + Zb b3.
Proof.
  pose proof (Zb_range b0). pose proof (Zb_range b1).
  pose proof (Zb_range b2). pose proof (Zb_range b3).
  rewrite (lor_shiftl_add (Zb b2) (Zb b3) 8) by lia.
  rewrite (lor_shiftl_add (Zb b1) _ 16) by lia.
  rewrite (lor_shiftl_add (Zb b0) _ 24) by lia.
  lia.
Qed.

(** ** Reading frames *)

Section Proofs.
Context `{OpenSSL} `{Libc} `{SQLite}.

Lemma skipn_cons_length {A} (l : list A) n x rest :
  skipn n l = x :: rest -> (n + S (List.length rest) = List.length l)%nat.
Proof.
  intros E. pose proof (length_skipn n l) as L. rewrite E in L. simpl in L.
  lia.
Qed.

Ltac run := unfold bind, get, modify, ret, fail, sbk_error_setx, sbk_error_set; cbn.

Lemma sbk_read_ok (ctx : sbk_ctx) f size :
  fp ctx = Some f -> size <> 0%nat ->
  (f_pos f + size <= List.length (f_data f))%nat ->
  sbk_read size ctx =
    (Some (firstn size (skipn (f_pos f) (f_data f))),
     set_fp (Some {| f_data := f_data f; f_pos := f_pos f + size |}) ctx).
Proof.
  intros Hfp Hsz Hlen. unfold sbk_read, bind, get. rewrite Hfp.
  destruct (Nat.eqb_spec size 0) as [|_]; [contradiction|].
  destruct (Nat.leb_spec (f_pos f + size) (List.length (f_data f))); [|lia].
  reflexivity.
Qed.

Definition be32 (b0 b1 b2 b3 : byte) : Z :=
  Zb b0 * 2 ^ 24 + Zb b1 * 2 ^ 16 + Zb b2 * 2 ^ 8 + Zb b3.

Lemma be32_range b0 b1 b2 b3 : 0 <= be32 b0 b1 b2 b3 < 2 ^ 32.
Proof.
  pose proof (Zb_range b0). pose proof (Zb_range b1).
  pose proof (Zb_range b2). pose proof (Zb_range b3).
  unfold be32. lia.
Qed.

(** The frame length sbk_read_frame computes from the four bytes. *)
Lemma sbk_read_frame_eq (ctx : sbk_ctx) f b0 b1 b2 b3 rest :
  fp ctx = Some f ->
  skipn (f_pos f) (f_data f) = b0 :: b1 :: b2 :: b3 :: rest ->
  let L := be32 b0 b1 b2 b3 in
  let ctx1 :=
    set_fp (Some {| f_data := f_data f; f_pos := f_pos f + 4 |}) ctx in
  sbk_read_frame ctx =
    if (0 <? L) && (L <? 2 ^ 31) then
      bind (sbk_enlarge_buffers L) (fun _ =>
        bind (sbk_read (Z.to_nat L)) (fun data =>
          bind (modify (set_ibuf data)) (fun _ => ret (Z.to_nat L)))) ctx1
    else (None, set_error (Some (Errx "Invalid frame size")) ctx1).
Proof.
  intros Hfp Hskip L ctx1.
  pose proof (skipn_cons_length _ _ _ _ Hskip) as Hlen. simpl in Hlen.
  assert (Hrd : sbk_read 4 ctx = (Some [b0; b1; b2; b3], ctx1)).
  { rewrite (sbk_read_ok ctx f 4 Hfp) by lia. rewrite Hskip. reflexivity. }
  pose proof (be32_range b0 b1 b2 b3) as HL. fold L in HL.
  unfold sbk_read_frame, bind at 1. rewrite Hrd. cbv beta iota zeta.
  cbn [nth]. rewrite be32_value. fold (be32 b0 b1 b2 b3). fold L.
  unfold to_signed. rewrite (Z.mod_small L) by lia.
  replace (32 - 1) with 31 by reflexivity.
  destruct (Z.ltb_spec L (2 ^ 31)) as [Hlt | Hge].
  - rewrite andb_true_r.
    destruct (Z.leb_spec L 0), (Z.ltb_spec 0 L); try lia; reflexivity.
  - rewrite andb_false_r.
    destruct (Z.leb_spec (L - 2 ^ 32) 0); [reflexivity | lia].
Qed.


Lemma sbk_enlarge_buffers_ok (size : Z) (ctx : sbk_ctx) :
  size <= SIZE_MAX - EVP_MAX_BLOCK_LENGTH ->
  exists i o,
    sbk_enlarge_buffers size ctx =
      (Some tt, set_obufsize o (set_ibufsize i ctx)).
Proof.
  intros Hsz. unfold sbk_enlarge_buffers.
  destruct (Z.ltb_spec (SIZE_MAX - EVP_MAX_BLOCK_LENGTH) size) as [|_]; [lia|].
  unfold bind, get, modify, ret. destruct ctx; cbn.
  destruct (_ <? size); cbn; destruct (_ <? size + _); cbn.
  all: do 2 eexists; unfold set_obufsize, set_ibufsize; cbn; reflexivity.
Qed.

(** What sbk_get_frame does with a frame once it is decrypted and
    unpacked. *)
Definition frame_tail (want_file : bool) (frm : Pb.Signal__BackupFrame)
  : M (Pb.Signal__BackupFrame * option sbk_file) :=
  bind (if Pb.frm_has_end frm then modify (set_eof true) else ret tt) (fun _ =>
  bind get (fun ctx =>
  bind (modify (set_counter (uint32 (counter ctx + 1)))) (fun _ =>
  if sbk_has_file_data frm then
    if negb want_file then
      bind (sbk_skip_file_data frm) (fun _ => ret (frm, None))
    else
      bind (sbk_get_file frm) (fun file =>
      bind (sbk_skip_file_data frm) (fun _ => ret (frm, Some file)))
  else ret (frm, None)))).

Lemma firstn_app_exact {A} (l1 l2 : list A) n :
  n = List.length l1 -> firstn n (l1 ++ l2) = l1.
Proof. intros ->. rewrite firstn_app, Nat.sub_diag, firstn_all. simpl. apply app_nil_r. Qed.

Lemma skipn_app_exact {A} (l1 l2 : list A) n :
  n = List.length l1 -> skipn n (l1 ++ l2) = l2.
Proof. intros ->. rewrite skipn_app, Nat.sub_diag, skipn_all. reflexivity. Qed.

Lemma ctr_crypt_length key iv i data :
  List.length (ctr_crypt key iv i data) = List.length data.
Proof. revert i. induction data; intros i; simpl; auto. Qed.

Lemma sbk_get_frame_encrypted (ctx : sbk_ctx) f b0 b1 b2 b3 ct tag rest w :
  fp ctx = Some f -> eof ctx = false -> firstframe ctx = false ->
  skipn (f_pos f) (f_data f) = b0 :: b1 :: b2 :: b3 :: ct ++ tag ++ rest ->
  List.length tag = SBK_MAC_LEN -> ct <> [] ->
  be32 b0 b1 b2 b3 = len ct + 10 -> len ct + 10 < 2 ^ 31 ->
  len ct + 10 <= SIZE_MAX - EVP_MAX_BLOCK_LENGTH ->
  let mac := firstn SBK_MAC_LEN (HMAC_SHA256 (hmac_key (hmac ctx)) ct) in
  let plain :=
    ctr_crypt (cipherkey ctx) (counter_iv (iv ctx) (counter ctx)) 0 ct in
  exists ctxD,
    counter ctxD = counter ctx /\ eof ctxD = false /\
    error ctxD = error ctx /\
    db ctxD = db ctx /\ attachments ctxD = attachments ctx /\
    firstframe ctxD = false /\
    iv ctxD = counter_iv (iv ctx) (counter ctx) /\
    fp ctxD = Some {| f_data := f_data f;
                      f_pos := f_pos f + 4 + List.length ct + 10 |} /\
    sbk_get_frame w ctx =
      if bytes_eqb mac tag then
        match Pb.signal__backup_frame__unpack plain with
        | None => (None, set_error (Some (Errx "Cannot unpack frame")) ctxD)
        | Some frm => frame_tail w frm ctxD
        end
      else (None, set_error (Some (Errx "HMAC mismatch")) ctxD).
Proof.
  intros Hfp Heof Hff Hskip Htag Hct HL Hlt Hsz mac plain.
  pose proof (skipn_cons_length _ _ _ _ Hskip) as Hlen.
  cbn [List.length] in Hlen.
  rewrite !length_app, Htag in Hlen. unfold SBK_MAC_LEN in *.
  assert (Hctlen : (0 < List.length ct)%nat) by (destruct ct; [congruence | simpl; lia]).
  unfold sbk_get_frame. unfold bind at 1. unfold get at 1. cbv beta iota.
  rewrite Heof. unfold bind at 1.
  rewrite (sbk_read_frame_eq ctx f b0 b1 b2 b3 _ Hfp Hskip). cbv zeta.
  rewrite HL. unfold len in *.
  destruct (Z.ltb_spec 0 (Z.of_nat (List.length ct) + 10)); [|lia].
  destruct (Z.ltb_spec (Z.of_nat (List.length ct) + 10) (2 ^ 31)); [|lia].
  cbn [andb]. unfold bind at 1.
  destruct (sbk_enlarge_buffers_ok (Z.of_nat (List.length ct) + 10)
    (set_fp (Some {| f_data := f_data f; f_pos := f_pos f + 4 |}) ctx) Hsz)
    as (i & o & ->).
  replace (Z.to_nat (Z.of_nat (List.length ct) + 10)) with (List.length ct + 10)%nat by lia.
  unfold bind at 1.
  erewrite sbk_read_ok; [ | reflexivity | lia | cbn; lia ].
  cbn [f_pos f_data].
  replace (skipn (f_pos f + 4) (f_data f)) with (ct ++ tag ++ rest).
  2:{ rewrite Nat.add_comm, <- (skipn_skipn 4 (f_pos f)). rewrite Hskip.
      reflexivity. }
  rewrite app_assoc. rewrite firstn_app_exact by (rewrite length_app; lia).
  unfold bind at 1, modify at 1, ret at 1. cbv beta iota.
  unfold bind at 1, get at 1. cbv beta iota.
  cbn [firstframe set_ibuf set_fp set_obufsize set_ibufsize].
  rewrite Hff.
  replace (List.length ct + 10 <=? SBK_MAC_LEN)%nat with false
    by (symmetry; apply Nat.leb_gt; unfold SBK_MAC_LEN; lia).
  replace (List.length ct + 10 - SBK_MAC_LEN)%nat with (List.length ct)
    by (unfold SBK_MAC_LEN; lia).
  unfold sbk_decrypt_init, sbk_decrypt_update, sbk_decrypt_final,
    EVP_DecryptUpdate, EVP_DecryptFinal_ex, HMAC_Update, HMAC_Final.
  unfold bind, get, modify, ret.
  cbn -[ctr_crypt counter_iv firstn skipn bytes_eqb
        Pb.signal__backup_frame__unpack SBK_MAC_LEN].
  rewrite (firstn_app_exact ct tag) by reflexivity.
  rewrite (skipn_app_exact ct tag) by reflexivity.
  rewrite (firstn_all2 (n := SBK_MAC_LEN) tag) by (rewrite Htag; reflexivity).
  rewrite firstn_all, ctr_crypt_length, app_nil_r, Nat.add_0_r.
  unfold SBK_MAC_LEN. fold plain. fold mac.
  match goal with
  | |- context [set_obuf ?a (set_obuf ?b ?c)] =>
      exists (set_obuf a (set_obuf b c))
  end.
  repeat split; try (cbn; assumption); try reflexivity.
  - cbn. do 2 f_equal. lia.
  - destruct (bytes_eqb mac tag); cbn [negb]; [|reflexivity].
    cbv beta iota.
    replace (firstn (List.length ct) (obuf _)) with plain
      by (cbn [obuf set_obuf]; unfold plain;
          rewrite <- (ctr_crypt_length (cipherkey ctx)
                        (counter_iv (iv ctx) (counter ctx)) 0 ct) at 1;
          symmetry; apply firstn_all).
    unfold sbk_unpack_frame.
    destruct (Pb.signal__backup_frame__unpack plain) as [frm|]; [|reflexivity].
    unfold frame_tail, bind, get, modify, ret, sbk_get_file.
    cbv beta iota. reflexivity.
Qed.
Lemma sbk_enlarge_buffers_eq (size : Z) (ctx : sbk_ctx) :
  size <= SIZE_MAX - EVP_MAX_BLOCK_LENGTH ->
  sbk_enlarge_buffers size ctx =
    (Some tt,
     set_obufsize (Z.max (obufsize ctx) (size + EVP_MAX_BLOCK_LENGTH))
       (set_ibufsize (Z.max (ibufsize ctx) size) ctx)).
Proof.
  intros Hsz. unfold sbk_enlarge_buffers.
  destruct (Z.ltb_spec (SIZE_MAX - EVP_MAX_BLOCK_LENGTH) size) as [|_]; [lia|].
  unfold bind, get, modify, ret. destruct ctx as [x1 x2 x3 x4 x5 x6 x7 x8 x9 x10 x11 x12 ibs x14 obs x16 x17 x18].
  cbn [ibufsize obufsize].
  destruct (Z.ltb_spec ibs size); cbn [ibufsize obufsize set_ibufsize];
    destruct (Z.ltb_spec obs (size + EVP_MAX_BLOCK_LENGTH));
    unfold set_obufsize, set_ibufsize; cbn [fp db db_version attachments
      recipients cipher hmac cipherkey mackey iv counter ibuf ibufsize obuf
      obufsize firstframe eof error];
    repeat (first [rewrite Z.max_l by lia | rewrite Z.max_r by lia]);
    reflexivity.
Qed.

(** The first frame of a file: it is unpacked as it is. *)
Lemma sbk_get_frame_first (ctx : sbk_ctx) f b0 b1 b2 b3 hdr rest w :
  fp ctx = Some f -> eof ctx = false -> firstframe ctx = true ->
  skipn (f_pos f) (f_data f) = b0 :: b1 :: b2 :: b3 :: hdr ++ rest ->
  be32 b0 b1 b2 b3 = len hdr -> 0 < len hdr < 2 ^ 31 ->
  len hdr <= SIZE_MAX - EVP_MAX_BLOCK_LENGTH ->
  let ctxR :=
    set_firstframe false
      (set_ibuf hdr
         (set_fp (Some {| f_data := f_data f;
                          f_pos := f_pos f + 4 + List.length hdr |})
            (set_obufsize (Z.max (obufsize ctx) (len hdr + EVP_MAX_BLOCK_LENGTH))
               (set_ibufsize (Z.max (ibufsize ctx) (len hdr)) ctx)))) in
  sbk_get_frame w ctx =
    match Pb.signal__backup_frame__unpack hdr with
    | Some frm => (Some (frm, None), ctxR)
    | None => (None, set_error (Some (Errx "Cannot unpack frame")) ctxR)
    end.
Proof.
  intros Hfp Heof Hff Hskip HL Hpos Hsz ctxR.
  pose proof (skipn_cons_length _ _ _ _ Hskip) as Hlen.
  cbn [List.length] in Hlen. rewrite !length_app in Hlen.
  unfold sbk_get_frame. unfold bind at 1. unfold get at 1. cbv beta iota.
  rewrite Heof. unfold bind at 1.
  rewrite (sbk_read_frame_eq ctx f b0 b1 b2 b3 _ Hfp Hskip). cbv zeta.
  rewrite HL. unfold len in *.
  destruct (Z.ltb_spec 0 (Z.of_nat (List.length hdr))); [|lia].
  destruct (Z.ltb_spec (Z.of_nat (List.length hdr)) (2 ^ 31)); [|lia].
  cbn [andb]. unfold bind at 1.
  rewrite sbk_enlarge_buffers_eq by assumption.
  rewrite Nat2Z.id.
  unfold bind at 1.
  erewrite sbk_read_ok; [ | reflexivity | lia | cbn; lia ].
  cbn [f_pos f_data].
  replace (skipn (f_pos f + 4) (f_data f)) with (hdr ++ rest).
  2:{ rewrite Nat.add_comm, <- (skipn_skipn 4 (f_pos f)). rewrite Hskip.
      reflexivity. }
  rewrite firstn_app_exact by reflexivity.
  unfold bind at 1, modify at 1, ret at 1. cbv beta iota.
  unfold bind at 1, get at 1. cbv beta iota.
  cbn [firstframe set_ibuf set_fp set_obufsize set_ibufsize].
  rewrite Hff.
  unfold bind at 1, modify at 1. cbv beta iota.
  cbn [ibuf set_ibuf set_fp set_obufsize set_ibufsize].
  rewrite firstn_all. unfold bind, sbk_unpack_frame, ret, sbk_error_setx.
  destruct (Pb.signal__backup_frame__unpack hdr); [reflexivity|].
  reflexivity.
Qed.


(** What sbk_open does once the first frame is unpacked, and its error
    exit. *)
Definition open_tail (passphr : list byte) (frm : Pb.Signal__BackupFrame)
  : M unit :=
  match Pb.frm_header frm with
  | None => sbk_error_setx "Missing header frame"
  | Some hdr =>
      if negb (Pb.has_iv hdr) then sbk_error_setx "Missing IV"
      else if negb (List.length (Pb.iv hdr) =? SBK_IV_LEN)%nat then
        sbk_error_setx "Invalid IV size"
      else
        bind (modify (set_iv (Pb.iv hdr))) (fun _ =>
        bind (modify (set_counter
                  (uint32
                     (Z.lor (Z.shiftl (Zb (nth 0 (Pb.iv hdr) x00)) 24)
                        (Z.lor (Z.shiftl (Zb (nth 1 (Pb.iv hdr) x00)) 16)
                           (Z.lor (Z.shiftl (Zb (nth 2 (Pb.iv hdr) x00)) 8)
                              (Zb (nth 3 (Pb.iv hdr) x00)))))))) (fun _ =>
        bind (sbk_compute_keys passphr
               (if Pb.has_salt hdr then Some (Pb.salt hdr) else None)) (fun _ =>
        bind get (fun ctx =>
        bind (modify (set_hmac
                  {| hmac_key := firstn SBK_MACKEY_LEN (mackey ctx);
                     hmac_data := [] |})) (fun _ =>
        bind sbk_rewind (fun _ =>
        bind (modify (set_db None)) (fun _ =>
        bind (modify (set_db_version 0)) (fun _ =>
        bind (modify (set_attachments ∅)) (fun _ =>
        modify (set_recipients []))))))))))
  end.

Definition open_exit (r : option unit * sbk_ctx) : option unit * sbk_ctx :=
  match r with
  | (Some _, ctx') => (Some tt, ctx')
  | (None, ctx') =>
      (None,
       set_fp None
         (set_mackey (explicit_bzero SBK_MACKEY_LEN)
            (set_cipherkey (explicit_bzero SBK_CIPHERKEY_LEN) ctx')))
  end.

(** The context when the first frame has been read. *)
Definition open_read (data hdr : list byte) (ctx : sbk_ctx) : sbk_ctx :=
  let ctx0 :=
    set_eof false
      (set_firstframe true
         (set_fp (Some {| f_data := data; f_pos := 0 |}) ctx)) in
  set_firstframe false
    (set_ibuf hdr
       (set_fp (Some {| f_data := data; f_pos := 4 + List.length hdr |})
          (set_obufsize
             (Z.max (obufsize ctx0) (len hdr + EVP_MAX_BLOCK_LENGTH))
             (set_ibufsize (Z.max (ibufsize ctx0) (len hdr)) ctx0)))).

Lemma sbk_open_eq (fs : string -> option (list byte)) path passphr
    (ctx : sbk_ctx) b0 b1 b2 b3 hdr rest :
  fs path = Some (b0 :: b1 :: b2 :: b3 :: hdr ++ rest) ->
  be32 b0 b1 b2 b3 = len hdr -> 0 < len hdr < 2 ^ 31 ->
  len hdr <= SIZE_MAX - EVP_MAX_BLOCK_LENGTH ->
  sbk_open fs path passphr ctx =
    open_exit
      match Pb.signal__backup_frame__unpack hdr with
      | Some frm =>
          open_tail passphr frm
            (open_read (b0 :: b1 :: b2 :: b3 :: hdr ++ rest) hdr ctx)
      | None =>
          (None,
           set_error (Some (Errx "Cannot unpack frame"))
             (open_read (b0 :: b1 :: b2 :: b3 :: hdr ++ rest) hdr ctx))
      end.
Proof.
  intros Hfs HL Hpos Hsz. unfold sbk_open. rewrite Hfs.
  unfold bind at 1, modify at 1. cbv beta iota.
  unfold bind at 1, modify at 1. cbv beta iota.
  unfold bind at 1, modify at 1. cbv beta iota.
  unfold bind at 1.
  erewrite sbk_get_frame_first;
    [ | reflexivity | reflexivity | reflexivity | reflexivity
      | eassumption | assumption | assumption ].
  fold (open_read (b0 :: b1 :: b2 :: b3 :: hdr ++ rest) hdr ctx).
  destruct (Pb.signal__backup_frame__unpack hdr) as [frm|]; reflexivity.
Qed.


Ltac unfold_m :=
  unfold bind, get, modify, ret, fail, sbk_error_setx, sbk_error_set,
    sbk_error_sqlite_set in *.

Ltac ctx_simpl :=
  cbn [fst snd
       fp db db_version attachments recipients cipher hmac cipherkey mackey
       iv counter ibuf ibufsize obuf obufsize firstframe eof error
       set_fp set_db set_db_version set_attachments set_recipients
       set_cipher set_hmac set_cipherkey set_mackey set_iv set_counter
       set_ibuf set_ibufsize set_obuf set_obufsize set_firstframe set_eof
       set_error
       cipher_key cipher_iv cipher_num hmac_key hmac_data f_data f_pos
       pos len_ counter_ negb] in *.

Ltac break_inner x :=
  match x with
  | context [match ?y with _ => _ end] => break_inner y
  | _ => first [ is_var x; destruct x | destruct x eqn:? ]
  end.

Ltac break_match :=
  match goal with
  | |- context [match ?x with _ => _ end] => break_inner x
  end.

(** What a call of sbk_read_frame leaves alone. *)
Lemma sbk_read_frame_keeps (ctx : sbk_ctx) :
  let ctx' := snd (sbk_read_frame ctx) in
  counter ctx' = counter ctx /\ firstframe ctx' = firstframe ctx /\
  eof ctx' = eof ctx /\ iv ctx' = iv ctx /\ hmac ctx' = hmac ctx /\
  cipherkey ctx' = cipherkey ctx /\ mackey ctx' = mackey ctx.
Proof.
  unfold sbk_read_frame, sbk_read, sbk_enlarge_buffers. unfold_m.
  repeat (cbn [fst snd]; break_match); cbn; repeat split; reflexivity.
Qed.

Lemma uint32_succ_succ (c : Z) : uint32 (uint32 (c + 1) + 1) = uint32 (c + 1 + 1).
Proof. unfold uint32. apply Z.add_mod_idemp_l. lia. Qed.

Ltac ctx_simpl0 :=
  cbn [fst snd
       fp db db_version attachments recipients cipher hmac cipherkey mackey
       iv counter ibuf ibufsize obuf obufsize firstframe eof error
       set_fp set_db set_db_version set_attachments set_recipients
       set_cipher set_hmac set_cipherkey set_mackey set_iv set_counter
       set_ibuf set_ibufsize set_obuf set_obufsize set_firstframe set_eof
       set_error
       cipher_key cipher_iv cipher_num hmac_key hmac_data f_data f_pos
       pos len_ counter_ negb].

(** The counter after the part of sbk_get_frame that follows unpacking. *)
Lemma frame_tail_counter (w : bool) frm (ctx : sbk_ctx) :
  match frame_tail w frm ctx with
  | (Some (frm', file), ctx') =>
      frm' = frm
      /\ counter ctx' =
           uint32 (counter ctx + 1 + (if sbk_has_file_data frm then 1 else 0))
      /\ firstframe ctx' = firstframe ctx
      /\ (forall fl, file = Some fl ->
            counter_ fl = uint32 (counter ctx + 1)
            /\ counter ctx' = uint32 (counter_ fl + 1))
  | (None, ctx') => counter ctx' = uint32 (counter ctx + 1)
  end.
Proof.
  unfold frame_tail, sbk_skip_file_data, fseek_cur, sbk_get_file.
  unfold_m.
  destruct (Pb.frm_has_end frm), (sbk_has_file_data frm), w;
    ctx_simpl0;
    repeat (ctx_simpl0; break_match);
    ctx_simpl0; rewrite ?uint32_succ_succ, ?Z.add_0_r;
    try reflexivity;
    (split; [reflexivity | split; [reflexivity | split; [reflexivity |
      intros fl E; try discriminate E; injection E as <-; ctx_simpl0;
      rewrite ?uint32_succ_succ; split; reflexivity]]]).
Qed.

(** Initialising the stream, decrypting [n] bytes of ctx->ibuf and checking
    the tag, as sbk_get_frame does for an encrypted frame. *)
Definition frame_decrypt (n : nat) : M nat :=
  bind get (fun ctx =>
  bind (sbk_decrypt_init (counter ctx)) (fun _ =>
  bind (sbk_decrypt_update n) (fun obuflen =>
  sbk_decrypt_final obuflen (skipn n (ibuf ctx))))).

Lemma sbk_get_frame_unfold (w : bool) (ctx : sbk_ctx) :
  sbk_get_frame w ctx =
    if eof ctx then (None, ctx)
    else
      match sbk_read_frame ctx with
      | (None, c1) => (None, c1)
      | (Some n, c1) =>
          if firstframe c1 then
            match Pb.signal__backup_frame__unpack (firstn n (ibuf c1)) with
            | Some frm => (Some (frm, None), set_firstframe false c1)
            | None =>
                (None, set_error (Some (Errx "Cannot unpack frame"))
                         (set_firstframe false c1))
            end
          else if (n <=? SBK_MAC_LEN)%nat then
            (None, set_error (Some (Errx "Invalid frame size")) c1)
          else
            match frame_decrypt (n - SBK_MAC_LEN) c1 with
            | (None, c2) => (None, c2)
            | (Some obuflen, c2) =>
                match Pb.signal__backup_frame__unpack
                        (firstn obuflen (obuf c2)) with
                | Some frm => frame_tail w frm c2
                | None =>
                    (None, set_error (Some (Errx "Cannot unpack frame")) c2)
                end
            end
      end.
Proof.
  unfold sbk_get_frame. unfold bind at 1, get at 1. cbv beta iota.
  destruct (eof ctx); [reflexivity|].
  unfold bind at 1.
  destruct (sbk_read_frame ctx) as [[n|] c1]; [|reflexivity].
  unfold bind at 1, get at 1. cbv beta iota.
  destruct (firstframe c1).
  - unfold bind at 1, modify at 1. cbv beta iota.
    unfold bind at 1, sbk_unpack_frame.
    ctx_simpl0.
    destruct (Pb.signal__backup_frame__unpack _); reflexivity.
  - destruct (n <=? SBK_MAC_LEN)%nat; [reflexivity|].
    unfold frame_decrypt, sbk_unpack_frame. unfold bind, get, ret.
    cbv beta iota.
    destruct (sbk_decrypt_init (counter c1) c1) as [[[]|] c2]; [|reflexivity].
    destruct (sbk_decrypt_update (n - SBK_MAC_LEN) c2) as [[obuflen|] c3];
      [|reflexivity].
    destruct (sbk_decrypt_final obuflen _ c3) as [[obuflen'|] c4];
      [|reflexivity].
    destruct (Pb.signal__backup_frame__unpack _) as [frm|]; [|reflexivity].
    unfold frame_tail. unfold bind, get, ret. reflexivity.
Qed.

Lemma frame_decrypt_keeps (n : nat) (ctx : sbk_ctx) :
  let ctx' := snd (frame_decrypt n ctx) in
  counter ctx' = counter ctx /\ firstframe ctx' = firstframe ctx /\
  eof ctx' = eof ctx.
Proof.
  unfold frame_decrypt, sbk_decrypt_init, sbk_decrypt_update,
    sbk_decrypt_final, EVP_DecryptUpdate.
  unfold_m. ctx_simpl0.
  destruct (bytes_eqb _ _); ctx_simpl0; repeat split; reflexivity.
Qed.

Lemma sbk_get_frame_counter (w : bool) (ctx : sbk_ctx) :
  match sbk_get_frame w ctx with
  | (Some (frm, file), ctx') =>
      counter ctx' =
        (if firstframe ctx then counter ctx
         else uint32 (counter ctx + 1
                      + (if sbk_has_file_data frm then 1 else 0)))
      /\ firstframe ctx' = false
      /\ (forall fl, file = Some fl ->
            counter_ fl = uint32 (counter ctx + 1)
            /\ counter ctx' = uint32 (counter_ fl + 1))
  | (None, ctx') =>
      counter ctx' = counter ctx \/ counter ctx' = uint32 (counter ctx + 1)
  end.
Proof.
  rewrite sbk_get_frame_unfold.
  destruct (eof ctx); [left; reflexivity|].
  pose proof (sbk_read_frame_keeps ctx) as K.
  destruct (sbk_read_frame ctx) as [[n|] c1]; cbn [snd] in K;
    destruct K as (Kc & Kf & _); [|left; assumption].
  rewrite Kf, <- Kc.
  destruct (firstframe ctx) eqn:Hff.
  - destruct (Pb.signal__backup_frame__unpack _).
    + split; [reflexivity|]. split; [reflexivity|]. intros fl E; discriminate E.
    + left; reflexivity.
  - destruct (n <=? SBK_MAC_LEN)%nat; [left; reflexivity|].
    pose proof (frame_decrypt_keeps (n - SBK_MAC_LEN) c1) as K2.
    destruct (frame_decrypt (n - SBK_MAC_LEN) c1) as [[obuflen|] c2];
      cbn [snd] in K2; destruct K2 as (K2c & K2f & _); [|left; assumption].
    destruct (Pb.signal__backup_frame__unpack _) as [frm|];
      [|left; exact K2c].
    pose proof (frame_tail_counter w frm c2) as K3.
    destruct (frame_tail w frm c2) as [[[frm' file]|] c3].
    + destruct K3 as (-> & K3c & K3f & K3l). rewrite <- K2c.
      split; [exact K3c|]. split; [congruence|]. exact K3l.
    + right. rewrite K3. rewrite K2c. reflexivity.
Qed.
(** ** Opening a backup and counting frames *)

Lemma sbk_open_unfold (fs : string -> option (list byte)) path passphr
    (ctx : sbk_ctx) :
  sbk_open fs path passphr ctx =
    match fs path with
    | None => (None, set_error (Some (Errno None)) ctx)
    | Some data =>
        open_exit
          match sbk_get_frame false
                  (set_eof false
                     (set_firstframe true
                        (set_fp (Some {| f_data := data; f_pos := 0 |}) ctx)))
          with
          | (Some r, c1) => open_tail passphr (fst r) c1
          | (None, c1) => (None, c1)
          end
    end.
Proof.
  unfold sbk_open. destruct (fs path) as [data|]; [|reflexivity].
  unfold bind at 1, modify at 1. cbv beta iota.
  unfold bind at 1, modify at 1. cbv beta iota.
  unfold bind at 1, modify at 1. cbv beta iota.
  unfold bind at 1.
  destruct (sbk_get_frame false _) as [[r|] c1]; reflexivity.
Qed.

(** What a successful sbk_open has done after the first frame. *)
Lemma open_tail_ok passphr frm (ctx ctx' : sbk_ctx) :
  open_tail passphr frm ctx = (Some tt, ctx') ->
  exists hdr i0 i1 i2 i3 tl f,
    Pb.frm_header frm = Some hdr /\ Pb.has_iv hdr = true /\
    Pb.iv hdr = i0 :: i1 :: i2 :: i3 :: tl /\
    List.length (Pb.iv hdr) = SBK_IV_LEN /\
    iv ctx' = Pb.iv hdr /\ counter ctx' = be32 i0 i1 i2 i3 /\
    firstframe ctx' = true /\ eof ctx' = false /\
    hmac ctx' = {| hmac_key := firstn SBK_MACKEY_LEN (mackey ctx');
                   hmac_data := [] |} /\
    fp ctx = Some f /\
    fp ctx' = Some {| f_data := f_data f; f_pos := 0 |}.
Proof.
  unfold open_tail.
  destruct (Pb.frm_header frm) as [hdr|]; [|intros E; discriminate E].
  destruct (Pb.has_iv hdr) eqn:Hiv; cbn [negb]; [|intros E; discriminate E].
  destruct (Nat.eqb_spec (List.length (Pb.iv hdr)) SBK_IV_LEN) as [Hl|_];
    cbn [negb]; [|intros E; discriminate E].
  destruct (Pb.iv hdr) as [|i0 [|i1 [|i2 [|i3 tl]]]] eqn:Hivs;
    try discriminate Hl.
  unfold sbk_compute_keys, sbk_rewind, fseek_set. unfold_m. ctx_simpl0.
  destruct (HKDF_SHA256 _ _ _ _) as [dk|]; ctx_simpl0;
    [|intros E; discriminate E].
  destruct (fp ctx) as [f|] eqn:Hfp; [|intros E; discriminate E].
  intros E. injection E as <-.
  exists hdr, i0, i1, i2, i3, tl, f. ctx_simpl0.
  repeat split; try reflexivity; try assumption.
  - rewrite Hivs. exact Hl.
  - symmetry. exact Hivs.
  - rewrite be32_value. fold (be32 i0 i1 i2 i3).
    pose proof (be32_range i0 i1 i2 i3).
    unfold uint32. apply Z.mod_small. lia.
Qed.

Lemma sbk_open_ok (fs : string -> option (list byte)) path passphr
    (ctx ctx' : sbk_ctx) :
  sbk_open fs path passphr ctx = (Some tt, ctx') ->
  exists data frm file c1 hdr i0 i1 i2 i3 tl,
    fs path = Some data /\
    sbk_get_frame false
      (set_eof false
         (set_firstframe true
            (set_fp (Some {| f_data := data; f_pos := 0 |}) ctx)))
    = (Some (frm, file), c1) /\
    Pb.frm_header frm = Some hdr /\
    Pb.iv hdr = i0 :: i1 :: i2 :: i3 :: tl /\
    iv ctx' = Pb.iv hdr /\ counter ctx' = be32 i0 i1 i2 i3 /\
    firstframe ctx' = true /\ eof ctx' = false /\
    hmac_key (hmac ctx') = firstn SBK_MACKEY_LEN (mackey ctx').
Proof.
  rewrite sbk_open_unfold.
  destruct (fs path) as [data|]; [|intros E; discriminate E].
  destruct (sbk_get_frame false _) as [[[frm file]|] c1] eqn:Eg;
    [|intros E; discriminate E].
  cbn [fst]. destruct (open_tail passphr frm c1) as [[[]|] c2] eqn:Et;
    [|intros E; discriminate E].
  cbn [open_exit]. intros E. injection E as <-.
  destruct (open_tail_ok _ _ _ _ Et)
    as (hdr & i0 & i1 & i2 & i3 & tl & f & Hh & _ & Hi & _ & Hiv & Hc & Hf
        & He & Hm & _).
  exists data, frm, file, c1, hdr, i0, i1, i2, i3, tl.
  rewrite Hm. repeat split; assumption || reflexivity.
Qed.

(** Frames read one after the other, each call successful. *)
Inductive frames_read (w : bool)
  : sbk_ctx -> list Pb.Signal__BackupFrame -> sbk_ctx -> Prop :=
| frames_read_nil ctx : frames_read w ctx [] ctx
| frames_read_cons ctx frm file ctx1 frms ctx2 :
    sbk_get_frame w ctx = (Some (frm, file), ctx1) ->
    frames_read w ctx1 frms ctx2 ->
    frames_read w ctx (frm :: frms) ctx2.

Lemma uint32_add_l (a b : Z) : uint32 (uint32 a + b) = uint32 (a + b).
Proof. unfold uint32. apply Z.add_mod_idemp_l. lia. Qed.

Lemma frames_read_counter (w : bool) (ctx ctx' : sbk_ctx) frms :
  frames_read w ctx frms ctx' ->
  firstframe ctx = false -> 0 <= counter ctx < 2 ^ 32 ->
  counter ctx' =
    uint32 (counter ctx + len frms
            + len (List.filter sbk_has_file_data frms))
  /\ firstframe ctx' = false.
Proof.
  induction 1 as [ctx | ctx frm file ctx1 frms ctx2 Hget _ IH];
    intros Hff Hrange.
  - split; [|exact Hff]. unfold len. cbn.
    rewrite !Z.add_0_r. unfold uint32. symmetry. apply Z.mod_small.
    exact Hrange.
  - pose proof (sbk_get_frame_counter w ctx) as K. rewrite Hget, Hff in K.
    destruct K as (Kc & Kf & _).
    destruct IH as [IHc IHf]; [exact Kf | | ].
    { rewrite Kc. unfold uint32. apply Z.mod_pos_bound. lia. }
    split; [|exact IHf]. rewrite IHc, Kc.
    rewrite <- !Z.add_assoc, uint32_add_l. f_equal.
    unfold len. cbn [List.length List.filter].
    destruct (sbk_has_file_data frm); cbn [List.length]; lia.
Qed.

(** ** Extracting a file *)

Lemma ctr_crypt_app key iv i a b :
  ctr_crypt key iv i (a ++ b)
  = ctr_crypt key iv i a ++ ctr_crypt key iv (i + List.length a) b.
Proof.
  revert i. induction a as [|x a IH]; intros i; simpl.
  - rewrite Nat.add_0_r. reflexivity.
  - rewrite IH. do 3 f_equal. lia.
Qed.

(** The context after [chunk] has been read from the file, fed to the
    HMAC and decrypted; [ib] and [ob] are the buffers. *)
Definition fed (ctx : sbk_ctx) (f : FILE) (chunk ib ob : list byte)
  : sbk_ctx :=
  set_obuf ob
    (set_cipher
       {| cipher_key := cipher_key (cipher ctx);
          cipher_iv := cipher_iv (cipher ctx);
          cipher_num := cipher_num (cipher ctx) + List.length chunk |}
       (set_hmac (HMAC_Update (hmac ctx) chunk)
          (set_ibuf ib
             (set_fp (Some {| f_data := f_data f;
                              f_pos := f_pos f + List.length chunk |})
                ctx)))).

Lemma fed_nil (ctx : sbk_ctx) f :
  fp ctx = Some f -> fed ctx f [] (ibuf ctx) (obuf ctx) = ctx.
Proof.
  destruct ctx as [x1 x2 x3 x4 x5 [ck ci cn] [hk hd] x8 x9 x10 x11 x12 x13 x14 x15 x16 x17 x18].
  destruct f as [fd fpos]. cbn. intros ->. unfold fed, HMAC_Update. cbn.
  rewrite app_nil_r, !Nat.add_0_r. reflexivity.
Qed.

Lemma fed_fed (ctx : sbk_ctx) f a b ib ob ib' ob' :
  fed (fed ctx f a ib ob)
      {| f_data := f_data f; f_pos := f_pos f + List.length a |} b ib' ob'
  = fed ctx f (a ++ b) ib' ob'.
Proof.
  unfold fed, HMAC_Update. destruct ctx. cbn.
  rewrite length_app, !Nat.add_assoc, app_assoc. reflexivity.
Qed.

Lemma sbk_write_file_loop_ok fuel : forall len out (ctx : sbk_ctx) f ct rest,
  (0 < BUFSIZ)%nat ->
  fp ctx = Some f -> skipn (f_pos f) (f_data f) = ct ++ rest ->
  List.length ct = len -> (len <= fuel)%nat ->
  exists ib ob,
    sbk_write_file_loop fuel len out ctx =
      (Some tt,
       option_map (fun o => o ++ ctr_crypt (cipher_key (cipher ctx))
                                 (cipher_iv (cipher ctx))
                                 (cipher_num (cipher ctx)) ct) out,
       fed ctx f ct ib ob).
Proof.
  induction fuel as [|fuel IH]; intros len out ctx f ct rest Hbuf Hfp Hskip Hlen Hfuel.
  - assert (len = 0%nat) as -> by lia. destruct ct; [|discriminate].
    exists (ibuf ctx), (obuf ctx). cbn. rewrite fed_nil by assumption.
    destruct out; cbn; rewrite ?app_nil_r; reflexivity.
  - cbn [sbk_write_file_loop].
    destruct (Nat.eqb_spec len 0) as [-> | Hne].
    + destruct ct; [|discriminate].
      exists (ibuf ctx), (obuf ctx). cbn. rewrite fed_nil by assumption.
      destruct out; cbn; rewrite ?app_nil_r; reflexivity.
    + set (n := if (len <? BUFSIZ)%nat then len else BUFSIZ).
      assert (Hn : (0 < n <= len)%nat).
      { subst n. destruct (Nat.ltb_spec len BUFSIZ); lia. }
      pose proof (firstn_skipn n ct) as Hsplit.
      set (a := firstn n ct) in *. set (b := skipn n ct) in *.
      assert (Ha : List.length a = n) by (subst a; rewrite length_firstn; lia).
      pose proof (f_equal (@List.length byte) Hskip) as Hl.
      rewrite length_skipn, length_app in Hl.
      unfold bind at 1.
      rewrite (sbk_read_ok ctx f n Hfp) by lia.
      rewrite Hskip, <- Hsplit, <- app_assoc, (firstn_app_exact a) by (symmetry; exact Ha).
      unfold bind at 1, modify at 1. cbv beta iota.
      unfold sbk_decrypt_update, EVP_DecryptUpdate. unfold_m. ctx_simpl.
      replace (firstn n a) with a by (symmetry; apply firstn_all2; lia).
      rewrite firstn_all. rewrite <- Ha.
      set (pa := ctr_crypt (cipher_key (cipher ctx)) (cipher_iv (cipher ctx))
                   (cipher_num (cipher ctx)) a).
      fold (fed ctx f a a pa).
      assert (Hpa : List.length pa = List.length a) by apply ctr_crypt_length.
      assert (IH' : forall o, exists ib ob,
        sbk_write_file_loop fuel (len - List.length a) o (fed ctx f a a pa) =
        (Some tt,
         option_map (fun o => o ++ ctr_crypt (cipher_key (cipher ctx))
                       (cipher_iv (cipher ctx))
                       (cipher_num (cipher ctx) + List.length a) b) o,
         fed ctx f (a ++ b) ib ob)).
      { intros o.
        destruct (IH (len - List.length a)%nat o (fed ctx f a a pa)
                    {| f_data := f_data f; f_pos := f_pos f + List.length a |}
                    b rest Hbuf) as (ib & ob & E).
        - reflexivity.
        - cbn [f_pos f_data]. rewrite Nat.add_comm, <- skipn_skipn, Hskip.
          rewrite <- Hsplit, <- app_assoc. apply skipn_app_exact. reflexivity.
        - subst b. rewrite length_skipn. lia.
        - lia.
        - exists ib, ob. rewrite E, fed_fed. reflexivity. }
      rewrite ctr_crypt_app. fold pa.
      destruct out as [o|].
      * unfold fwrite. rewrite Hpa.
        destruct (Nat.eqb_spec (List.length a) 0) as [E0|_]; [lia|].
        cbn [negb Z.eqb Pos.eqb].
        destruct (IH' (Some (o ++ pa))) as (ib & ob & E).
        exists ib, ob. rewrite E. cbn [option_map]. rewrite app_assoc.
        reflexivity.
      * destruct (IH' None) as (ib & ob & E).
        exists ib, ob. rewrite E. reflexivity.
Qed.


Lemma sbk_write_file_eq (file : sbk_file) out (ctx : sbk_ctx) f ct tag rest :
  (0 < BUFSIZ)%nat -> Z.of_nat BUFSIZ <= SIZE_MAX - EVP_MAX_BLOCK_LENGTH ->
  fp ctx = Some f ->
  skipn (pos file) (f_data f) = ct ++ tag ++ rest ->
  len_ file = len ct -> List.length tag = SBK_MAC_LEN ->
  let ivc := counter_iv (iv ctx) (counter_ file) in
  let mac :=
    firstn SBK_MAC_LEN
      (HMAC_SHA256 (hmac_key (hmac ctx)) (firstn SBK_IV_LEN ivc ++ ct)) in
  let out' :=
    option_map (fun o => o ++ ctr_crypt (cipherkey ctx) ivc 0 ct) out in
  exists ctxF,
    counter ctxF = counter ctx /\ error ctxF = error ctx /\
    iv ctxF = ivc /\ cipher_iv (cipher ctxF) = ivc /\
    sbk_write_file file out ctx =
      if bytes_eqb mac tag then (Some tt, out', ctxF)
      else (None, out', set_error (Some (Errx "HMAC mismatch")) ctxF).
Proof.
  intros Hbuf Hsz Hfp Hskip Hlen Htag ivc mac out'.
  unfold sbk_write_file.
  unfold bind at 1. rewrite sbk_enlarge_buffers_eq by assumption.
  unfold fseek_set, sbk_decrypt_init. unfold_m. ctx_simpl. rewrite Hfp.
  ctx_simpl. fold ivc.
  rewrite Hlen. unfold len. rewrite Nat2Z.id.
  match goal with
  | |- context [sbk_write_file_loop _ _ _ ?c] =>
      destruct (sbk_write_file_loop_ok (List.length ct) (List.length ct) out c
                  {| f_data := f_data f; f_pos := pos file |}
                  ct (tag ++ rest) Hbuf)
        as (ib & ob & E); [reflexivity | exact Hskip | reflexivity | lia |];
      rewrite E; clear E
  end.
  ctx_simpl. fold out'.
  pose proof (f_equal (@List.length byte) Hskip) as Hl.
  rewrite length_skipn, !length_app, Htag in Hl. unfold SBK_MAC_LEN in *.
  erewrite sbk_read_ok; [ | reflexivity | lia | cbn; lia ].
  cbn [f_pos f_data].
  replace (skipn (pos file + List.length ct) (f_data f)) with (tag ++ rest).
  2:{ rewrite Nat.add_comm, <- skipn_skipn, Hskip.
      symmetry. apply skipn_app_exact. reflexivity. }
  rewrite firstn_app_exact by (symmetry; exact Htag).
  unfold sbk_decrypt_final, HMAC_Final, EVP_DecryptFinal_ex, fed, HMAC_Update.
  unfold_m. ctx_simpl. cbn [app List.length Nat.add firstn].
  rewrite (firstn_all2 (n := SBK_MAC_LEN) tag) by (rewrite Htag; reflexivity).
  unfold SBK_MAC_LEN. fold mac.
  match goal with
  | |- context [set_obuf (firstn 0 ob ++ []) ?c] =>
      exists (set_obuf (firstn 0 ob ++ []) c)
  end.
  repeat split; try reflexivity.
  destruct (bytes_eqb mac tag); ctx_simpl; [|reflexivity].
  destruct out'; reflexivity.
Qed.

Lemma sbk_get_file_as_string_loop_ok fuel :
  forall len str (ctx : sbk_ctx) f ct rest,
  (0 < BUFSIZ)%nat ->
  fp ctx = Some f -> skipn (f_pos f) (f_data f) = ct ++ rest ->
  List.length ct = len -> (len <= fuel)%nat ->
  exists ib ob,
    sbk_get_file_as_string_loop fuel len str ctx =
      (Some (str ++ ctr_crypt (cipher_key (cipher ctx))
                      (cipher_iv (cipher ctx)) (cipher_num (cipher ctx)) ct),
       fed ctx f ct ib ob).
Proof.
  induction fuel as [|fuel IH]; intros len str ctx f ct rest Hbuf Hfp Hskip Hlen Hfuel.
  - assert (len = 0%nat) as -> by lia. destruct ct; [|discriminate].
    exists (ibuf ctx), (obuf ctx). cbn. rewrite fed_nil by assumption.
    rewrite app_nil_r. reflexivity.
  - cbn [sbk_get_file_as_string_loop].
    destruct (Nat.eqb_spec len 0) as [-> | Hne].
    + destruct ct; [|discriminate].
      exists (ibuf ctx), (obuf ctx). cbn. rewrite fed_nil by assumption.
      rewrite app_nil_r. reflexivity.
    + set (n := if (len <? BUFSIZ)%nat then len else BUFSIZ).
      assert (Hn : (0 < n <= len)%nat).
      { subst n. destruct (Nat.ltb_spec len BUFSIZ); lia. }
      pose proof (firstn_skipn n ct) as Hsplit.
      set (a := firstn n ct) in *. set (b := skipn n ct) in *.
      assert (Ha : List.length a = n) by (subst a; rewrite length_firstn; lia).
      pose proof (f_equal (@List.length byte) Hskip) as Hl.
      rewrite length_skipn, length_app in Hl.
      unfold bind at 1.
      rewrite (sbk_read_ok ctx f n Hfp) by lia.
      rewrite Hskip, <- Hsplit, <- app_assoc, (firstn_app_exact a) by (symmetry; exact Ha).
      unfold bind at 1, modify at 1. cbv beta iota.
      unfold sbk_decrypt_update, EVP_DecryptUpdate.
      unfold bind at 1, get at 1. cbv beta iota.
      unfold bind at 1, modify at 1. cbv beta iota.
      unfold bind at 1, modify at 1. cbv beta iota.
      unfold bind at 1, modify at 1. cbv beta iota.
      unfold bind at 1, ret at 1. cbv beta iota.
      unfold bind at 1, get at 1. cbv beta iota.
      ctx_simpl.
      replace (firstn n a) with a by (symmetry; apply firstn_all2; lia).
      rewrite firstn_all. rewrite <- Ha.
      set (pa := ctr_crypt (cipher_key (cipher ctx)) (cipher_iv (cipher ctx))
                   (cipher_num (cipher ctx)) a).
      fold (fed ctx f a a pa).
      destruct (IH (len - List.length a)%nat (str ++ pa) (fed ctx f a a pa)
                  {| f_data := f_data f; f_pos := f_pos f + List.length a |}
                  b rest Hbuf) as (ib & ob & E).
      * reflexivity.
      * cbn [f_pos f_data]. rewrite Nat.add_comm, <- skipn_skipn, Hskip.
        rewrite <- Hsplit, <- app_assoc. apply skipn_app_exact. reflexivity.
      * subst b. rewrite length_skipn. lia.
      * lia.
      * exists ib, ob. rewrite E, fed_fed, ctr_crypt_app. fold pa.
        unfold fed at 1. ctx_simpl. rewrite app_assoc. reflexivity.
Qed.

Lemma sbk_get_file_as_string_eq (file : sbk_file) (ctx : sbk_ctx) f ct tag rest :
  (0 < BUFSIZ)%nat -> Z.of_nat BUFSIZ <= SIZE_MAX - EVP_MAX_BLOCK_LENGTH ->
  len_ file <= SIZE_MAX - EVP_MAX_BLOCK_LENGTH - 1 ->
  fp ctx = Some f ->
  skipn (pos file) (f_data f) = ct ++ tag ++ rest ->
  len_ file = len ct -> List.length tag = SBK_MAC_LEN ->
  let ivc := counter_iv (iv ctx) (counter_ file) in
  let mac :=
    firstn SBK_MAC_LEN
      (HMAC_SHA256 (hmac_key (hmac ctx)) (firstn SBK_IV_LEN ivc ++ ct)) in
  exists ctxF,
    counter ctxF = counter ctx /\ error ctxF = error ctx /\
    iv ctxF = ivc /\ cipher_iv (cipher ctxF) = ivc /\
    sbk_get_file_as_string file ctx =
      if bytes_eqb mac tag then
        (Some (ctr_crypt (cipherkey ctx) ivc 0 ct), ctxF)
      else (None, set_error (Some (Errx "HMAC mismatch")) ctxF).
Proof.
  intros Hbuf Hsz Hmax Hfp Hskip Hlen Htag ivc mac.
  unfold sbk_get_file_as_string.
  unfold bind at 1. rewrite sbk_enlarge_buffers_eq by assumption.
  unfold bind at 1, fseek_set, bind at 1, get at 1. cbv beta iota.
  ctx_simpl. rewrite Hfp. unfold modify at 1. cbv beta iota.
  destruct (Z.ltb_spec (SIZE_MAX - EVP_MAX_BLOCK_LENGTH - 1) (len_ file)); [lia|].
  unfold sbk_decrypt_init.
  unfold bind at 1, bind at 1, get at 1. cbv beta iota.
  unfold bind at 1, modify at 1. cbv beta iota.
  unfold bind at 1, modify at 1. cbv beta iota.
  unfold modify at 1.
  unfold bind at 1, get at 1. cbv beta iota.
  unfold bind at 1, modify at 1. cbv beta iota.
  ctx_simpl. fold ivc.
  rewrite Hlen. unfold len. rewrite Nat2Z.id.
  unfold bind at 1.
  match goal with
  | |- context [sbk_get_file_as_string_loop _ _ _ ?c] =>
      destruct (sbk_get_file_as_string_loop_ok (List.length ct)
                  (List.length ct) [] c
                  {| f_data := f_data f; f_pos := pos file |}
                  ct (tag ++ rest) Hbuf)
        as (ib & ob & E); [reflexivity | exact Hskip | reflexivity | lia |];
      rewrite E; clear E
  end.
  ctx_simpl. cbn [app].
  pose proof (f_equal (@List.length byte) Hskip) as Hl.
  rewrite length_skipn, !length_app, Htag in Hl. unfold SBK_MAC_LEN in *.
  unfold bind at 1.
  erewrite sbk_read_ok; [ | reflexivity | lia | cbn; lia ].
  cbn [f_pos f_data].
  replace (skipn (pos file + List.length ct) (f_data f)) with (tag ++ rest).
  2:{ rewrite Nat.add_comm, <- skipn_skipn, Hskip.
      symmetry. apply skipn_app_exact. reflexivity. }
  rewrite firstn_app_exact by (symmetry; exact Htag).
  unfold sbk_decrypt_final, HMAC_Final, EVP_DecryptFinal_ex, fed, HMAC_Update.
  unfold_m. ctx_simpl. cbn [app List.length Nat.add firstn].
  rewrite (firstn_all2 (n := SBK_MAC_LEN) tag) by (rewrite Htag; reflexivity).
  unfold SBK_MAC_LEN. fold mac.
  match goal with
  | |- context [set_obuf (firstn 0 ob ++ []) ?c] =>
      exists (set_obuf (firstn 0 ob ++ []) c)
  end.
  repeat split; try reflexivity.
  destruct (bytes_eqb mac tag); ctx_simpl; reflexivity.
Qed.
End Proofs.

(** * The frame stream: authentication, counter and lengths *)

Section Claims.
Context `{OpenSSL} `{Libc} `{SQLite}.


(** C2 (as amended): the tag of an encrypted frame is checked against
    HMAC-SHA-256, keyed with the MAC key, over the ciphertext alone (the IV
    is not part of the input), truncated to 10 bytes: a frame that
    sbk_get_frame returns has that tag, and with any other tag the call
    returns NULL with the error "HMAC mismatch" and leaves the counter as it
    was. *)
Theorem frame_mac_over_ciphertext
    (ctx : sbk_ctx) f b0 b1 b2 b3 ct tag rest w :
  fp ctx = Some f -> eof ctx = false -> firstframe ctx = false ->
  skipn (f_pos f) (f_data f) = b0 :: b1 :: b2 :: b3 :: ct ++ tag ++ rest ->
  List.length tag = SBK_MAC_LEN -> ct <> [] ->
  be32 b0 b1 b2 b3 = len ct + 10 -> len ct + 10 < 2 ^ 31 ->
  len ct + 10 <= SIZE_MAX - EVP_MAX_BLOCK_LENGTH ->
  hmac_key (hmac ctx) = mackey ctx ->
  let mac := firstn SBK_MAC_LEN (HMAC_SHA256 (mackey ctx) ct) in
  (forall r ctx', sbk_get_frame w ctx = (Some r, ctx') -> tag = mac)
  /\ (tag <> mac ->
      exists ctx',
        sbk_get_frame w ctx = (None, ctx')
        /\ error ctx' = Some (Errx "HMAC mismatch")
        /\ counter ctx' = counter ctx).
Proof.
  intros Hfp Heof Hff Hskip Htag Hct HL Hlt Hsz Hkey mac.
  destruct (sbk_get_frame_encrypted ctx f b0 b1 b2 b3 ct tag rest w
              Hfp Heof Hff Hskip Htag Hct HL Hlt Hsz)
    as (ctxD & Hc & _ & _ & _ & _ & _ & _ & _ & E).
  rewrite Hkey in E. fold mac in E. rewrite E.
  destruct (bytes_eqb mac tag) eqn:Heq.
  - apply bytes_eqb_eq in Heq. split; [intros; congruence|].
    intros Hne. congruence.
  - split; [intros r ctx' E'; discriminate E'|].
    intros _. eexists. split; [reflexivity|]. split; [reflexivity|].
    exact Hc.
Qed.


(** C10: sbk_read_frame takes the four length bytes as a signed 32-bit
    big-endian value.  When the value is zero or has its top bit set
    (2^31 or more), the call fails with "Invalid frame size" and has read
    nothing but the four length bytes; a frame it accepts is between 1
    and 2^31 - 1 bytes long. *)
Theorem sbk_read_frame_signed_length
    (ctx : sbk_ctx) f b0 b1 b2 b3 rest :
  fp ctx = Some f ->
  skipn (f_pos f) (f_data f) = b0 :: b1 :: b2 :: b3 :: rest ->
  let L := be32 b0 b1 b2 b3 in
  (L = 0 \/ 2 ^ 31 <= L ->
     sbk_read_frame ctx =
       (None,
        set_error (Some (Errx "Invalid frame size"))
          (set_fp (Some {| f_data := f_data f; f_pos := f_pos f + 4 |}) ctx)))
  /\ (forall n ctx', sbk_read_frame ctx = (Some n, ctx') ->
        Z.of_nat n = L /\ 0 < L <= 2 ^ 31 - 1).
Proof.
  intros Hfp Hskip L.
  rewrite (sbk_read_frame_eq ctx f b0 b1 b2 b3 rest Hfp Hskip). fold L.
  cbv zeta.
  destruct (Z.ltb_spec 0 L) as [Hpos | Hle], (Z.ltb_spec L (2 ^ 31)) as [Hlt | Hge];
    cbn [andb]; (split; [intros [? | ?]; try lia; reflexivity |]);
    intros n ctx' E; try discriminate E.
  unfold bind in E.
  destruct (sbk_enlarge_buffers L _) as [[[]|] c1]; [|discriminate E].
  destruct (sbk_read (Z.to_nat L) c1) as [[data|] c2]; [|discriminate E].
  unfold modify, ret in E. injection E as <- _. lia.
Qed.


(** C3: sbk_open sets the counter to the big-endian value of the first four
    bytes of the header's IV.  A call of sbk_get_frame that returns the
    first (unencrypted) frame leaves it; a call that returns an encrypted
    frame adds 1, and 1 more when the frame has a file (attachment, avatar
    or sticker) after it, in uint32_t arithmetic; a failed call leaves it
    or, when the frame was decrypted and its file could not be skipped, has
    added the frame's 1.  So after N encrypted frames with M files the
    counter is the initial one + N + M (modulo 2^32).  The counter stored
    in the sbk_file of a frame is the one after the frame's increment, the
    file's own counter, and sbk_write_file and sbk_get_file_as_string
    decrypt with it and leave the context's counter alone, as does
    sbk_rewind. *)
Theorem counter_progress :
  (forall (fs : string -> option (list byte)) path passphr
          (ctx ctx' : sbk_ctx),
     sbk_open fs path passphr ctx = (Some tt, ctx') ->
     exists data frm file c1 hdr i0 i1 i2 i3 tl,
       fs path = Some data /\
       sbk_get_frame false
         (set_eof false
            (set_firstframe true
               (set_fp (Some {| f_data := data; f_pos := 0 |}) ctx)))
       = (Some (frm, file), c1) /\
       Pb.frm_header frm = Some hdr /\
       Pb.iv hdr = i0 :: i1 :: i2 :: i3 :: tl /\
       iv ctx' = Pb.iv hdr /\ counter ctx' = be32 i0 i1 i2 i3)
  /\ (forall (w : bool) (ctx : sbk_ctx),
        match sbk_get_frame w ctx with
        | (Some (frm, file), ctx') =>
            counter ctx' =
              (if firstframe ctx then counter ctx
               else uint32 (counter ctx + 1
                            + (if sbk_has_file_data frm then 1 else 0)))
            /\ firstframe ctx' = false
            /\ (forall fl, file = Some fl ->
                  counter_ fl = uint32 (counter ctx + 1)
                  /\ counter ctx' = uint32 (counter_ fl + 1))
        | (None, ctx') =>
            counter ctx' = counter ctx
            \/ counter ctx' = uint32 (counter ctx + 1)
        end)
  /\ (forall (w : bool) (ctx ctx' : sbk_ctx) frms,
        frames_read w ctx frms ctx' ->
        firstframe ctx = false -> 0 <= counter ctx < 2 ^ 32 ->
        counter ctx' =
          uint32 (counter ctx + len frms
                  + len (List.filter sbk_has_file_data frms)))
  /\ (forall (file : sbk_file) out (ctx : sbk_ctx) f ct tag rest,
        (0 < BUFSIZ)%nat ->
        Z.of_nat BUFSIZ <= SIZE_MAX - EVP_MAX_BLOCK_LENGTH ->
        len_ file <= SIZE_MAX - EVP_MAX_BLOCK_LENGTH - 1 ->
        fp ctx = Some f ->
        skipn (pos file) (f_data f) = ct ++ tag ++ rest ->
        len_ file = len ct -> List.length tag = SBK_MAC_LEN ->
        let ivc := counter_iv (iv ctx) (counter_ file) in
        let plain := ctr_crypt (cipherkey ctx) ivc 0 ct in
        (forall out' ctx',
           sbk_write_file file out ctx = (Some tt, out', ctx') ->
           out' = option_map (fun o => o ++ plain) out
           /\ cipher_iv (cipher ctx') = ivc /\ counter ctx' = counter ctx)
        /\ (forall str ctx',
              sbk_get_file_as_string file ctx = (Some str, ctx') ->
              str = plain
              /\ cipher_iv (cipher ctx') = ivc /\ counter ctx' = counter ctx))
  /\ (forall ctx : sbk_ctx, counter (snd (sbk_rewind ctx)) = counter ctx).
Proof.
  split; [|split; [|split; [|split]]].
  - intros fs path passphr ctx ctx' E.
    destruct (sbk_open_ok _ _ _ _ _ E)
      as (data & frm & file & c1 & hdr & i0 & i1 & i2 & i3 & tl
          & G1 & G2 & G3 & G4 & G5 & G6 & _).
    exists data, frm, file, c1, hdr, i0, i1, i2, i3, tl.
    repeat split; assumption.
  - apply sbk_get_frame_counter.
  - intros w ctx ctx' frms Hr Hff Hc.
    apply (frames_read_counter w ctx ctx' frms Hr Hff Hc).
  - intros file out ctx f ct tag rest Hbuf Hsz Hmax Hfp Hskip Hlen Htag
      ivc plain.
    split.
    + intros out' ctx' E.
      destruct (sbk_write_file_eq file out ctx f ct tag rest
                  Hbuf Hsz Hfp Hskip Hlen Htag)
        as (ctxF & Hc & _ & _ & Hci & E').
      rewrite E' in E. destruct (bytes_eqb _ _); [|discriminate E].
      injection E as <- <-. auto.
    + intros str ctx' E.
      destruct (sbk_get_file_as_string_eq file ctx f ct tag rest
                  Hbuf Hsz Hmax Hfp Hskip Hlen Htag)
        as (ctxF & Hc & _ & _ & Hci & E').
      rewrite E' in E. destruct (bytes_eqb _ _); [|discriminate E].
      injection E as <- <-. auto.
  - intros ctx. unfold sbk_rewind, fseek_set, bind, get, modify,
      sbk_error_set.
    destruct (fp ctx); reflexivity.
Qed.

(** C5: for the file after a frame, sbk_write_file and
    sbk_get_file_as_string feed the 16-byte IV (with the file's counter in
    its first four bytes) to the HMAC before the ciphertext: they succeed
    exactly when the 10 bytes after the ciphertext are the first 10 bytes of
    HMAC-SHA-256 over IV ++ ciphertext, and fail with "HMAC mismatch"
    otherwise.  For a frame, sbk_get_frame compares the 10 trailing bytes
    with the first 10 bytes of the HMAC over the ciphertext alone. *)
Theorem file_mac_includes_iv :
  (forall (file : sbk_file) out (ctx : sbk_ctx) f ct tag rest,
     (0 < BUFSIZ)%nat ->
     Z.of_nat BUFSIZ <= SIZE_MAX - EVP_MAX_BLOCK_LENGTH ->
     len_ file <= SIZE_MAX - EVP_MAX_BLOCK_LENGTH - 1 ->
     fp ctx = Some f ->
     skipn (pos file) (f_data f) = ct ++ tag ++ rest ->
     len_ file = len ct -> List.length tag = SBK_MAC_LEN ->
     let ivc := counter_iv (iv ctx) (counter_ file) in
     let mac :=
       firstn SBK_MAC_LEN
         (HMAC_SHA256 (hmac_key (hmac ctx)) (firstn SBK_IV_LEN ivc ++ ct)) in
     (fst (fst (sbk_write_file file out ctx)) = Some tt <-> tag = mac)
     /\ (tag <> mac ->
         error (snd (sbk_write_file file out ctx))
         = Some (Errx "HMAC mismatch"))
     /\ (fst (sbk_get_file_as_string file ctx)
         = (if bytes_eqb mac tag
            then Some (ctr_crypt (cipherkey ctx) ivc 0 ct) else None))
     /\ (tag <> mac ->
         error (snd (sbk_get_file_as_string file ctx))
         = Some (Errx "HMAC mismatch")))
  /\ (forall (ctx : sbk_ctx) f b0 b1 b2 b3 ct tag rest w,
        fp ctx = Some f -> eof ctx = false -> firstframe ctx = false ->
        skipn (f_pos f) (f_data f)
        = b0 :: b1 :: b2 :: b3 :: ct ++ tag ++ rest ->
        List.length tag = SBK_MAC_LEN -> ct <> [] ->
        be32 b0 b1 b2 b3 = len ct + 10 -> len ct + 10 < 2 ^ 31 ->
        len ct + 10 <= SIZE_MAX - EVP_MAX_BLOCK_LENGTH ->
        let mac :=
          firstn SBK_MAC_LEN (HMAC_SHA256 (hmac_key (hmac ctx)) ct) in
        (forall r ctx', sbk_get_frame w ctx = (Some r, ctx') -> tag = mac)
        /\ (tag <> mac ->
            error (snd (sbk_get_frame w ctx))
            = Some (Errx "HMAC mismatch"))).
Proof.
  split.
  - intros file out ctx f ct tag rest Hbuf Hsz Hmax Hfp Hskip Hlen Htag
      ivc mac.
    destruct (sbk_write_file_eq file out ctx f ct tag rest
                Hbuf Hsz Hfp Hskip Hlen Htag)
      as (ctxF & _ & _ & _ & _ & E).
    destruct (sbk_get_file_as_string_eq file ctx f ct tag rest
                Hbuf Hsz Hmax Hfp Hskip Hlen Htag)
      as (ctxG & _ & _ & _ & _ & E').
    fold ivc in E, E'. fold mac in E, E'. rewrite E, E'.
    destruct (bytes_eqb mac tag) eqn:Heq; cbn [fst snd].
    + apply bytes_eqb_eq in Heq. subst tag.
      repeat split; try congruence; reflexivity.
    + assert (Hne : tag <> mac).
      { intros ->. rewrite (proj2 (bytes_eqb_eq mac mac) eq_refl) in Heq.
        discriminate Heq. }
      repeat split; try reflexivity; try (intros; congruence).
  - intros ctx f b0 b1 b2 b3 ct tag rest w
      Hfp Heof Hff Hskip Htag Hct HL Hlt Hsz mac.
    destruct (sbk_get_frame_encrypted ctx f b0 b1 b2 b3 ct tag rest w
                Hfp Heof Hff Hskip Htag Hct HL Hlt Hsz)
      as (ctxD & _ & _ & _ & _ & _ & _ & _ & _ & E).
    fold mac in E. rewrite E.
    destruct (bytes_eqb mac tag) eqn:Heq.
    + apply bytes_eqb_eq in Heq. split; intros; congruence.
    + split; [intros r ctx' E0; discriminate E0 | reflexivity].
Qed.

(** Reading n frames in a row. *)
Fixpoint read_frames (n : nat) (w : bool) (ctx : sbk_ctx)
  : option (list Pb.Signal__BackupFrame * sbk_ctx) :=
  match n with
  | O => Some ([], ctx)
  | S n =>
      match sbk_get_frame w ctx with
      | (Some (frm, _), ctx1) =>
          match read_frames n w ctx1 with
          | Some (frms, ctx2) => Some (frm :: frms, ctx2)
          | None => None
          end
      | (None, _) => None
      end
  end.

Lemma read_frames_ok n w : forall ctx frms ctx',
  read_frames n w ctx = Some (frms, ctx') -> frames_read w ctx frms ctx'.
Proof.
  induction n as [|n IH]; intros ctx frms ctx'; cbn [read_frames].
  - intros E. injection E as <- <-. constructor.
  - destruct (sbk_get_frame w ctx) as [[[frm file]|] ctx1] eqn:E1;
      [|intros E; discriminate E].
    destruct (read_frames n w ctx1) as [[frms2 ctx2]|] eqn:E2;
      [|intros E; discriminate E].
    intros E. injection E as <- <-.
    econstructor; [exact E1 | apply IH; exact E2].
Qed.

End Claims.

(** * Key derivation *)

Section Keys.
Context `{OpenSSL} `{Libc} `{SQLite}.

(** The rounds as the format describes them: round 0 hashes
    salt ++ passphrase ++ passphrase, round n + 1 hashes
    round n ++ passphrase. *)
Fixpoint sha512_round (passphr salt : list byte) (n : nat) : list byte :=
  match n with
  | O => SHA512 (salt ++ passphr ++ passphr)
  | S n => SHA512 (sha512_round passphr salt n ++ passphr)
  end.

Lemma N_iter_rounds (passphr salt : list byte) (n : N) :
  N.iter n (fun key => SHA512 (key ++ passphr))
    (SHA512 (salt ++ passphr ++ passphr))
  = sha512_round passphr salt (N.to_nat n).
Proof.
  rewrite N2Nat.inj_iter.
  induction (N.to_nat n) as [|k IH]; [reflexivity|].
  cbn [sha512_round Nat.iter nat_rect]. rewrite <- IH. reflexivity.
Qed.

(** C4: sbk_compute_keys runs 250000 rounds of SHA-512 (round 0 over
    salt ++ passphrase ++ passphrase, with no salt bytes for a NULL salt,
    each later round over the previous digest ++ passphrase), expands the
    first 32 bytes of the last digest with HKDF-SHA-256 (empty salt, info
    "Backup Export") to 64 bytes, and stores the first 32 of them as the
    cipher key and the next 32 as the MAC key; it touches nothing else.
    When HKDF fails it fails with "Cannot compute keys". *)
Theorem sbk_compute_keys_derivation
    (passphr : list byte) (salt : option (list byte)) (ctx : sbk_ctx) :
  let digest :=
    sha512_round passphr (match salt with Some s => s | None => [] end)
      (N.to_nat 249999) in
  match HKDF_SHA256 64 (firstn 32 digest) [] (cstr "Backup Export") with
  | Some derivkey =>
      sbk_compute_keys passphr salt ctx
      = (Some tt,
         set_mackey (firstn 32 (skipn 32 derivkey))
           (set_cipherkey (firstn 32 derivkey) ctx))
  | None =>
      sbk_compute_keys passphr salt ctx
      = (None, set_error (Some (Errx "Cannot compute keys")) ctx)
  end.
Proof.
  intros digest. unfold sbk_compute_keys.
  change (SBK_ROUNDS - 1)%N with 249999%N.
  rewrite N_iter_rounds. fold digest.
  change SBK_DERIVKEY_LEN with 64%nat. change SBK_KEY_LEN with 32%nat.
  change SBK_HKDF_INFO with (cstr "Backup Export").
  destruct (HKDF_SHA256 64 (firstn 32 digest) [] (cstr "Backup Export"));
    reflexivity.
Qed.

End Keys.

(** * Replaying SQL statements *)

Section Replay.
Context `{OpenSSL} `{Libc} `{SQLite}.








End Replay.

(** * Attachments *)

Section Attachments.
Context `{OpenSSL} `{Libc} `{SQLite}.

(** A text column is copied without touching the context, or the call
    fails. *)
Lemma sbk_sqlite_column_text_copy_ok stm idx (ctx : sbk_ctx) :
  (exists o, sbk_sqlite_column_text_copy stm idx ctx = (Some o, ctx))
  \/ fst (sbk_sqlite_column_text_copy stm idx ctx) = None.
Proof.
  unfold sbk_sqlite_column_text_copy.
  destruct (sqlite3_column_type stm idx =? SQLITE_NULL).
  - left. eexists. reflexivity.
  - destruct (sqlite3_column_text stm idx).
    + left. eexists. reflexivity.
    + right. reflexivity.
Qed.

(** What sbk_get_attachment does once the two text columns are read. *)
Definition attachment_of (stm : sqlite3_stmt)
    (filename content_type : option (list byte)) (file : option sbk_file)
  : sbk_attachment :=
  {| att_filename := filename; att_content_type := content_type;
     att_rowid_ := sqlite3_column_int64 stm 2;
     att_attachmentid_ := sqlite3_column_int64 stm 3;
     att_status := sqlite3_column_int stm 4;
     att_size := sqlite3_column_int64 stm 5;
     att_file := file |}.

Lemma sbk_get_attachment_eq stm (ctx : sbk_ctx) :
  fst (sbk_get_attachment stm ctx) = None
  /\ (fst (sbk_sqlite_column_text_copy stm 0 ctx) = None
      \/ fst (sbk_sqlite_column_text_copy stm 1 ctx) = None)
  \/ exists filename content_type,
       sbk_sqlite_column_text_copy stm 0 ctx = (Some filename, ctx)
       /\ sbk_sqlite_column_text_copy stm 1 ctx = (Some content_type, ctx)
       /\ sbk_get_attachment stm ctx
          = if sqlite3_column_int stm 4 =? SBK_ATTACHMENT_TRANSFER_DONE then
              match
                attachments ctx
                  !! (sqlite3_column_int64 stm 2, sqlite3_column_int64 stm 3)
              with
              | Some (Some file) =>
                  if sqlite3_column_int64 stm 5 =? len_ file then
                    (Some (attachment_of stm filename content_type
                             (Some file)), ctx)
                  else
                    (None,
                     set_error (Some (Errx "Inconsistent attachment size"))
                       ctx)
              | _ =>
                  (None,
                   set_error (Some (Errx "Cannot find attachment file")) ctx)
              end
            else (Some (attachment_of stm filename content_type None), ctx).
Proof.
  unfold sbk_get_attachment.
  destruct (sbk_sqlite_column_text_copy_ok stm 0 ctx) as [[fn E0]|E0].
  2: { left. split; [|left; exact E0]. unfold bind at 1.
       destruct (sbk_sqlite_column_text_copy stm 0 ctx) as [[?|] ?];
         [cbn in E0; discriminate E0 | reflexivity]. }
  destruct (sbk_sqlite_column_text_copy_ok stm 1 ctx) as [[ct E1]|E1].
  2: { left. split; [|right; exact E1]. unfold bind at 1. rewrite E0.
       unfold bind at 1.
       destruct (sbk_sqlite_column_text_copy stm 1 ctx) as [[?|] ?];
         [cbn in E1; discriminate E1 | reflexivity]. }
  right. exists fn, ct. split; [exact E0|]. split; [exact E1|].
  unfold bind at 1. rewrite E0. unfold bind at 1. rewrite E1.
  destruct (sqlite3_column_int stm 4 =? SBK_ATTACHMENT_TRANSFER_DONE);
    [|reflexivity].
  unfold bind, get, sbk_get_attachment_file.
  destruct (attachments ctx !! _) as [[file|]|]; try reflexivity.
  destruct (sqlite3_column_int64 stm 5 =? len_ file); reflexivity.
Qed.

(** A successful call leaves the context as it is. *)
Lemma sbk_get_attachment_keeps stm (ctx ctx' : sbk_ctx) att :
  sbk_get_attachment stm ctx = (Some att, ctx') -> ctx' = ctx.
Proof.
  intros E.
  destruct (sbk_get_attachment_eq stm ctx)
    as [[En _]|(fn & ct & _ & _ & Eq)].
  - rewrite E in En. discriminate En.
  - rewrite Eq in E.
    destruct (_ =? SBK_ATTACHMENT_TRANSFER_DONE).
    + destruct (attachments ctx !! _) as [[file|]|]; try discriminate E.
      destruct (_ =? len_ file); [|discriminate E].
      injection E as _ <-. reflexivity.
    + injection E as _ <-. reflexivity.
Qed.

Lemma sbk_get_attachment_rows_fail rows : forall row (ctx : sbk_ctx),
  In row rows -> fst (sbk_get_attachment row ctx) = None ->
  fst (sbk_get_attachment_rows rows ctx) = None.
Proof.
  induction rows as [|r rows IH]; intros row ctx Hin Hf; [destruct Hin|].
  cbn [sbk_get_attachment_rows]. unfold bind at 1.
  destruct (sbk_get_attachment r ctx) as [[att|] ctx1] eqn:E1;
    [|reflexivity].
  pose proof (sbk_get_attachment_keeps _ _ _ _ E1) as ->.
  destruct Hin as [->|Hin].
  { rewrite E1 in Hf. discriminate Hf. }
  unfold bind at 1. pose proof (IH row ctx Hin Hf) as K.
  destruct (sbk_get_attachment_rows rows ctx) as [[?|] ?];
    [cbn in K; discriminate K | reflexivity].
Qed.

(** C7: for a part row whose pending_push column is
    SBK_ATTACHMENT_TRANSFER_DONE (0), sbk_get_attachment returns an
    attachment only when the attachment tree has a file under
    (_id, unique_id) and data_size equals the file's length, and the
    attachment then carries that file; without an entry (or with an entry
    whose file is NULL) it fails with "Cannot find attachment file", and
    with another length with "Inconsistent attachment size".  A row with
    any other status needs no file: when its two text columns can be read
    the call succeeds with a NULL file.  A row that fails makes
    sbk_get_attachments fail. *)
Theorem sbk_get_attachment_requires_file
    (stm : sqlite3_stmt) (ctx : sbk_ctx) :
  let rowid := sqlite3_column_int64 stm 2 in
  let attachmentid := sqlite3_column_int64 stm 3 in
  let status := sqlite3_column_int stm 4 in
  let size := sqlite3_column_int64 stm 5 in
  (status = SBK_ATTACHMENT_TRANSFER_DONE ->
     (forall att ctx',
        sbk_get_attachment stm ctx = (Some att, ctx') ->
        exists file,
          attachments ctx !! (rowid, attachmentid) = Some (Some file)
          /\ size = len_ file /\ att_file att = Some file /\ ctx' = ctx)
     /\ (sbk_get_attachment_file ctx rowid attachmentid = None ->
         fst (sbk_get_attachment stm ctx) = None
         /\ (fst (sbk_sqlite_column_text_copy stm 0 ctx) <> None ->
             fst (sbk_sqlite_column_text_copy stm 1 ctx) <> None ->
             error (snd (sbk_get_attachment stm ctx))
             = Some (Errx "Cannot find attachment file")))
     /\ (forall file,
           sbk_get_attachment_file ctx rowid attachmentid = Some file ->
           size <> len_ file ->
           fst (sbk_get_attachment stm ctx) = None
           /\ (fst (sbk_sqlite_column_text_copy stm 0 ctx) <> None ->
               fst (sbk_sqlite_column_text_copy stm 1 ctx) <> None ->
               error (snd (sbk_get_attachment stm ctx))
               = Some (Errx "Inconsistent attachment size"))))
  /\ (status <> SBK_ATTACHMENT_TRANSFER_DONE ->
      fst (sbk_sqlite_column_text_copy stm 0 ctx) <> None ->
      fst (sbk_sqlite_column_text_copy stm 1 ctx) <> None ->
      exists att,
        sbk_get_attachment stm ctx = (Some att, ctx)
        /\ att_file att = None /\ att_status att = status)
  /\ (forall q d rows rc,
        db ctx = Some d -> sqlite3_rows d q = (rows, rc) -> In stm rows ->
        fst (sbk_get_attachment stm ctx) = None ->
        fst (sbk_get_attachments q ctx) = None).
Proof.
  intros rowid attachmentid status size.
  pose proof (sbk_get_attachment_eq stm ctx) as Heq.
  fold rowid attachmentid status size in Heq.
  split; [|split].
  - intros Hst. apply Z.eqb_eq in Hst.
    split; [|split].
    + intros att ctx' E.
      destruct Heq as [[En _]|(fn & ct & _ & _ & Eq)].
      { rewrite E in En. discriminate En. }
      fold status in Eq. rewrite Hst in Eq. rewrite Eq in E.
      destruct (attachments ctx !! (rowid, attachmentid)) as [[file|]|];
        try discriminate E.
      destruct (Z.eqb_spec size (len_ file)) as [Hsz|_]; [|discriminate E].
      injection E as <- <-. exists file. repeat split; assumption.
    + intros Hnone. unfold sbk_get_attachment_file in Hnone.
      destruct Heq as [[En K]|(fn & ct & E0 & E1 & Eq)].
      { split; [exact En|]. intros N0 N1. destruct K; contradiction. }
      fold status in Eq. rewrite Hst in Eq. rewrite Eq.
      destruct (attachments ctx !! (rowid, attachmentid)) as [[file|]|];
        try discriminate Hnone; split; reflexivity.
    + intros file Hsome Hne. unfold sbk_get_attachment_file in Hsome.
      destruct Heq as [[En K]|(fn & ct & E0 & E1 & Eq)].
      { split; [exact En|]. intros N0 N1. destruct K; contradiction. }
      fold status in Eq. rewrite Hst in Eq. rewrite Eq.
      destruct (attachments ctx !! (rowid, attachmentid)) as [[file'|]|];
        try discriminate Hsome.
      injection Hsome as ->.
      destruct (Z.eqb_spec size (len_ file)) as [Hsz|_]; [contradiction|].
      split; reflexivity.
  - intros Hst N0 N1. apply Z.eqb_neq in Hst.
    destruct Heq as [[_ [K|K]]|(fn & ct & _ & _ & Eq)];
      [contradiction | contradiction |].
    fold status in Eq. rewrite Hst in Eq. eexists. split; [exact Eq|].
    split; reflexivity.
  - intros q d rows rc Hd Hrows Hin Hf.
    unfold sbk_get_attachments, bind at 1, get. rewrite Hd, Hrows.
    unfold bind.
    pose proof (sbk_get_attachment_rows_fail rows stm ctx Hin Hf) as K.
    destruct (sbk_get_attachment_rows rows ctx) as [[?|] ?];
      [cbn in K; discriminate K | reflexivity].
Qed.

End Attachments.

(** * Mentions *)

Section Mentions.
Context `{OpenSSL} `{Libc} `{SQLite}.

















End Mentions.

(** * The protobuf decoder *)

Lemma Zb_B (z : Z) : 0 <= z < 256 -> Zb (B z) = z.
Proof.
  intros Hz. unfold Zb, B. rewrite Z.mod_small by exact Hz.
  destruct (Byte.of_N (Z.to_N z)) as [b|] eqn:E.
  - apply Byte.to_of_N in E. rewrite E. lia.
  - apply Byte.of_N_None_iff in E. lia.
Qed.

Lemma land_value_mask (b : byte) :
  Z.land (Zb b) Pb.VARINT_VALUE_MASK = Zb b mod 128.
Proof. destruct b; reflexivity. Qed.

Lemma land_continue_bit (b : byte) :
  Z.land (Zb b) Pb.VARINT_CONTINUE_BIT = if Zb b <? 128 then 0 else 128.
Proof. destruct b; reflexivity. Qed.

Lemma lor_add_shifted (acc v k : Z) :
  0 <= k -> 0 <= acc < 2 ^ k -> Z.lor acc (Z.shiftl v k) = acc + v * 2 ^ k.
Proof.
  intros Hk Ha. rewrite Z.lor_comm, lor_shiftl_add by assumption. lia.
Qed.

(** ** Varints: the decoder reads back what the wire format writes *)

Lemma varint_unpack_from_encode (n : nat) :
  forall (i : nat) (acc v : Z) (rest : list byte),
    (n + i = 10)%nat ->
    0 <= acc < 2 ^ (Z.of_nat i * 7) -> 0 <= v < 2 ^ (64 - Z.of_nat i * 7) ->
    Pb.varint_unpack_from i acc (Wire.varint_bytes n v ++ rest)
    = Some ((i + List.length (Wire.varint_bytes n v))%nat,
            acc + v * 2 ^ (Z.of_nat i * 7)).
Proof.
  induction n as [|n IH]; intros i acc v rest Hn Hacc Hv.
  - assert (i = 10%nat) by lia. subst i. cbn in Hv.
    rewrite Z.pow_neg_r in Hv by lia. lia.
  - set (k := Z.of_nat i * 7) in *.
    assert (Hk : 0 <= k) by lia.
    assert (Hk64 : k < 64).
    { destruct (Z.lt_ge_cases k 64) as [|Hge]; [assumption|].
      rewrite Z.pow_neg_r in Hv by lia. lia. }
    cbn [Wire.varint_bytes].
    destruct (Z.ltb_spec v 128) as [Hlt|Hge].
    + cbn [app Pb.varint_unpack_from]. fold k.
      destruct (Z.leb_spec 64 k) as [|_]; [lia|].
      rewrite land_value_mask, land_continue_bit, Zb_B by lia.
      rewrite (Z.mod_small v 128) by lia.
      destruct (Z.ltb_spec v 128) as [_|]; [|lia].
      cbn [Z.eqb List.length]. rewrite Z.shiftl_mul_pow2 by lia.
      rewrite Z.mod_small.
      2: { split; [apply Z.mul_nonneg_nonneg; lia|].
           replace 64 with ((64 - k) + k) by lia.
           rewrite Z.pow_add_r by lia.
           apply Z.mul_lt_mono_pos_r; [apply Z.pow_pos_nonneg|]; lia. }
      rewrite <- Z.shiftl_mul_pow2 by lia.
      rewrite lor_add_shifted by lia. rewrite ?Z.shiftl_mul_pow2 by lia.
      f_equal. f_equal. lia.
    + assert (Hk57 : k + 7 < 64).
      { destruct (Z.lt_ge_cases (k + 7) 64) as [|Hge']; [assumption|].
        assert (2 ^ (64 - k) <= 2 ^ 7)
          by (apply Z.pow_le_mono_r; lia).
        change (2 ^ 7) with 128 in *. lia. }
      cbn [app Pb.varint_unpack_from]. fold k.
      destruct (Z.leb_spec 64 k) as [|_]; [lia|].
      assert (Hm : 0 <= v mod 128 < 128) by (apply Z.mod_pos_bound; lia).
      rewrite land_value_mask, land_continue_bit, Zb_B by lia.
      replace ((v mod 128 + 128) mod 128) with (v mod 128).
      2: { rewrite <- (Z.add_mod_idemp_r _ 128) by lia.
           change (128 mod 128) with 0. rewrite Z.add_0_r.
           symmetry. apply Z.mod_mod. lia. }
      destruct (Z.ltb_spec (v mod 128 + 128) 128) as [|_]; [lia|].
      cbn [Z.eqb]. rewrite Z.shiftl_mul_pow2 by lia.
      assert (Hp : 0 < 2 ^ k) by (apply Z.pow_pos_nonneg; lia).
      assert (H64 : 2 ^ 64 = 2 ^ (64 - k - 7) * 128 * 2 ^ k).
      { replace 64 with ((64 - k - 7) + 7 + k) at 1 by lia.
        rewrite !Z.pow_add_r by lia. reflexivity. }
      assert (Hvk : 2 ^ (64 - k) = 2 ^ (64 - k - 7) * 128).
      { replace (64 - k) with ((64 - k - 7) + 7) at 1 by lia.
        rewrite Z.pow_add_r by lia. reflexivity. }
      assert (Hq : 0 < 2 ^ (64 - k - 7)) by (apply Z.pow_pos_nonneg; lia).
      rewrite Z.mod_small by nia.
      rewrite <- Z.shiftl_mul_pow2 by lia.
      rewrite lor_add_shifted by lia. rewrite ?Z.shiftl_mul_pow2 by lia.
      replace (Z.of_nat (S i) * 7) with (k + 7) in IH by lia.
      rewrite IH.
      * f_equal. f_equal; [cbn [List.length]; lia|].
        replace (Z.of_nat (S i) * 7) with (k + 7) by lia.
        rewrite Z.pow_add_r by lia. change (2 ^ 7) with 128.
        pose proof (Z.div_mod v 128). lia.
      * lia.
      * replace (Z.of_nat (S i) * 7) with (k + 7) by lia.
        rewrite Z.pow_add_r by lia. change (2 ^ 7) with 128. nia.
      * replace (64 - Z.of_nat (S i) * 7) with (64 - k - 7) by lia.
        split; [apply Z.div_pos; lia|].
        apply Z.div_lt_upper_bound; lia.
Qed.

Lemma varint_unpack_encode (v : Z) (rest : list byte) :
  0 <= v < 2 ^ 64 ->
  Pb.varint_unpack (Wire.varint v ++ rest)
  = Some (List.length (Wire.varint v), v).
Proof.
  intros Hv. unfold Pb.varint_unpack, Wire.varint.
  rewrite (varint_unpack_from_encode 10 0 0 v rest); [|lia|cbn; lia|exact Hv].
  cbn [Nat.add Z.of_nat Z.mul]. f_equal. f_equal.
  change (2 ^ 0) with 1. lia.
Qed.

Lemma varint_nonempty (v : Z) : Wire.varint v <> [].
Proof.
  unfold Wire.varint. cbn [Wire.varint_bytes].
  destruct (v <? 128); intros E; discriminate E.
Qed.

(** ** Fields *)

Definition tag_of (f : Wire.field) : Pb.tag :=
  {| Pb.fieldnum := Wire.number f;
     Pb.wiretype := Wire.wire_type (Wire.payload f) |}.

Lemma wire_type_range (v : Wire.value) : 0 <= Wire.wire_type v < 8.
Proof. destruct v; cbn; lia. Qed.

Lemma tag_unpack_encode (f : Wire.field) (rest : list byte) :
  Wire.field_ok f ->
  let n := List.length
             (Wire.varint (Wire.number f * 8
                           + Wire.wire_type (Wire.payload f))) in
  Pb.tag_unpack (Wire.encode_field f ++ rest) = Some (n, tag_of f)
  /\ skipn n (Wire.encode_field f ++ rest)
     = Wire.encode_value (Wire.payload f) ++ rest.
Proof.
  intros [Hnum _] n. pose proof (wire_type_range (Wire.payload f)) as Hw.
  set (t := Wire.number f * 8 + Wire.wire_type (Wire.payload f)) in *.
  assert (Ht : 0 <= t < 2 ^ 32).
  { change (2 ^ 32) with (2 ^ 29 * 8). lia. }
  unfold Wire.encode_field. fold t. rewrite <- app_assoc.
  split.
  - unfold Pb.tag_unpack. rewrite varint_unpack_encode.
    2: { change (2 ^ 64) with (2 ^ 32 * 2 ^ 32). nia. }
    fold n. unfold Pb.UINT32_MAX.
    destruct (Z.ltb_spec (2 ^ 32 - 1) t) as [|_]; [lia|].
    unfold tag_of. do 3 f_equal.
    + unfold Pb.TAG_FIELDNUM_SHIFT. rewrite Z.shiftr_div_pow2 by lia.
      change (2 ^ 3) with 8. symmetry.
      apply (Z.div_unique t 8 _ (Wire.wire_type (Wire.payload f))); lia.
    + unfold Pb.TAG_WIRETYPE_MASK. change 7 with (Z.ones 3).
      rewrite Z.land_ones by lia. change (2 ^ 3) with 8. symmetry.
      apply (Z.mod_unique t 8 (Wire.number f)); lia.
  - apply skipn_app_exact. reflexivity.
Qed.

Lemma length_delim_encode (data rest : list byte) :
  len data < 2 ^ 64 ->
  Pb.length_delim (Wire.encode_value (Wire.LengthDelim data) ++ rest)
  = Some (data, rest).
Proof.
  intros Hl. unfold Pb.length_delim, Pb.fieldlen_unpack.
  cbn [Wire.encode_value]. rewrite <- app_assoc.
  rewrite varint_unpack_encode by (unfold len in *; lia).
  assert (Hlen : len (Wire.varint (len data) ++ data ++ rest)
                 - Z.of_nat (List.length (Wire.varint (len data)))
                 = len data + len rest).
  { unfold len. rewrite !length_app. lia. }
  rewrite Hlen.
  destruct (Z.ltb_spec (len data + len rest) (len data)) as [Hlt|_].
  { unfold len in Hlt. lia. }
  rewrite skipn_app_exact by reflexivity.
  unfold len. rewrite Nat2Z.id.
  rewrite firstn_app_exact, skipn_app_exact by reflexivity. reflexivity.
Qed.

Lemma varint_value_encode (v : Z) (rest : list byte) :
  0 <= v < 2 ^ 64 ->
  Pb.varint_unpack (Wire.encode_value (Wire.Varint v) ++ rest)
  = Some (List.length (Wire.varint v), v)
  /\ skipn (List.length (Wire.varint v))
       (Wire.encode_value (Wire.Varint v) ++ rest) = rest.
Proof.
  intros Hv. cbn [Wire.encode_value]. split.
  - apply varint_unpack_encode. exact Hv.
  - apply skipn_app_exact. reflexivity.
Qed.

Lemma double_unpack_encode (v : Z) (rest : list byte) :
  exists x,
    Pb.double_unpack (Wire.encode_value (Wire.Fixed64 v) ++ rest)
    = Some (8%nat, x)
    /\ skipn 8 (Wire.encode_value (Wire.Fixed64 v) ++ rest) = rest.
Proof. eexists. split; reflexivity. Qed.

(** ** The loop over the fields of a message *)

Lemma encode_cons (f : Wire.field) (fs : list Wire.field) :
  Wire.encode (f :: fs) = Wire.encode_field f ++ Wire.encode fs.
Proof. reflexivity. Qed.

Lemma encode_app (l1 l2 : list Wire.field) :
  Wire.encode (l1 ++ l2) = Wire.encode l1 ++ Wire.encode l2.
Proof. unfold Wire.encode. rewrite map_app, concat_app. reflexivity. Qed.

Lemma encode_field_nonempty (f : Wire.field) (rest : list byte) :
  exists b buf, Wire.encode_field f ++ rest = b :: buf.
Proof.
  unfold Wire.encode_field.
  pose proof (varint_nonempty
                (Wire.number f * 8 + Wire.wire_type (Wire.payload f))).
  destruct (Wire.varint _) as [|b buf]; [congruence|].
  exists b. eexists. reflexivity.
Qed.

Section Loop.
Context {M : Type}.
Variable field : M -> Pb.tag -> list byte -> option (M * list byte).

(** One round of the loop on an encoded message. *)
Lemma unpack_loop_cons (fuel : nat) (m : M) (f : Wire.field)
    (fs : list Wire.field) :
  Wire.field_ok f ->
  Pb.unpack_loop field (S fuel) m (Wire.encode (f :: fs))
  = match field m (tag_of f)
            (Wire.encode_value (Wire.payload f) ++ Wire.encode fs) with
    | None => None
    | Some (m', buf') => Pb.unpack_loop field fuel m' buf'
    end.
Proof.
  intros Hok. rewrite encode_cons.
  destruct (tag_unpack_encode f (Wire.encode fs) Hok) as [Ht Hs].
  destruct (encode_field_nonempty f (Wire.encode fs)) as (b & buf & E).
  rewrite E in *. cbn [Pb.unpack_loop]. rewrite Ht, Hs. reflexivity.
Qed.

(** A field the switch always sends to [goto error]. *)
Definition always_rejected (f : Wire.field) : Prop :=
  forall m rest,
    field m (tag_of f) (Wire.encode_value (Wire.payload f) ++ rest) = None.

(** After a field is handled, the buffer stands at the next field. *)
Definition aligned : Prop :=
  forall m f rest m' rest',
    Wire.field_ok f ->
    field m (tag_of f) (Wire.encode_value (Wire.payload f) ++ rest)
    = Some (m', rest') ->
    rest' = rest.

Lemma unpack_loop_rejected (Hal : aligned) (fs : list Wire.field) :
  Forall Wire.field_ok fs ->
  (exists f, In f fs /\ always_rejected f) ->
  forall fuel m, Pb.unpack_loop field fuel m (Wire.encode fs) = None.
Proof.
  induction 1 as [|f0 fs Hok Hfs IH]; intros (f & Hin & Hrej) fuel m;
    [destruct Hin|].
  destruct fuel as [|fuel].
  { rewrite encode_cons.
    destruct (encode_field_nonempty f0 (Wire.encode fs)) as (b & buf & E).
    rewrite E. reflexivity. }
  rewrite unpack_loop_cons by exact Hok.
  destruct (field m (tag_of f0) _) as [[m' buf']|] eqn:E; [|reflexivity].
  pose proof (Hal _ _ _ _ _ Hok E) as ->.
  destruct Hin as [->|Hin].
  - rewrite Hrej in E. discriminate E.
  - apply IH. exists f. split; assumption.
Qed.

(** [seen m n] holds when the message has field [n] set; a field number
    that is [single] is rejected once it is seen. *)
Variable single : Z -> bool.
Variable seen : M -> Z -> bool.

Definition tracks : Prop :=
  (forall m t buf,
     single (Pb.fieldnum t) = true -> seen m (Pb.fieldnum t) = true ->
     field m t buf = None)
  /\ (forall m f rest m' rest',
        Wire.field_ok f ->
        field m (tag_of f) (Wire.encode_value (Wire.payload f) ++ rest)
        = Some (m', rest') ->
        (forall k, seen m k = true -> seen m' k = true)
        /\ (single (Wire.number f) = true ->
            seen m' (Wire.number f) = true)).

Lemma unpack_loop_seen (Hal : aligned) (Htr : tracks)
    (fs : list Wire.field) :
  Forall Wire.field_ok fs ->
  forall g fuel m,
    In g fs -> single (Wire.number g) = true ->
    seen m (Wire.number g) = true ->
    Pb.unpack_loop field fuel m (Wire.encode fs) = None.
Proof.
  destruct Htr as [Hdup Hstep].
  induction 1 as [|f0 fs Hok Hfs IH]; intros g fuel m Hin Hs Hseen;
    [destruct Hin|].
  destruct fuel as [|fuel].
  { rewrite encode_cons.
    destruct (encode_field_nonempty f0 (Wire.encode fs)) as (b & buf & E).
    rewrite E. reflexivity. }
  rewrite unpack_loop_cons by exact Hok.
  destruct (field m (tag_of f0) _) as [[m' buf']|] eqn:E; [|reflexivity].
  pose proof (Hal _ _ _ _ _ Hok E) as ->.
  destruct Hin as [->|Hin].
  - rewrite (Hdup m (tag_of g)) in E by assumption. discriminate E.
  - destruct (Hstep _ _ _ _ _ Hok E) as [Hmono _].
    apply (IH g); auto.
Qed.

Lemma unpack_loop_duplicate (Hal : aligned) (Htr : tracks)
    (l1 l2 l3 : list Wire.field) (f g : Wire.field) :
  Forall Wire.field_ok (l1 ++ f :: l2 ++ g :: l3) ->
  Wire.number f = Wire.number g -> single (Wire.number f) = true ->
  forall fuel m,
    Pb.unpack_loop field fuel m (Wire.encode (l1 ++ f :: l2 ++ g :: l3))
    = None.
Proof.
  intros Hok Hfg Hs.
  induction l1 as [|f0 l1 IH]; intros fuel m.
  - cbn [app] in *. inversion Hok as [|? ? Hf Hrest]; subst.
    destruct fuel as [|fuel].
    { rewrite encode_cons.
      destruct (encode_field_nonempty f (Wire.encode (l2 ++ g :: l3)))
        as (b & buf & E).
      rewrite E. reflexivity. }
    rewrite unpack_loop_cons by exact Hf.
    destruct (field m (tag_of f) _) as [[m' buf']|] eqn:E; [|reflexivity].
    pose proof (Hal _ _ _ _ _ Hf E) as ->.
    destruct Htr as [Hdup Hstep].
    destruct (Hstep _ _ _ _ _ Hf E) as [_ Hset].
    apply (unpack_loop_seen Hal (conj Hdup Hstep) _ Hrest g).
    + apply in_or_app. right. left. reflexivity.
    + congruence.
    + rewrite <- Hfg. apply Hset. exact Hs.
  - cbn [app] in *. inversion Hok as [|? ? Hf Hrest]; subst.
    destruct fuel as [|fuel].
    { rewrite encode_cons.
      destruct (encode_field_nonempty f0
                  (Wire.encode (l1 ++ f :: l2 ++ g :: l3)))
        as (b & buf & E).
      rewrite E. reflexivity. }
    rewrite unpack_loop_cons by exact Hf.
    destruct (field m (tag_of f0) _) as [[m' buf']|] eqn:E; [|reflexivity].
    pose proof (Hal _ _ _ _ _ Hf E) as ->.
    apply IH. exact Hrest.
Qed.

End Loop.

(** ** The message types *)

Inductive message :=
| Header | SqlParameter | SqlStatement | SharedPreference | Attachment
| DatabaseVersion | Avatar | Sticker | BackupFrame.

(** Whether [buf] unpacks as a message of the type. *)
Definition decodes (t : message) (buf : list byte) : bool :=
  match t with
  | Header => non_null (Pb.signal__header__unpack buf)
  | SqlParameter =>
      non_null (Pb.signal__sql_statement__sql_parameter__unpack buf)
  | SqlStatement => non_null (Pb.signal__sql_statement__unpack buf)
  | SharedPreference => non_null (Pb.signal__shared_preference__unpack buf)
  | Attachment => non_null (Pb.signal__attachment__unpack buf)
  | DatabaseVersion => non_null (Pb.signal__database_version__unpack buf)
  | Avatar => non_null (Pb.signal__avatar__unpack buf)
  | Sticker => non_null (Pb.signal__sticker__unpack buf)
  | BackupFrame => non_null (Pb.signal__backup_frame__unpack buf)
  end.

(** The field numbers each switch has a case for. *)
Definition defined_field (t : message) (n : Z) : bool :=
  match t with
  | Header => (1 <=? n) && (n <=? 2)
  | SqlParameter => (1 <=? n) && (n <=? 5)
  | SqlStatement => (1 <=? n) && (n <=? 2)
  | SharedPreference => (1 <=? n) && (n <=? 3)
  | Attachment => (1 <=? n) && (n <=? 3)
  | DatabaseVersion => n =? 1
  | Avatar => (1 <=? n) && (n <=? 3)
  | Sticker => (1 <=? n) && (n <=? 2)
  | BackupFrame => (1 <=? n) && (n <=? 8)
  end.

(** The one repeated field: the parameters of a statement. *)
Definition repeated_field (t : message) (n : Z) : bool :=
  match t with
  | SqlStatement => n =? 2
  | _ => false
  end.

(** The fields that hold a message. *)
Definition submessage (t : message) (n : Z) : option message :=
  match t with
  | SqlStatement => if n =? 2 then Some SqlParameter else None
  | BackupFrame =>
      if n =? 1 then Some Header
      else if n =? 2 then Some SqlStatement
      else if n =? 3 then Some SharedPreference
      else if n =? 4 then Some Attachment
      else if n =? 5 then Some DatabaseVersion
      else if n =? 7 then Some Avatar
      else if n =? 8 then Some Sticker
      else None
  | _ => None
  end.

Definition header_seen (m : Pb.Signal__Header) (n : Z) : bool :=
  if n =? 1 then Pb.has_iv m else if n =? 2 then Pb.has_salt m else false.

Definition sql_parameter_seen (m : Pb.Signal__SqlStatement__SqlParameter)
    (n : Z) : bool :=
  if n =? 1 then non_null (Pb.stringparamter m)
  else if n =? 2 then Pb.has_integerparameter m
  else if n =? 3 then Pb.has_doubleparameter m
  else if n =? 4 then Pb.has_blobparameter m
  else if n =? 5 then Pb.has_nullparameter m
  else false.

Definition sql_statement_seen (m : Pb.Signal__SqlStatement) (n : Z) : bool :=
  if n =? 1 then non_null (Pb.statement m) else false.

Definition shared_preference_seen (m : Pb.Signal__SharedPreference) (n : Z)
  : bool :=
  if n =? 1 then non_null (Pb.prf_file m)
  else if n =? 2 then non_null (Pb.prf_key m)
  else if n =? 3 then non_null (Pb.prf_value m)
  else false.

Definition attachment_seen (m : Pb.Signal__Attachment) (n : Z) : bool :=
  if n =? 1 then Pb.att_has_rowid m
  else if n =? 2 then Pb.att_has_attachmentid m
  else if n =? 3 then Pb.att_has_length m
  else false.

Definition database_version_seen (m : Pb.Signal__DatabaseVersion) (n : Z)
  : bool :=
  if n =? 1 then Pb.ver_has_version m else false.

Definition avatar_seen (m : Pb.Signal__Avatar) (n : Z) : bool :=
  if n =? 1 then non_null (Pb.ava_name m)
  else if n =? 2 then Pb.ava_has_length m
  else if n =? 3 then non_null (Pb.ava_recipientid m)
  else false.

Definition sticker_seen (m : Pb.Signal__Sticker) (n : Z) : bool :=
  if n =? 1 then Pb.sti_has_rowid m
  else if n =? 2 then Pb.sti_has_length m
  else false.

Definition backup_frame_seen (m : Pb.Signal__BackupFrame) (n : Z) : bool :=
  if n =? 1 then non_null (Pb.frm_header m)
  else if n =? 2 then non_null (Pb.frm_statement m)
  else if n =? 3 then non_null (Pb.frm_preference m)
  else if n =? 4 then non_null (Pb.frm_attachment m)
  else if n =? 5 then non_null (Pb.frm_version m)
  else if n =? 6 then Pb.frm_has_end m
  else if n =? 7 then non_null (Pb.frm_avatar m)
  else if n =? 8 then non_null (Pb.frm_sticker m)
  else false.

Definition single (t : message) (n : Z) : bool :=
  defined_field t n && negb (repeated_field t n).

Ltac unfold_fieldnums :=
  cbv [Pb.FIELDNUM_HEADER_IV Pb.FIELDNUM_HEADER_SALT Pb.FIELDNUM_SQLSTATEMENT_STATEMENT Pb.FIELDNUM_SQLSTATEMENT_PARAMETERS Pb.FIELDNUM_SQLPARAMETER_STRINGPARAMTER Pb.FIELDNUM_SQLPARAMETER_INTEGERPARAMETER Pb.FIELDNUM_SQLPARAMETER_DOUBLEPARAMETER Pb.FIELDNUM_SQLPARAMETER_BLOBPARAMETER Pb.FIELDNUM_SQLPARAMETER_NULLPARAMETER Pb.FIELDNUM_SHAREDPREFERENCE_FILE Pb.FIELDNUM_SHAREDPREFERENCE_KEY Pb.FIELDNUM_SHAREDPREFERENCE_VALUE Pb.FIELDNUM_ATTACHMENT_ROWID Pb.FIELDNUM_ATTACHMENT_ATTACHMENTID Pb.FIELDNUM_ATTACHMENT_LENGTH Pb.FIELDNUM_DATABASEVERSION_VERSION Pb.FIELDNUM_AVATAR_NAME Pb.FIELDNUM_AVATAR_LENGTH Pb.FIELDNUM_AVATAR_RECIPIENTID Pb.FIELDNUM_STICKER_ROWID Pb.FIELDNUM_STICKER_LENGTH Pb.FIELDNUM_BACKUPFRAME_HEADER Pb.FIELDNUM_BACKUPFRAME_STATEMENT Pb.FIELDNUM_BACKUPFRAME_PREFERENCE Pb.FIELDNUM_BACKUPFRAME_ATTACHMENT Pb.FIELDNUM_BACKUPFRAME_VERSION Pb.FIELDNUM_BACKUPFRAME_END Pb.FIELDNUM_BACKUPFRAME_AVATAR Pb.FIELDNUM_BACKUPFRAME_STICKER] in *.

(** Unfolding a handler applied to an encoded field, up to its tests. *)
Ltac open_field H :=
  unfold tag_of in H;
  cbn [Pb.fieldnum Pb.wiretype Wire.number Wire.payload Wire.wire_type] in H;
  unfold Pb.WIRETYPE_VARINT, Pb.WIRETYPE_64BIT, Pb.WIRETYPE_LENGTH_DELIM,
    Pb.WIRETYPE_32BIT in H;
  unfold Pb.uint64_unpack, Pb.uint32_unpack, Pb.bool_unpack,
    Pb.string_unpack, Pb.binarydata_unpack in H;
  unfold_fieldnums;
  cbn [Z.eqb Pos.eqb negb] in H.

Ltac run_field H :=
  repeat
    (cbv beta iota zeta in H; cbn [Z.eqb Pos.eqb negb] in H;
     first
       [ discriminate H
       | rewrite length_delim_encode in H by assumption
       | rewrite (fun v rest Hv => proj1 (varint_value_encode v rest Hv)) in H
           by assumption
       | rewrite (fun v rest Hv => proj2 (varint_value_encode v rest Hv)) in H
           by assumption
       | match type of H with
         | context [Pb.double_unpack (Wire.encode_value (Wire.Fixed64 ?v)
                                      ++ ?rest)] =>
             let x := fresh "x" in
             let E1 := fresh "E" in
             let E2 := fresh "E" in
             destruct (double_unpack_encode v rest) as (x & E1 & E2);
             rewrite E1, E2 in H; clear E1 E2
         | context [if ?a =? ?b then _ else _] =>
             destruct (Z.eqb_spec a b) as [->|?]
         | context [if ?c then _ else _] => destruct c eqn:?
         | context [match ?x with Some _ => _ | None => _ end] =>
             destruct x eqn:?
         end ]).

Ltac field_values f Hok :=
  let num := fresh "num" in
  let pl := fresh "pl" in
  destruct f as [num pl];
  destruct Hok as [_ Hok]; cbn [Wire.payload Wire.value_ok] in Hok;
  destruct pl.

Ltac handler_aligned h :=
  intros m f rest m' rest' Hok Hh;
  field_values f Hok;
  unfold h in Hh; open_field Hh;
  run_field Hh;
  injection Hh as <- <-; reflexivity.

Ltac split_number n :=
  repeat match goal with
         | |- context [n =? ?k] => destruct (Z.eqb_spec n k) as [->|?]
         end.

Ltac handler_tracks h seen :=
  split;
  [ intros m [n w] buf; unfold h, single, defined_field, repeated_field, seen;
    cbn [Pb.fieldnum Pb.wiretype]; unfold_fieldnums; split_number n;
    cbn [Z.eqb Z.leb Z.compare Pos.compare Pos.compare_cont Pos.eqb
         andb negb];
    intros Hs Hseen;
    first [reflexivity | rewrite Hseen; reflexivity | discriminate Hs]
  | intros m f rest m' rest' Hok Hh;
    field_values f Hok;
    unfold h in Hh; open_field Hh;
    run_field Hh;
    injection Hh as <- <-;
    (split;
     [ let k := fresh "k" in
       intros k; unfold seen; cbn;
       repeat match goal with
              | |- context [if k =? ?c then _ else _] => destruct (k =? c)
              end;
       auto
     | intros Hs; first [reflexivity | discriminate Hs] ]) ].

Ltac handler_unknown t h :=
  intros [n pl] Hu m rest; unfold h, tag_of;
  cbn [Pb.fieldnum Pb.wiretype Wire.number Wire.payload] in *;
  unfold defined_field in Hu;
  unfold_fieldnums; split_number n;
  first [reflexivity | discriminate Hu].

(** A field that holds a message which does not unpack. *)
Ltac handler_nested h :=
  intros [n pl] data sub Hok Hpl Hsub Hdec m rest;
  cbn [Wire.payload Wire.number] in *; subst pl;
  destruct Hok as [_ Hok]; cbn [Wire.payload Wire.value_ok] in Hok;
  unfold h, tag_of;
  cbn [Pb.fieldnum Pb.wiretype Wire.number Wire.payload Wire.wire_type];
  unfold submessage in Hsub;
  unfold Pb.WIRETYPE_VARINT, Pb.WIRETYPE_64BIT, Pb.WIRETYPE_LENGTH_DELIM,
    Pb.WIRETYPE_32BIT;
  unfold_fieldnums; split_number n;
  cbn [Z.eqb Pos.eqb negb] in *;
  try discriminate Hsub;
  try reflexivity;
  injection Hsub as <-;
  repeat match goal with
         | |- context [if ?c then _ else _] =>
             destruct c; [reflexivity|]
         end;
  rewrite length_delim_encode by assumption;
  cbn [decodes] in Hdec;
  match goal with
  | |- context [match ?x with Some _ => _ | None => _ end] =>
      destruct x; [discriminate Hdec | reflexivity]
  end.

Lemma header_aligned : aligned Pb.header_field.
Proof. handler_aligned Pb.header_field. Qed.

Lemma header_tracks : tracks Pb.header_field (single Header) header_seen.
Proof. handler_tracks Pb.header_field header_seen. Qed.

Lemma header_unknown (f : Wire.field) :
  defined_field Header (Wire.number f) = false ->
  always_rejected Pb.header_field f.
Proof. revert f. handler_unknown Header Pb.header_field. Qed.

Lemma sql_parameter_aligned : aligned Pb.sql_parameter_field.
Proof. handler_aligned Pb.sql_parameter_field. Qed.

Lemma sql_parameter_tracks : tracks Pb.sql_parameter_field (single SqlParameter) sql_parameter_seen.
Proof. handler_tracks Pb.sql_parameter_field sql_parameter_seen. Qed.

Lemma sql_parameter_unknown (f : Wire.field) :
  defined_field SqlParameter (Wire.number f) = false ->
  always_rejected Pb.sql_parameter_field f.
Proof. revert f. handler_unknown SqlParameter Pb.sql_parameter_field. Qed.

Lemma sql_statement_aligned : aligned Pb.sql_statement_field.
Proof. handler_aligned Pb.sql_statement_field. Qed.

Lemma sql_statement_tracks : tracks Pb.sql_statement_field (single SqlStatement) sql_statement_seen.
Proof. handler_tracks Pb.sql_statement_field sql_statement_seen. Qed.

Lemma sql_statement_unknown (f : Wire.field) :
  defined_field SqlStatement (Wire.number f) = false ->
  always_rejected Pb.sql_statement_field f.
Proof. revert f. handler_unknown SqlStatement Pb.sql_statement_field. Qed.

Lemma shared_preference_aligned : aligned Pb.shared_preference_field.
Proof. handler_aligned Pb.shared_preference_field. Qed.

Lemma shared_preference_tracks : tracks Pb.shared_preference_field (single SharedPreference) shared_preference_seen.
Proof. handler_tracks Pb.shared_preference_field shared_preference_seen. Qed.

Lemma shared_preference_unknown (f : Wire.field) :
  defined_field SharedPreference (Wire.number f) = false ->
  always_rejected Pb.shared_preference_field f.
Proof. revert f. handler_unknown SharedPreference Pb.shared_preference_field. Qed.

Lemma attachment_aligned : aligned Pb.attachment_field.
Proof. handler_aligned Pb.attachment_field. Qed.

Lemma attachment_tracks : tracks Pb.attachment_field (single Attachment) attachment_seen.
Proof. handler_tracks Pb.attachment_field attachment_seen. Qed.

Lemma attachment_unknown (f : Wire.field) :
  defined_field Attachment (Wire.number f) = false ->
  always_rejected Pb.attachment_field f.
Proof. revert f. handler_unknown Attachment Pb.attachment_field. Qed.

Lemma database_version_aligned : aligned Pb.database_version_field.
Proof. handler_aligned Pb.database_version_field. Qed.

Lemma database_version_tracks : tracks Pb.database_version_field (single DatabaseVersion) database_version_seen.
Proof. handler_tracks Pb.database_version_field database_version_seen. Qed.

Lemma database_version_unknown (f : Wire.field) :
  defined_field DatabaseVersion (Wire.number f) = false ->
  always_rejected Pb.database_version_field f.
Proof. revert f. handler_unknown DatabaseVersion Pb.database_version_field. Qed.

Lemma avatar_aligned : aligned Pb.avatar_field.
Proof. handler_aligned Pb.avatar_field. Qed.

Lemma avatar_tracks : tracks Pb.avatar_field (single Avatar) avatar_seen.
Proof. handler_tracks Pb.avatar_field avatar_seen. Qed.

Lemma avatar_unknown (f : Wire.field) :
  defined_field Avatar (Wire.number f) = false ->
  always_rejected Pb.avatar_field f.
Proof. revert f. handler_unknown Avatar Pb.avatar_field. Qed.

Lemma sticker_aligned : aligned Pb.sticker_field.
Proof. handler_aligned Pb.sticker_field. Qed.

Lemma sticker_tracks : tracks Pb.sticker_field (single Sticker) sticker_seen.
Proof. handler_tracks Pb.sticker_field sticker_seen. Qed.

Lemma sticker_unknown (f : Wire.field) :
  defined_field Sticker (Wire.number f) = false ->
  always_rejected Pb.sticker_field f.
Proof. revert f. handler_unknown Sticker Pb.sticker_field. Qed.

Lemma backup_frame_aligned : aligned Pb.backup_frame_field.
Proof. handler_aligned Pb.backup_frame_field. Qed.

Lemma backup_frame_tracks : tracks Pb.backup_frame_field (single BackupFrame) backup_frame_seen.
Proof. handler_tracks Pb.backup_frame_field backup_frame_seen. Qed.

Lemma backup_frame_unknown (f : Wire.field) :
  defined_field BackupFrame (Wire.number f) = false ->
  always_rejected Pb.backup_frame_field f.
Proof. revert f. handler_unknown BackupFrame Pb.backup_frame_field. Qed.

Lemma sql_statement_nested (f : Wire.field) (data : list byte) (sub : message) :
  Wire.field_ok f -> Wire.payload f = Wire.LengthDelim data ->
  submessage SqlStatement (Wire.number f) = Some sub -> decodes sub data = false ->
  always_rejected Pb.sql_statement_field f.
Proof. revert f data sub. handler_nested Pb.sql_statement_field. Qed.

Lemma backup_frame_nested (f : Wire.field) (data : list byte) (sub : message) :
  Wire.field_ok f -> Wire.payload f = Wire.LengthDelim data ->
  submessage BackupFrame (Wire.number f) = Some sub -> decodes sub data = false ->
  always_rejected Pb.backup_frame_field f.
Proof. revert f data sub. handler_nested Pb.backup_frame_field. Qed.

(** What makes a message's encoding unacceptable: a field number the
    switch has no case for, a second field with the number of a field that
    is not repeated, or a field that holds a message which does not
    unpack. *)
Definition defective (t : message) (fs : list Wire.field) : Prop :=
  (exists f, In f fs /\ defined_field t (Wire.number f) = false)
  \/ (exists l1 f l2 g l3,
        fs = l1 ++ f :: l2 ++ g :: l3
        /\ Wire.number f = Wire.number g
        /\ repeated_field t (Wire.number f) = false)
  \/ (exists f data sub,
        In f fs /\ Wire.payload f = Wire.LengthDelim data
        /\ submessage t (Wire.number f) = Some sub
        /\ decodes sub data = false).

Section Rejects.
Context {M : Type}.
Variable t : message.
Variable field : M -> Pb.tag -> list byte -> option (M * list byte).
Variable seen : M -> Z -> bool.
Hypothesis Hal : aligned field.
Hypothesis Htr : tracks field (single t) seen.
Hypothesis Hun : forall f,
  defined_field t (Wire.number f) = false -> always_rejected field f.
Hypothesis Hne : forall f data sub,
  Wire.field_ok f -> Wire.payload f = Wire.LengthDelim data ->
  submessage t (Wire.number f) = Some sub -> decodes sub data = false ->
  always_rejected field f.

Lemma defective_rejected (fs : list Wire.field) (init : M) :
  Forall Wire.field_ok fs -> defective t fs ->
  Pb.unpack field init (Wire.encode fs) = None.
Proof.
  intros Hok [(f & Hin & Hu)|[(l1 & f & l2 & g & l3 & -> & Hfg & Hr)
                             |(f & data & sub & Hin & Hpl & Hs & Hd)]];
    unfold Pb.unpack.
  - apply (unpack_loop_rejected field Hal fs Hok).
    exists f. split; [exact Hin | apply Hun; exact Hu].
  - destruct (defined_field t (Wire.number f)) eqn:Hdef.
    + apply (unpack_loop_duplicate field (single t) seen Hal Htr);
        [exact Hok | exact Hfg |].
      unfold single. rewrite Hdef, Hr. reflexivity.
    + apply (unpack_loop_rejected field Hal _ Hok).
      exists f. split; [|apply Hun; exact Hdef].
      apply in_or_app. right. left. reflexivity.
  - apply (unpack_loop_rejected field Hal fs Hok).
    exists f. split; [exact Hin|].
    apply (Hne f data sub); try assumption.
    exact (proj1 (List.Forall_forall _ _) Hok f Hin).
Qed.

End Rejects.

(** C8: every unpack function of the decoder fails on the encoding of a
    message in which a field number occurs that its switch has no case
    for, in which a field that is not repeated (every field but the
    parameters of a statement) occurs twice, or in which a field holds a
    message that itself fails to unpack: so a defect in a submessage
    makes signal__backup_frame__unpack fail for the whole frame. *)
Theorem unpack_rejects_defective (t : message) (fs : list Wire.field) :
  Forall Wire.field_ok fs -> defective t fs ->
  decodes t (Wire.encode fs) = false.
Proof.
  intros Hok Hdef.
  destruct t; cbn [decodes].
  - unfold Pb.signal__header__unpack.
    rewrite (defective_rejected Header _ header_seen header_aligned
               header_tracks header_unknown); auto;
      intros f data sub ? ? Hs ?; discriminate Hs.
  - unfold Pb.signal__sql_statement__sql_parameter__unpack.
    rewrite (defective_rejected SqlParameter _ sql_parameter_seen
               sql_parameter_aligned sql_parameter_tracks
               sql_parameter_unknown); auto;
      intros f data sub ? ? Hs ?; discriminate Hs.
  - unfold Pb.signal__sql_statement__unpack.
    rewrite (defective_rejected SqlStatement _ sql_statement_seen
               sql_statement_aligned sql_statement_tracks
               sql_statement_unknown sql_statement_nested); auto;
      intros f data sub ? ? Hs ?; discriminate Hs.
  - unfold Pb.signal__shared_preference__unpack.
    rewrite (defective_rejected SharedPreference _ shared_preference_seen
               shared_preference_aligned shared_preference_tracks
               shared_preference_unknown); auto;
      intros f data sub ? ? Hs ?; discriminate Hs.
  - unfold Pb.signal__attachment__unpack.
    rewrite (defective_rejected Attachment _ attachment_seen
               attachment_aligned attachment_tracks attachment_unknown);
      auto; intros f data sub ? ? Hs ?; discriminate Hs.
  - unfold Pb.signal__database_version__unpack.
    rewrite (defective_rejected DatabaseVersion _ database_version_seen
               database_version_aligned database_version_tracks
               database_version_unknown); auto;
      intros f data sub ? ? Hs ?; discriminate Hs.
  - unfold Pb.signal__avatar__unpack.
    rewrite (defective_rejected Avatar _ avatar_seen avatar_aligned
               avatar_tracks avatar_unknown); auto;
      intros f data sub ? ? Hs ?; discriminate Hs.
  - unfold Pb.signal__sticker__unpack.
    rewrite (defective_rejected Sticker _ sticker_seen sticker_aligned
               sticker_tracks sticker_unknown); auto;
      intros f data sub ? ? Hs ?; discriminate Hs.
  - unfold Pb.signal__backup_frame__unpack.
    rewrite (defective_rejected BackupFrame _ backup_frame_seen
               backup_frame_aligned backup_frame_tracks
               backup_frame_unknown backup_frame_nested); auto.
Qed.

(** * The decoder reads within its buffer *)

Lemma lor_below (a b n : Z) :
  0 <= n -> 0 <= a < 2 ^ n -> 0 <= b < 2 ^ n -> 0 <= Z.lor a b < 2 ^ n.
Proof.
  intros Hn Ha Hb.
  rewrite <- (Z.mod_small a (2 ^ n)), <- (Z.mod_small b (2 ^ n))
    by assumption.
  rewrite <- !Z.land_ones, <- Z.land_lor_distr_l, Z.land_ones by assumption.
  apply Z.mod_pos_bound. apply Z.pow_pos_nonneg; lia.
Qed.

Lemma varint_unpack_from_bounds (buf : list byte) :
  forall (i : nat) (acc : Z) (n : nat) (v : Z),
    0 <= acc < 2 ^ 64 ->
    Pb.varint_unpack_from i acc buf = Some (n, v) ->
    (i < n <= i + List.length buf)%nat /\ (n <= 10)%nat
    /\ 0 <= v < 2 ^ 64
    /\ Zb (nth (n - 1 - i) buf x00) < 128
    /\ (forall j, (j < n - 1 - i)%nat -> 128 <= Zb (nth j buf x00)).
Proof.
  induction buf as [|b buf IH]; intros i acc n v Hacc E;
    cbn [Pb.varint_unpack_from] in E; [discriminate E|].
  destruct (Z.leb_spec 64 (Z.of_nat i * 7)) as [|Hi]; [discriminate E|].
  set (acc' := Z.lor acc _) in E.
  assert (Hacc' : 0 <= acc' < 2 ^ 64).
  { apply lor_below; [lia | exact Hacc |].
    apply Z.mod_pos_bound; reflexivity. }
  rewrite land_continue_bit in E.
  destruct (Z.ltb_spec (Zb b) 128) as [Hb|Hb]; cbn [Z.eqb] in E.
  - injection E as <- <-. cbn [List.length].
    replace (S i - 1 - i)%nat with 0%nat by lia. cbn [nth].
    repeat split; try lia; intros; lia.
  - destruct (IH _ _ _ _ Hacc' E) as (Hn & H10 & Hv & Hlast & Hcont).
    cbn [List.length].
    replace (n - 1 - i)%nat with (S (n - 1 - S i)) by lia. cbn [nth].
    repeat split; try lia; try assumption.
    intros [|j] Hj; cbn [nth]; [exact Hb|]. apply Hcont. lia.
Qed.

Lemma tag_unpack_bounds (buf : list byte) (n : nat) (t : Pb.tag) :
  Pb.tag_unpack buf = Some (n, t) -> (1 <= n <= List.length buf)%nat.
Proof.
  unfold Pb.tag_unpack, Pb.varint_unpack.
  destruct (Pb.varint_unpack_from 0 0 buf) as [[k v]|] eqn:E;
    [|intros E'; discriminate E'].
  destruct (Pb.UINT32_MAX <? v); intros E'; [discriminate E'|].
  injection E' as <- _.
  destruct (varint_unpack_from_bounds buf 0 0 k v ltac:(lia) E)
    as (Hn & _). lia.
Qed.

Lemma length_delim_shorter (buf data rest : list byte) :
  Pb.length_delim buf = Some (data, rest) ->
  (List.length rest <= List.length buf)%nat.
Proof.
  unfold Pb.length_delim.
  destruct (Pb.fieldlen_unpack buf) as [[n l]|];
    intros E; [|discriminate E].
  injection E as _ <-. rewrite !length_skipn. lia.
Qed.

(** A switch never hands back more bytes than it was given. *)
Definition consuming {M : Type}
    (field : M -> Pb.tag -> list byte -> option (M * list byte)) : Prop :=
  forall m t buf m' rest,
    field m t buf = Some (m', rest) ->
    (List.length rest <= List.length buf)%nat.

Ltac run_consuming H :=
  repeat
    (cbv beta iota zeta in H;
     first
       [ discriminate H
       | match type of H with
         | context [match Pb.length_delim ?b with _ => _ end] =>
             let E := fresh "E" in
             destruct (Pb.length_delim b) as [[? ?]|] eqn:E;
             [apply length_delim_shorter in E|]
         | context [if ?c then _ else _] => destruct c
         | context [match ?x with Some _ => _ | None => _ end] =>
             destruct x as [[? ?]|]
         | context [match ?x with Some _ => _ | None => _ end] =>
             destruct x
         end ]).

Ltac handler_consuming h :=
  intros m t buf m' rest Hh; unfold h in Hh;
  unfold Pb.uint64_unpack, Pb.uint32_unpack, Pb.bool_unpack,
    Pb.double_unpack, Pb.string_unpack, Pb.binarydata_unpack in Hh;
  run_consuming Hh;
  injection Hh as <- <-; rewrite ?length_skipn; lia.

Lemma header_consuming : consuming Pb.header_field.
Proof. handler_consuming Pb.header_field. Qed.

Lemma sql_parameter_consuming : consuming Pb.sql_parameter_field.
Proof. handler_consuming Pb.sql_parameter_field. Qed.

Lemma sql_statement_consuming : consuming Pb.sql_statement_field.
Proof. handler_consuming Pb.sql_statement_field. Qed.

Lemma shared_preference_consuming : consuming Pb.shared_preference_field.
Proof. handler_consuming Pb.shared_preference_field. Qed.

Lemma attachment_consuming : consuming Pb.attachment_field.
Proof. handler_consuming Pb.attachment_field. Qed.

Lemma database_version_consuming : consuming Pb.database_version_field.
Proof. handler_consuming Pb.database_version_field. Qed.

Lemma avatar_consuming : consuming Pb.avatar_field.
Proof. handler_consuming Pb.avatar_field. Qed.

Lemma sticker_consuming : consuming Pb.sticker_field.
Proof. handler_consuming Pb.sticker_field. Qed.

Lemma backup_frame_consuming : consuming Pb.backup_frame_field.
Proof. handler_consuming Pb.backup_frame_field. Qed.

(** Every round takes at least the tag's byte off the buffer, so any
    bound on the rounds that is at least the buffer's length gives the
    same result. *)
Lemma unpack_loop_fuel {M : Type}
    (field : M -> Pb.tag -> list byte -> option (M * list byte)) :
  consuming field ->
  forall fuel1 fuel2 m buf,
    (List.length buf <= fuel1)%nat -> (List.length buf <= fuel2)%nat ->
    Pb.unpack_loop field fuel1 m buf = Pb.unpack_loop field fuel2 m buf.
Proof.
  intros Hc. induction fuel1 as [|fuel1 IH]; intros fuel2 m buf H1 H2.
  - destruct buf; [|cbn in H1; lia]. destruct fuel2; reflexivity.
  - destruct buf as [|b buf]; [destruct fuel2; reflexivity|].
    destruct fuel2 as [|fuel2]; [cbn in H2; lia|].
    cbn [Pb.unpack_loop].
    destruct (Pb.tag_unpack (b :: buf)) as [[n t]|] eqn:Et; [|reflexivity].
    apply tag_unpack_bounds in Et.
    destruct (field m t (skipn n (b :: buf))) as [[m' rest]|] eqn:Ef;
      [|reflexivity].
    apply Hc in Ef. rewrite length_skipn in Ef.
    apply IH; lia.
Qed.

Lemma varint_bytes_length (n : nat) :
  forall v, (List.length (Wire.varint_bytes n v) <= n)%nat.
Proof.
  induction n as [|k IH]; intros v; cbn [Wire.varint_bytes List.length];
    [lia|].
  destruct (v <? 128); cbn [List.length]; [lia|].
  specialize (IH (v / 128)). lia.
Qed.

Lemma varint_length (v : Z) : (1 <= List.length (Wire.varint v) <= 10)%nat.
Proof.
  split; [|apply varint_bytes_length].
  pose proof (varint_nonempty v) as Hne.
  destruct (Wire.varint v); [congruence | cbn; lia].
Qed.

(** X1: the integers of the wire format.  What the wire format writes for
    a 64-bit value, varint_unpack reads back, with the number of bytes it
    takes (1 to 10), whatever follows in the buffer; uint64_unpack gives
    the same, uint32_unpack gives it for values up to UINT32_MAX and fails
    above, and bool_unpack gives whether the value is not 0. *)
Theorem varint_round_trip (v : Z) (rest : list byte) :
  0 <= v < 2 ^ 64 ->
  let n := List.length (Wire.varint v) in
  Pb.varint_unpack (Wire.varint v ++ rest) = Some (n, v)
  /\ (1 <= n <= 10)%nat
  /\ Pb.uint64_unpack (Wire.varint v ++ rest) = Some (n, v)
  /\ Pb.uint32_unpack (Wire.varint v ++ rest)
     = (if v <=? 2 ^ 32 - 1 then Some (n, v) else None)
  /\ Pb.bool_unpack (Wire.varint v ++ rest) = Some (n, negb (v =? 0)).
Proof.
  intros Hv n. pose proof (varint_unpack_encode v rest Hv) as E.
  fold n in E. unfold Pb.uint64_unpack, Pb.uint32_unpack, Pb.bool_unpack.
  rewrite E. repeat split; try apply varint_length.
  unfold Pb.UINT32_MAX.
  destruct (Z.ltb_spec (2 ^ 32 - 1) v), (Z.leb_spec v (2 ^ 32 - 1));
    try lia; reflexivity.
Qed.

(** X2: varint_unpack stays within its buffer.  When it returns a value it
    has read between 1 and 10 bytes, no more than the buffer holds; the
    value fits 64 bits; the last byte read is the first one without the
    continuation bit.  It returns 0 (no value) on an empty buffer, and
    when none of the first 10 bytes (or of all the bytes, if fewer) ends
    the varint. *)
Theorem varint_unpack_within_buffer (buf : list byte) :
  (forall n v,
     Pb.varint_unpack buf = Some (n, v) ->
     (1 <= n <= 10)%nat /\ (n <= List.length buf)%nat /\ 0 <= v < 2 ^ 64
     /\ Zb (nth (n - 1) buf x00) < 128
     /\ (forall j, (j < n - 1)%nat -> 128 <= Zb (nth j buf x00)))
  /\ (buf = [] -> Pb.varint_unpack buf = None)
  /\ ((forall j, (j < Nat.min 10 (List.length buf))%nat ->
         128 <= Zb (nth j buf x00)) ->
      Pb.varint_unpack buf = None).
Proof.
  assert (Hb : forall n v,
     Pb.varint_unpack buf = Some (n, v) ->
     (1 <= n <= 10)%nat /\ (n <= List.length buf)%nat /\ 0 <= v < 2 ^ 64
     /\ Zb (nth (n - 1) buf x00) < 128
     /\ (forall j, (j < n - 1)%nat -> 128 <= Zb (nth j buf x00))).
  { intros n v E. unfold Pb.varint_unpack in E.
    destruct (varint_unpack_from_bounds buf 0 0 n v ltac:(lia) E)
      as (Hn & H10 & Hv & Hlast & Hcont).
    rewrite Nat.sub_0_r in Hlast.
    repeat split; try lia; try assumption.
    intros j Hj. apply Hcont. lia. }
  split; [exact Hb|]. split.
  - intros ->. reflexivity.
  - intros Hall. destruct (Pb.varint_unpack buf) as [[n v]|] eqn:E;
      [|reflexivity].
    destruct (Hb n v eq_refl) as (Hn & Hlen & _ & Hlast & _).
    specialize (Hall (n - 1)%nat ltac:(lia)). lia.
Qed.

(** X3: tags.  For a field number below 2^29, tag_unpack reads the field
    number and the wire type back from the key the wire format writes,
    and leaves the buffer at the field's value; a key above UINT32_MAX is
    refused. *)
Theorem tag_round_trip (f : Wire.field) (rest : list byte) :
  Wire.field_ok f ->
  (exists n,
     Pb.tag_unpack (Wire.encode_field f ++ rest)
     = Some (n, {| Pb.fieldnum := Wire.number f;
                   Pb.wiretype := Wire.wire_type (Wire.payload f) |})
     /\ skipn n (Wire.encode_field f ++ rest)
        = Wire.encode_value (Wire.payload f) ++ rest)
  /\ (forall v, 2 ^ 32 <= v < 2 ^ 64 ->
        Pb.tag_unpack (Wire.varint v ++ rest) = None).
Proof.
  intros Hok. split.
  - destruct (tag_unpack_encode f rest Hok) as [Ht Hs].
    eexists. split; [exact Ht | exact Hs].
  - intros v Hv. unfold Pb.tag_unpack.
    rewrite varint_unpack_encode by lia. unfold Pb.UINT32_MAX.
    destruct (Z.ltb_spec (2 ^ 32 - 1) v); [reflexivity | lia].
Qed.

(** X4: a length-delimited field lies within the buffer.  When
    length_delim succeeds, the field's bytes are exactly as many as the
    length prefix says, and they and the rest are what follows the prefix
    in the buffer; a prefix that announces more bytes than the buffer
    still holds is refused. *)
Theorem length_delim_within_buffer (buf : list byte) :
  (forall data rest,
     Pb.length_delim buf = Some (data, rest) ->
     exists n,
       Pb.varint_unpack buf = Some (n, len data)
       /\ (1 <= n)%nat /\ skipn n buf = data ++ rest)
  /\ (forall n l,
        Pb.varint_unpack buf = Some (n, l) ->
        len buf - Z.of_nat n < l -> Pb.length_delim buf = None).
Proof.
  split.
  - intros data rest E. unfold Pb.length_delim, Pb.fieldlen_unpack in E.
    destruct (Pb.varint_unpack buf) as [[n l]|] eqn:Ev; [|discriminate E].
    destruct (Z.ltb_spec (len buf - Z.of_nat n) l) as [|Hl];
      [discriminate E|].
    injection E as <- <-.
    destruct (varint_unpack_from_bounds buf 0 0 n l ltac:(lia) Ev)
      as (Hn & _ & Hv & _).
    exists n. split; [|split; [lia | symmetry; apply firstn_skipn]].
    f_equal. f_equal. unfold len. rewrite length_firstn, length_skipn.
    unfold len in Hl. lia.
  - intros n l Ev Hl. unfold Pb.length_delim, Pb.fieldlen_unpack.
    rewrite Ev. destruct (Z.ltb_spec (len buf - Z.of_nat n) l);
      [reflexivity | lia].
Qed.

(** X5: the loops of the unpack functions end.  Every round takes at
    least one byte off the buffer, so the number of rounds is at most the
    buffer's length: with any larger bound the result is that of the
    unpack function. *)
Theorem unpack_loops_end (fuel : nat) (buf : list byte) :
  (List.length buf <= fuel)%nat ->
  Pb.unpack_loop Pb.header_field fuel Pb.header_init buf
  = Pb.signal__header__unpack buf
  /\ Pb.unpack_loop Pb.sql_parameter_field fuel Pb.sql_parameter_init buf
     = Pb.signal__sql_statement__sql_parameter__unpack buf
  /\ Pb.unpack_loop Pb.sql_statement_field fuel Pb.sql_statement_init buf
     = Pb.signal__sql_statement__unpack buf
  /\ Pb.unpack_loop Pb.shared_preference_field fuel
       Pb.shared_preference_init buf
     = Pb.signal__shared_preference__unpack buf
  /\ Pb.unpack_loop Pb.attachment_field fuel Pb.attachment_init buf
     = Pb.signal__attachment__unpack buf
  /\ Pb.unpack_loop Pb.database_version_field fuel Pb.database_version_init
       buf
     = Pb.signal__database_version__unpack buf
  /\ Pb.unpack_loop Pb.avatar_field fuel Pb.avatar_init buf
     = Pb.signal__avatar__unpack buf
  /\ Pb.unpack_loop Pb.sticker_field fuel Pb.sticker_init buf
     = Pb.signal__sticker__unpack buf
  /\ Pb.unpack_loop Pb.backup_frame_field fuel Pb.backup_frame_init buf
     = Pb.signal__backup_frame__unpack buf.
Proof.
  intros Hf.
  repeat split;
    [ apply (unpack_loop_fuel _ header_consuming)
    | apply (unpack_loop_fuel _ sql_parameter_consuming)
    | apply (unpack_loop_fuel _ sql_statement_consuming)
    | apply (unpack_loop_fuel _ shared_preference_consuming)
    | apply (unpack_loop_fuel _ attachment_consuming)
    | apply (unpack_loop_fuel _ database_version_consuming)
    | apply (unpack_loop_fuel _ avatar_consuming)
    | apply (unpack_loop_fuel _ sticker_consuming)
    | apply (unpack_loop_fuel _ backup_frame_consuming) ];
    (exact Hf || apply Nat.le_refl).
Qed.

(** ** Wire types and empty byte strings *)

(** The wire type each case of a switch asks for. *)
Definition expected_wire_type (t : message) (n : Z) : Z :=
  match t with
  | Header => Pb.WIRETYPE_LENGTH_DELIM
  | SqlParameter =>
      if n =? 2 then Pb.WIRETYPE_VARINT
      else if n =? 3 then Pb.WIRETYPE_64BIT
      else if n =? 5 then Pb.WIRETYPE_VARINT
      else Pb.WIRETYPE_LENGTH_DELIM
  | SqlStatement | SharedPreference => Pb.WIRETYPE_LENGTH_DELIM
  | Attachment | DatabaseVersion => Pb.WIRETYPE_VARINT
  | Avatar =>
      if n =? 2 then Pb.WIRETYPE_VARINT else Pb.WIRETYPE_LENGTH_DELIM
  | Sticker => Pb.WIRETYPE_VARINT
  | BackupFrame =>
      if n =? 6 then Pb.WIRETYPE_VARINT else Pb.WIRETYPE_LENGTH_DELIM
  end.

(** The fields read with binarydata_unpack. *)
Definition bytes_field (t : message) (n : Z) : bool :=
  match t with
  | Header => (n =? 1) || (n =? 2)
  | SqlParameter => n =? 4
  | _ => false
  end.

Ltac handler_wire_type h :=
  intros [n pl] Hd Hw m rest; unfold h, tag_of;
  cbn [Pb.fieldnum Pb.wiretype Wire.number Wire.payload] in *;
  unfold defined_field, expected_wire_type in *;
  cbv [Pb.FIELDNUM_HEADER_IV Pb.FIELDNUM_HEADER_SALT
       Pb.FIELDNUM_SQLSTATEMENT_STATEMENT Pb.FIELDNUM_SQLSTATEMENT_PARAMETERS
       Pb.FIELDNUM_SQLPARAMETER_STRINGPARAMTER
       Pb.FIELDNUM_SQLPARAMETER_INTEGERPARAMETER
       Pb.FIELDNUM_SQLPARAMETER_DOUBLEPARAMETER
       Pb.FIELDNUM_SQLPARAMETER_BLOBPARAMETER
       Pb.FIELDNUM_SQLPARAMETER_NULLPARAMETER
       Pb.FIELDNUM_SHAREDPREFERENCE_FILE Pb.FIELDNUM_SHAREDPREFERENCE_KEY
       Pb.FIELDNUM_SHAREDPREFERENCE_VALUE Pb.FIELDNUM_ATTACHMENT_ROWID
       Pb.FIELDNUM_ATTACHMENT_ATTACHMENTID Pb.FIELDNUM_ATTACHMENT_LENGTH
       Pb.FIELDNUM_DATABASEVERSION_VERSION Pb.FIELDNUM_AVATAR_NAME
       Pb.FIELDNUM_AVATAR_LENGTH Pb.FIELDNUM_AVATAR_RECIPIENTID
       Pb.FIELDNUM_STICKER_ROWID Pb.FIELDNUM_STICKER_LENGTH
       Pb.FIELDNUM_BACKUPFRAME_HEADER Pb.FIELDNUM_BACKUPFRAME_STATEMENT
       Pb.FIELDNUM_BACKUPFRAME_PREFERENCE Pb.FIELDNUM_BACKUPFRAME_ATTACHMENT
       Pb.FIELDNUM_BACKUPFRAME_VERSION Pb.FIELDNUM_BACKUPFRAME_END
       Pb.FIELDNUM_BACKUPFRAME_AVATAR Pb.FIELDNUM_BACKUPFRAME_STICKER] in *;
  repeat match goal with
         | |- context [n =? ?k] => destruct (Z.eqb_spec n k) as [->|?]
         end;
  cbn [Z.eqb Pos.eqb] in Hw;
  try reflexivity;
  apply Z.eqb_neq in Hw;
  first
    [ rewrite Hw; reflexivity
    | match goal with
      | |- context [if ?c then None else _] =>
          destruct c; [reflexivity | rewrite Hw; reflexivity]
      end ].

Lemma header_wire_type (f : Wire.field) :
  defined_field Header (Wire.number f) = true ->
  Wire.wire_type (Wire.payload f)
  <> expected_wire_type Header (Wire.number f) ->
  always_rejected Pb.header_field f.
Proof. revert f. handler_wire_type Pb.header_field. Qed.

Lemma sql_parameter_wire_type (f : Wire.field) :
  defined_field SqlParameter (Wire.number f) = true ->
  Wire.wire_type (Wire.payload f)
  <> expected_wire_type SqlParameter (Wire.number f) ->
  always_rejected Pb.sql_parameter_field f.
Proof. revert f. handler_wire_type Pb.sql_parameter_field. Qed.

Lemma sql_statement_wire_type (f : Wire.field) :
  defined_field SqlStatement (Wire.number f) = true ->
  Wire.wire_type (Wire.payload f)
  <> expected_wire_type SqlStatement (Wire.number f) ->
  always_rejected Pb.sql_statement_field f.
Proof. revert f. handler_wire_type Pb.sql_statement_field. Qed.

Lemma shared_preference_wire_type (f : Wire.field) :
  defined_field SharedPreference (Wire.number f) = true ->
  Wire.wire_type (Wire.payload f)
  <> expected_wire_type SharedPreference (Wire.number f) ->
  always_rejected Pb.shared_preference_field f.
Proof. revert f. handler_wire_type Pb.shared_preference_field. Qed.

Lemma attachment_wire_type (f : Wire.field) :
  defined_field Attachment (Wire.number f) = true ->
  Wire.wire_type (Wire.payload f)
  <> expected_wire_type Attachment (Wire.number f) ->
  always_rejected Pb.attachment_field f.
Proof. revert f. handler_wire_type Pb.attachment_field. Qed.

Lemma database_version_wire_type (f : Wire.field) :
  defined_field DatabaseVersion (Wire.number f) = true ->
  Wire.wire_type (Wire.payload f)
  <> expected_wire_type DatabaseVersion (Wire.number f) ->
  always_rejected Pb.database_version_field f.
Proof. revert f. handler_wire_type Pb.database_version_field. Qed.

Lemma avatar_wire_type (f : Wire.field) :
  defined_field Avatar (Wire.number f) = true ->
  Wire.wire_type (Wire.payload f)
  <> expected_wire_type Avatar (Wire.number f) ->
  always_rejected Pb.avatar_field f.
Proof. revert f. handler_wire_type Pb.avatar_field. Qed.

Lemma sticker_wire_type (f : Wire.field) :
  defined_field Sticker (Wire.number f) = true ->
  Wire.wire_type (Wire.payload f)
  <> expected_wire_type Sticker (Wire.number f) ->
  always_rejected Pb.sticker_field f.
Proof. revert f. handler_wire_type Pb.sticker_field. Qed.

Lemma backup_frame_wire_type (f : Wire.field) :
  defined_field BackupFrame (Wire.number f) = true ->
  Wire.wire_type (Wire.payload f)
  <> expected_wire_type BackupFrame (Wire.number f) ->
  always_rejected Pb.backup_frame_field f.
Proof. revert f. handler_wire_type Pb.backup_frame_field. Qed.

(** X6: a field with a wire type other than the one its case asks for
    makes the unpack function fail, for every message type and every field
    number that has a case. *)
Theorem wrong_wire_type_rejected (t : message) (fs : list Wire.field)
    (f : Wire.field) :
  Forall Wire.field_ok fs -> In f fs ->
  defined_field t (Wire.number f) = true ->
  Wire.wire_type (Wire.payload f) <> expected_wire_type t (Wire.number f) ->
  decodes t (Wire.encode fs) = false.
Proof.
  intros Hok Hin Hd Hw.
  destruct t; cbn [decodes];
    [ unfold Pb.signal__header__unpack
    | unfold Pb.signal__sql_statement__sql_parameter__unpack
    | unfold Pb.signal__sql_statement__unpack
    | unfold Pb.signal__shared_preference__unpack
    | unfold Pb.signal__attachment__unpack
    | unfold Pb.signal__database_version__unpack
    | unfold Pb.signal__avatar__unpack
    | unfold Pb.signal__sticker__unpack
    | unfold Pb.signal__backup_frame__unpack ];
    unfold Pb.unpack;
    [ rewrite (unpack_loop_rejected _ header_aligned fs Hok)
    | rewrite (unpack_loop_rejected _ sql_parameter_aligned fs Hok)
    | rewrite (unpack_loop_rejected _ sql_statement_aligned fs Hok)
    | rewrite (unpack_loop_rejected _ shared_preference_aligned fs Hok)
    | rewrite (unpack_loop_rejected _ attachment_aligned fs Hok)
    | rewrite (unpack_loop_rejected _ database_version_aligned fs Hok)
    | rewrite (unpack_loop_rejected _ avatar_aligned fs Hok)
    | rewrite (unpack_loop_rejected _ sticker_aligned fs Hok)
    | rewrite (unpack_loop_rejected _ backup_frame_aligned fs Hok) ];
    try reflexivity; exists f; (split; [exact Hin|]);
    [ apply header_wire_type | apply sql_parameter_wire_type
    | apply sql_statement_wire_type | apply shared_preference_wire_type
    | apply attachment_wire_type | apply database_version_wire_type
    | apply avatar_wire_type | apply sticker_wire_type
    | apply backup_frame_wire_type ]; assumption.
Qed.

Lemma header_empty_bytes (n : Z) :
  bytes_field Header n = true ->
  always_rejected Pb.header_field
    {| Wire.number := n; Wire.payload := Wire.LengthDelim [] |}.
Proof.
  intros Hb m rest. unfold Pb.header_field, tag_of.
  cbn [Pb.fieldnum Pb.wiretype Wire.number Wire.payload Wire.wire_type].
  unfold bytes_field in Hb. unfold_fieldnums. revert Hb. split_number n;
    intros Hb; cbn [Z.eqb Pos.eqb orb] in Hb; try discriminate Hb;
    (match goal with
     | |- context [if ?c then None else _] => destruct c; [reflexivity|]
     end);
    rewrite length_delim_encode by reflexivity; reflexivity.
Qed.

Lemma sql_parameter_empty_bytes (n : Z) :
  bytes_field SqlParameter n = true ->
  always_rejected Pb.sql_parameter_field
    {| Wire.number := n; Wire.payload := Wire.LengthDelim [] |}.
Proof.
  intros Hb m rest. unfold Pb.sql_parameter_field, tag_of.
  cbn [Pb.fieldnum Pb.wiretype Wire.number Wire.payload Wire.wire_type].
  unfold bytes_field in Hb. unfold_fieldnums. revert Hb. split_number n;
    intros Hb; cbn [Z.eqb Pos.eqb orb] in Hb; try discriminate Hb;
    (match goal with
     | |- context [if ?c then None else _] => destruct c; [reflexivity|]
     end);
    rewrite length_delim_encode by reflexivity; reflexivity.
Qed.

(** X7: an empty byte string is refused.  binarydata_unpack returns the
    number of bytes it copied, and the callers take 0 for a failure: a
    Header with an empty iv or salt, and an SQL parameter with an empty
    blob, do not unpack, whatever else the message holds. *)
Theorem empty_bytes_field_rejected (t : message) (n : Z)
    (fs : list Wire.field) :
  bytes_field t n = true -> Forall Wire.field_ok fs ->
  In {| Wire.number := n; Wire.payload := Wire.LengthDelim [] |} fs ->
  decodes t (Wire.encode fs) = false.
Proof.
  intros Hb Hok Hin. destruct t; try discriminate Hb; cbn [decodes].
  - unfold Pb.signal__header__unpack, Pb.unpack.
    rewrite (unpack_loop_rejected _ header_aligned fs Hok); [reflexivity|].
    eexists. split; [exact Hin|]. apply header_empty_bytes. exact Hb.
  - unfold Pb.signal__sql_statement__sql_parameter__unpack, Pb.unpack.
    rewrite (unpack_loop_rejected _ sql_parameter_aligned fs Hok);
      [reflexivity|].
    eexists. split; [exact Hin|]. apply sql_parameter_empty_bytes.
    exact Hb.
Qed.

(** ** Messages that unpack *)

Lemma encode_length (fs : list Wire.field) :
  (List.length fs <= List.length (Wire.encode fs))%nat.
Proof.
  induction fs as [|f fs IH]; [cbn; lia|].
  rewrite encode_cons, length_app. cbn [List.length].
  destruct (encode_field_nonempty f []) as (b & buf & E).
  rewrite app_nil_r in E. rewrite E. cbn [List.length]. lia.
Qed.

(** The fields of an encoded message handed to the switch one by one. *)
Fixpoint run_fields {M : Type}
    (field : M -> Pb.tag -> list byte -> option (M * list byte))
    (m : M) (fs : list Wire.field) : option M :=
  match fs with
  | [] => Some m
  | f :: fs' =>
      match field m (tag_of f)
              (Wire.encode_value (Wire.payload f) ++ Wire.encode fs') with
      | Some (m', _) => run_fields field m' fs'
      | None => None
      end
  end.

Lemma unpack_loop_run {M : Type}
    (field : M -> Pb.tag -> list byte -> option (M * list byte)) :
  aligned field ->
  forall fs, Forall Wire.field_ok fs ->
  forall fuel m, (List.length fs <= fuel)%nat ->
    Pb.unpack_loop field fuel m (Wire.encode fs) = run_fields field m fs.
Proof.
  intros Hal. induction 1 as [|f fs Hok Hfs IH]; intros fuel m Hfuel.
  - destruct fuel; reflexivity.
  - destruct fuel as [|fuel]; [cbn in Hfuel; lia|].
    rewrite unpack_loop_cons by exact Hok. cbn [run_fields].
    destruct (field m (tag_of f) _) as [[m' rest']|] eqn:E; [|reflexivity].
    rewrite (Hal _ _ _ _ _ Hok E). apply IH. cbn in Hfuel. lia.
Qed.

Lemma unpack_run {M : Type}
    (field : M -> Pb.tag -> list byte -> option (M * list byte))
    (init : M) (fs : list Wire.field) :
  aligned field -> Forall Wire.field_ok fs ->
  Pb.unpack field init (Wire.encode fs) = run_fields field init fs.
Proof.
  intros Hal Hok. apply unpack_loop_run; [exact Hal | exact Hok|].
  apply encode_length.
Qed.

Lemma encode_length_le (fs : list Wire.field) :
  Forall (fun f =>
            match Wire.payload f with
            | Wire.Varint _ => True
            | _ => False
            end) fs ->
  (List.length (Wire.encode fs) <= 20 * List.length fs)%nat.
Proof.
  induction 1 as [|f fs Hf Hfs IH]; [cbn; lia|].
  rewrite encode_cons, length_app. cbn [List.length].
  unfold Wire.encode_field. rewrite length_app.
  destruct (Wire.payload f) eqn:Ep; try contradiction.
  cbn [Wire.encode_value].
  pose proof (varint_length (Wire.number f * 8 + Wire.wire_type (Wire.Varint v))).
  pose proof (varint_length v). lia.
Qed.

(** Running a switch on encoded fields. *)
Ltac decode_simpl :=
  repeat
    first
      [ rewrite length_delim_encode by assumption
      | rewrite (fun v rest Hv => proj1 (varint_value_encode v rest Hv))
          by assumption
      | rewrite (fun v rest Hv => proj2 (varint_value_encode v rest Hv))
          by assumption
      | progress
          cbn [run_fields tag_of Wire.number Wire.payload Wire.wire_type
               Z.eqb Pos.eqb negb non_null
               Pb.fieldnum Pb.wiretype Pb.has_iv Pb.iv Pb.has_salt Pb.salt
               Pb.stringparamter Pb.has_integerparameter
               Pb.integerparameter Pb.has_doubleparameter
               Pb.doubleparameter Pb.has_blobparameter
               Pb.blobparameter Pb.has_nullparameter
               Pb.nullparameter Pb.statement Pb.parameters
               Pb.prf_file Pb.prf_key Pb.prf_value
               Pb.att_has_rowid Pb.att_rowid
               Pb.att_has_attachmentid Pb.att_attachmentid
               Pb.att_has_length Pb.att_length
               Pb.ver_has_version Pb.ver_version Pb.ava_name
               Pb.ava_has_length Pb.ava_length
               Pb.ava_recipientid Pb.sti_has_rowid
               Pb.sti_rowid Pb.sti_has_length Pb.sti_length
               Pb.frm_header Pb.frm_statement
               Pb.frm_preference Pb.frm_attachment
               Pb.frm_version Pb.frm_has_end Pb.frm_end
               Pb.frm_avatar Pb.frm_sticker] ].

Ltac decode_open :=
  unfold Pb.uint64_unpack, Pb.uint32_unpack, Pb.bool_unpack,
    Pb.string_unpack, Pb.binarydata_unpack, Pb.UINT32_MAX;
  unfold Pb.WIRETYPE_VARINT, Pb.WIRETYPE_64BIT, Pb.WIRETYPE_LENGTH_DELIM,
    Pb.WIRETYPE_32BIT;
  unfold_fieldnums.

(** X8: an attachment frame unpacks to what was written.  An Attachment
    message with row id, attachment id and length unpacks to the three
    values, and a frame that holds it unpacks to a frame with that
    attachment and nothing else, which sbk.c takes for a frame with file
    data of that length.  A length of 2^32 or more does not unpack. *)
Theorem attachment_frame_round_trip (rowid attachmentid length : Z) :
  0 <= rowid < 2 ^ 64 -> 0 <= attachmentid < 2 ^ 64 ->
  0 <= length < 2 ^ 64 ->
  let att :=
    Wire.encode
      [ {| Wire.number := 1; Wire.payload := Wire.Varint rowid |};
        {| Wire.number := 2; Wire.payload := Wire.Varint attachmentid |};
        {| Wire.number := 3; Wire.payload := Wire.Varint length |} ] in
  let frame :=
    Wire.encode
      [ {| Wire.number := 4; Wire.payload := Wire.LengthDelim att |} ] in
  if length <? 2 ^ 32 then
    Pb.signal__attachment__unpack att
    = Some {| Pb.att_has_rowid := true; Pb.att_rowid := rowid;
              Pb.att_has_attachmentid := true;
              Pb.att_attachmentid := attachmentid;
              Pb.att_has_length := true; Pb.att_length := length |}
    /\ exists frm,
         Pb.signal__backup_frame__unpack frame = Some frm
         /\ Pb.frm_attachment frm
            = Some {| Pb.att_has_rowid := true; Pb.att_rowid := rowid;
                      Pb.att_has_attachmentid := true;
                      Pb.att_attachmentid := attachmentid;
                      Pb.att_has_length := true; Pb.att_length := length |}
         /\ Pb.frm_header frm = None /\ Pb.frm_statement frm = None
         /\ Pb.frm_has_end frm = false
         /\ sbk_has_file_data frm = true
         /\ file_data_length frm = Some length
  else
    Pb.signal__attachment__unpack att = None
    /\ Pb.signal__backup_frame__unpack frame = None.
Proof.
  intros Hr Ha Hl att frame.
  set (fs := [ {| Wire.number := 1; Wire.payload := Wire.Varint rowid |};
               {| Wire.number := 2;
                  Wire.payload := Wire.Varint attachmentid |};
               {| Wire.number := 3; Wire.payload := Wire.Varint length |} ])
    in *.
  assert (Hfs : Forall Wire.field_ok fs).
  { repeat constructor; cbn; lia. }
  assert (Hlen : len att < 2 ^ 64).
  { unfold att, len.
    pose proof (encode_length_le fs) as L.
    assert (List.length (Wire.encode fs) <= 60)%nat.
    { apply L. repeat constructor. }
    lia. }
  assert (Hframe : Forall Wire.field_ok
                     [ {| Wire.number := 4;
                          Wire.payload := Wire.LengthDelim att |} ]).
  { repeat constructor; cbn; try lia. exact Hlen. }
  assert (Eatt : Pb.signal__attachment__unpack att
                 = if length <? 2 ^ 32 then
                     Some {| Pb.att_has_rowid := true; Pb.att_rowid := rowid;
                             Pb.att_has_attachmentid := true;
                             Pb.att_attachmentid := attachmentid;
                             Pb.att_has_length := true;
                             Pb.att_length := length |}
                   else None).
  { unfold Pb.signal__attachment__unpack, att.
    rewrite (unpack_run _ _ fs attachment_aligned Hfs).
    unfold fs, Pb.attachment_field, Pb.attachment_init. decode_open.
    decode_simpl.
    destruct (Z.ltb_spec (2 ^ 32 - 1) length), (Z.ltb_spec length (2 ^ 32));
      try lia; reflexivity. }
  assert (Efrm : Pb.signal__backup_frame__unpack frame
                 = match Pb.signal__attachment__unpack att with
                   | Some a =>
                       Some {| Pb.frm_header := None;
                               Pb.frm_statement := None;
                               Pb.frm_preference := None;
                               Pb.frm_attachment := Some a;
                               Pb.frm_version := None;
                               Pb.frm_has_end := false;
                               Pb.frm_end := false;
                               Pb.frm_avatar := None;
                               Pb.frm_sticker := None |}
                   | None => None
                   end).
  { unfold Pb.signal__backup_frame__unpack, frame.
    rewrite (unpack_run _ _ _ backup_frame_aligned Hframe).
    unfold Pb.backup_frame_field, Pb.backup_frame_init. decode_open.
    decode_simpl.
    destruct (Pb.signal__attachment__unpack att); reflexivity. }
  rewrite Efrm, Eatt.
  destruct (length <? 2 ^ 32).
  - split; [reflexivity|]. eexists. split; [reflexivity|].
    repeat split.
  - split; reflexivity.
Qed.

Definition parameter_field (data : list byte) : Wire.field :=
  {| Wire.number := 2; Wire.payload := Wire.LengthDelim data |}.

Lemma run_parameters (datas : list (list byte))
    (pars : list Pb.Signal__SqlStatement__SqlParameter) :
  Forall2 (fun d p =>
             len d < 2 ^ 64
             /\ Pb.signal__sql_statement__sql_parameter__unpack d = Some p)
    datas pars ->
  forall sql0,
    run_fields Pb.sql_statement_field sql0 (map parameter_field datas)
    = Some {| Pb.statement := Pb.statement sql0;
              Pb.parameters := Pb.parameters sql0 ++ pars |}.
Proof.
  induction 1 as [|d p datas pars [Hl Hd] _ IH]; intros sql0.
  - cbn [map run_fields]. rewrite app_nil_r. destruct sql0; reflexivity.
  - cbn [map run_fields]. unfold parameter_field at 1 2.
    unfold Pb.sql_statement_field at 1. decode_open. decode_simpl.
    rewrite Hd. rewrite IH. cbn [Pb.statement Pb.parameters].
    rewrite <- app_assoc. reflexivity.
Qed.

(** X9: the parameters of a statement keep their order.  A SqlStatement
    message with a text and any number of parameter fields unpacks to the
    text and the parameters in the order of their fields, when each
    parameter unpacks. *)
Theorem sql_statement_parameters_in_order (text : list byte)
    (datas : list (list byte))
    (pars : list Pb.Signal__SqlStatement__SqlParameter) :
  len text < 2 ^ 64 ->
  Forall2 (fun d p =>
             len d < 2 ^ 64
             /\ Pb.signal__sql_statement__sql_parameter__unpack d = Some p)
    datas pars ->
  Pb.signal__sql_statement__unpack
    (Wire.encode
       ({| Wire.number := 1; Wire.payload := Wire.LengthDelim text |}
        :: map parameter_field datas))
  = Some {| Pb.statement := Some text; Pb.parameters := pars |}.
Proof.
  intros Ht Hps. unfold Pb.signal__sql_statement__unpack.
  rewrite unpack_run.
  - cbn [run_fields]. unfold Pb.sql_statement_field at 1.
    unfold Pb.sql_statement_init. decode_open. decode_simpl.
    rewrite firstn_all. rewrite (run_parameters datas pars Hps).
    reflexivity.
  - exact sql_statement_aligned.
  - constructor; [split; [cbn; lia | exact Ht]|].
    clear -Hps. induction Hps as [|d p datas pars [Hl _] _ IH];
      cbn [map]; constructor; [|exact IH].
    split; [cbn; lia | exact Hl].
Qed.

(** * More on the frame stream *)

Lemma Zb_B_mod (z : Z) : Zb (B z) = z mod 256.
Proof.
  rewrite <- (Zb_B (z mod 256)) by (apply Z.mod_pos_bound; lia).
  unfold B. rewrite Z.mod_mod by lia. reflexivity.
Qed.

Lemma be32_digits (c : Z) :
  0 <= c < 2 ^ 32 ->
  (Z.shiftr c 24 mod 256) * 2 ^ 24 + (Z.shiftr c 16 mod 256) * 2 ^ 16
  + (Z.shiftr c 8 mod 256) * 2 ^ 8 + c mod 256 = c.
Proof.
  intros Hc. rewrite !Z.shiftr_div_pow2 by lia.
  change (2 ^ 24) with (256 * 256 * 256).
  change (2 ^ 16) with (256 * 256). change (2 ^ 8) with 256.
  rewrite <- !Z.div_div by lia.
  pose proof (Z.div_mod c 256 ltac:(lia)).
  pose proof (Z.div_mod (c / 256) 256 ltac:(lia)).
  pose proof (Z.div_mod (c / 256 / 256) 256 ltac:(lia)).
  assert (0 <= c / 256 / 256 / 256 < 256).
  { split; [repeat apply Z.div_pos; lia|].
    repeat (apply Z.div_lt_upper_bound; [lia|]).
    change (2 ^ 32) with (256 * (256 * (256 * 256))) in Hc. lia. }
  rewrite (Z.mod_small (c / 256 / 256 / 256)) by lia. lia.
Qed.

(** X10: the counter in the IV.  sbk_decrypt_init stores the counter in the
    first four bytes of the IV, most significant byte first, and leaves
    the other bytes and the length as they are: reading the four bytes
    back gives the counter, and a later counter replaces an earlier one. *)
Theorem counter_iv_round_trip (iv : list byte) (counter counter' : Z) :
  (4 <= List.length iv)%nat -> 0 <= counter < 2 ^ 32 ->
  let iv' := counter_iv iv counter in
  List.length iv' = List.length iv
  /\ skipn 4 iv' = skipn 4 iv
  /\ be32 (nth 0 iv' x00) (nth 1 iv' x00) (nth 2 iv' x00) (nth 3 iv' x00)
     = counter
  /\ counter_iv iv' counter' = counter_iv iv counter'.
Proof.
  intros Hlen Hc iv'.
  destruct iv as [|i0 [|i1 [|i2 [|i3 tl]]]]; try (cbn in Hlen; lia).
  unfold iv', counter_iv. cbn.
  repeat split.
  unfold be32. rewrite !Zb_B_mod. apply be32_digits. exact Hc.
Qed.

Section Stream.
Context `{OpenSSL} `{Libc} `{SQLite}.

Ltac ctx_simpl :=
  cbn [fst snd
       fp db db_version attachments recipients cipher hmac cipherkey mackey
       iv counter ibuf ibufsize obuf obufsize firstframe eof error
       set_fp set_db set_db_version set_attachments set_recipients
       set_cipher set_hmac set_cipherkey set_mackey set_iv set_counter
       set_ibuf set_ibufsize set_obuf set_obufsize set_firstframe set_eof
       set_error
       cipher_key cipher_iv cipher_num hmac_key hmac_data f_data f_pos
       pos len_ counter_ negb].

(** X11: reading stops at the End frame.  A frame that has the end field
    (whatever its value) sets the end-of-file flag when it is returned;
    every later call of sbk_get_frame returns NULL and leaves the context,
    the stream position and the error included, as it is. *)
Theorem end_frame_stops_reading
    (ctx : sbk_ctx) f b0 b1 b2 b3 ct tag rest w frm :
  fp ctx = Some f -> eof ctx = false -> firstframe ctx = false ->
  skipn (f_pos f) (f_data f) = b0 :: b1 :: b2 :: b3 :: ct ++ tag ++ rest ->
  List.length tag = SBK_MAC_LEN -> ct <> [] ->
  be32 b0 b1 b2 b3 = len ct + 10 -> len ct + 10 < 2 ^ 31 ->
  len ct + 10 <= SIZE_MAX - EVP_MAX_BLOCK_LENGTH ->
  tag = firstn SBK_MAC_LEN (HMAC_SHA256 (hmac_key (hmac ctx)) ct) ->
  Pb.signal__backup_frame__unpack
    (ctr_crypt (cipherkey ctx) (counter_iv (iv ctx) (counter ctx)) 0 ct)
  = Some frm ->
  Pb.frm_has_end frm = true -> sbk_has_file_data frm = false ->
  exists ctx1,
    sbk_get_frame w ctx = (Some (frm, None), ctx1)
    /\ eof ctx1 = true /\ counter ctx1 = uint32 (counter ctx + 1)
    /\ error ctx1 = error ctx
    /\ fp ctx1 = Some {| f_data := f_data f;
                         f_pos := f_pos f + 4 + List.length ct + 10 |}
    /\ forall w', sbk_get_frame w' ctx1 = (None, ctx1).
Proof.
  intros Hfp Heof Hff Hskip Htag Hct HL Hlt Hsz Hmac Hfrm Hend Hfile.
  destruct (sbk_get_frame_encrypted ctx f b0 b1 b2 b3 ct tag rest w
              Hfp Heof Hff Hskip Htag Hct HL Hlt Hsz)
    as (ctxD & Hc & He & Herr & _ & _ & _ & _ & Hfp' & E).
  rewrite <- Hmac in E.
  rewrite (proj2 (bytes_eqb_eq tag tag) eq_refl), Hfrm in E.
  unfold frame_tail, bind, get, modify, ret in E. rewrite Hend, Hfile in E.
  eexists. split; [exact E|]. ctx_simpl.
  split; [reflexivity|]. split; [rewrite Hc; reflexivity|].
  split; [exact Herr|]. split; [exact Hfp'|].
  intros w'. rewrite sbk_get_frame_unfold. ctx_simpl. reflexivity.
Qed.

(** X12: an encrypted frame must be longer than its MAC.  After the header,
    a frame of 1 to 10 bytes is refused with "Invalid frame size" once it
    has been read; the counter is not advanced. *)
Theorem short_encrypted_frame_rejected
    (ctx : sbk_ctx) f b0 b1 b2 b3 body rest w :
  fp ctx = Some f -> eof ctx = false -> firstframe ctx = false ->
  skipn (f_pos f) (f_data f) = b0 :: b1 :: b2 :: b3 :: body ++ rest ->
  be32 b0 b1 b2 b3 = len body -> 0 < len body <= 10 ->
  len body <= SIZE_MAX - EVP_MAX_BLOCK_LENGTH ->
  fst (sbk_get_frame w ctx) = None
  /\ error (snd (sbk_get_frame w ctx)) = Some (Errx "Invalid frame size")
  /\ counter (snd (sbk_get_frame w ctx)) = counter ctx
  /\ fp (snd (sbk_get_frame w ctx))
     = Some {| f_data := f_data f;
               f_pos := f_pos f + 4 + List.length body |}.
Proof.
  intros Hfp Heof Hff Hskip HL Hpos Hsz.
  pose proof (skipn_cons_length _ _ _ _ Hskip) as Hlen.
  cbn [List.length] in Hlen. rewrite !length_app in Hlen.
  assert (E : exists ib i o,
            sbk_get_frame w ctx
            = (None,
               set_error (Some (Errx "Invalid frame size"))
                 (set_ibuf ib
                    (set_fp
                       (Some {| f_data := f_data f;
                                f_pos := f_pos f + 4 + List.length body |})
                       (set_obufsize o
                          (set_ibufsize i
                             (set_fp
                                (Some {| f_data := f_data f;
                                         f_pos := f_pos f + 4 |})
                                ctx))))))).
  { rewrite sbk_get_frame_unfold, Heof.
    rewrite (sbk_read_frame_eq ctx f b0 b1 b2 b3 _ Hfp Hskip). cbv zeta.
    rewrite HL. unfold len in *.
    destruct (Z.ltb_spec 0 (Z.of_nat (List.length body))); [|lia].
    destruct (Z.ltb_spec (Z.of_nat (List.length body)) (2 ^ 31)); [|lia].
    cbn [andb]. unfold bind at 1.
    rewrite sbk_enlarge_buffers_eq by assumption.
    rewrite Nat2Z.id. unfold bind at 1.
    erewrite sbk_read_ok; [ | reflexivity | lia | cbn [f_pos f_data]; lia ].
    unfold bind, modify, ret. ctx_simpl. rewrite Hff.
    destruct (Nat.leb_spec (List.length body) SBK_MAC_LEN) as [_|Hgt];
      [|unfold SBK_MAC_LEN in Hgt; lia].
    do 3 eexists. reflexivity. }
  destruct E as (ib & i & o & ->). ctx_simpl. repeat split.
Qed.

(** X13: a truncated backup is detected.  When fewer than four bytes are
    left for the length of a frame, or fewer bytes than the length says
    for the frame itself, sbk_read_frame fails with
    "Unexpected end of file". *)
Theorem truncated_frame_detected (ctx : sbk_ctx) (f : FILE) :
  fp ctx = Some f ->
  ((List.length (f_data f) < f_pos f + 4)%nat ->
   fst (sbk_read_frame ctx) = None
   /\ error (snd (sbk_read_frame ctx))
      = Some (Errx "Unexpected end of file"))
  /\ (forall b0 b1 b2 b3 rest,
        skipn (f_pos f) (f_data f) = b0 :: b1 :: b2 :: b3 :: rest ->
        0 < be32 b0 b1 b2 b3 < 2 ^ 31 ->
        be32 b0 b1 b2 b3 <= SIZE_MAX - EVP_MAX_BLOCK_LENGTH ->
        len rest < be32 b0 b1 b2 b3 ->
        fst (sbk_read_frame ctx) = None
        /\ error (snd (sbk_read_frame ctx))
           = Some (Errx "Unexpected end of file")).
Proof.
  intros Hfp. split.
  - intros Hshort.
    assert (E : exists c,
              sbk_read_frame ctx
              = (None, set_error (Some (Errx "Unexpected end of file")) c)).
    { unfold sbk_read_frame, bind at 1, sbk_read, bind at 1, get at 1.
      cbv beta iota. rewrite Hfp. cbn [Nat.eqb].
      destruct (Nat.leb_spec (f_pos f + 4) (List.length (f_data f)));
        [lia|].
      eexists. reflexivity. }
    destruct E as (c & ->). split; reflexivity.
  - intros b0 b1 b2 b3 rest Hskip HL Hsz Hrest.
    pose proof (skipn_cons_length _ _ _ _ Hskip) as Hlen.
    cbn [List.length] in Hlen.
    assert (E : exists c,
              sbk_read_frame ctx
              = (None, set_error (Some (Errx "Unexpected end of file")) c)).
    { rewrite (sbk_read_frame_eq ctx f b0 b1 b2 b3 _ Hfp Hskip). cbv zeta.
      destruct (Z.ltb_spec 0 (be32 b0 b1 b2 b3)); [|lia].
      destruct (Z.ltb_spec (be32 b0 b1 b2 b3) (2 ^ 31)); [|lia].
      cbn [andb]. unfold bind at 1.
      rewrite sbk_enlarge_buffers_eq by assumption.
      unfold bind at 1, sbk_read, bind at 1, get at 1. cbv beta iota.
      ctx_simpl.
      destruct (Nat.eqb_spec (Z.to_nat (be32 b0 b1 b2 b3)) 0); [lia|].
      unfold len in Hrest.
      destruct (Nat.leb_spec (f_pos f + 4 + Z.to_nat (be32 b0 b1 b2 b3))
                  (List.length (f_data f))); [lia|].
      eexists. reflexivity. }
    destruct E as (c & ->). split; reflexivity.
Qed.

(** X14: the file after a frame.  For an attachment frame with a length,
    sbk_get_frame records the file at the stream position after the
    frame, with the frame's length and the counter after the frame's
    increment, and moves the stream past the file and its MAC,
    (length + 10) mod 2^32 bytes on; the counter has advanced by 2.  A
    caller that asks for no file gets none, and the stream and the
    counter are moved in the same way. *)
Theorem file_follows_frame
    (ctx : sbk_ctx) f b0 b1 b2 b3 ct tag rest frm att (w : bool) :
  fp ctx = Some f -> eof ctx = false -> firstframe ctx = false ->
  skipn (f_pos f) (f_data f) = b0 :: b1 :: b2 :: b3 :: ct ++ tag ++ rest ->
  List.length tag = SBK_MAC_LEN -> ct <> [] ->
  be32 b0 b1 b2 b3 = len ct + 10 -> len ct + 10 < 2 ^ 31 ->
  len ct + 10 <= SIZE_MAX - EVP_MAX_BLOCK_LENGTH ->
  tag = firstn SBK_MAC_LEN (HMAC_SHA256 (hmac_key (hmac ctx)) ct) ->
  Pb.signal__backup_frame__unpack
    (ctr_crypt (cipherkey ctx) (counter_iv (iv ctx) (counter ctx)) 0 ct)
  = Some frm ->
  Pb.frm_attachment frm = Some att -> Pb.att_has_length att = true ->
  let start := (f_pos f + 4 + List.length ct + 10)%nat in
  exists ctx1,
    sbk_get_frame w ctx
    = (Some (frm,
             if w then
               Some {| pos := start; len_ := Pb.att_length att;
                       counter_ := uint32 (counter ctx + 1) |}
             else None), ctx1)
    /\ fp ctx1
       = Some {| f_data := f_data f;
                 f_pos := start
                          + Z.to_nat (uint32 (Pb.att_length att + 10)) |}
    /\ counter ctx1 = uint32 (counter ctx + 1 + 1)
    /\ eof ctx1 = Pb.frm_has_end frm.
Proof.
  intros Hfp Heof Hff Hskip Htag Hct HL Hlt Hsz Hmac Hfrm Hatt Hhas start.
  destruct (sbk_get_frame_encrypted ctx f b0 b1 b2 b3 ct tag rest w
              Hfp Heof Hff Hskip Htag Hct HL Hlt Hsz)
    as (ctxD & Hc & He & _ & _ & _ & _ & _ & Hfp' & E).
  rewrite <- Hmac in E.
  rewrite (proj2 (bytes_eqb_eq tag tag) eq_refl), Hfrm in E.
  assert (Hfd : sbk_has_file_data frm = true).
  { unfold sbk_has_file_data. rewrite Hatt. reflexivity. }
  assert (Hl : file_data_length frm = Some (Pb.att_length att)).
  { unfold file_data_length. rewrite Hatt, Hhas. reflexivity. }
  rewrite E. clear E.
  unfold frame_tail, bind, get, modify, ret, sbk_get_file,
    sbk_skip_file_data, fseek_cur, bind, get, modify, ret.
  rewrite Hfd, Hl, Hatt, Hhas.
  destruct (Pb.frm_has_end frm), w; ctx_simpl; rewrite ?Hfp';
    ctx_simpl; rewrite ?Hfp'; ctx_simpl; rewrite ?Hc;
    (eexists; split; [reflexivity|]); ctx_simpl;
    rewrite ?Hc, ?uint32_succ_succ; repeat split; assumption.
Qed.

(** X15: sbk_write_file writes before it checks.  The decrypted bytes of
    the whole file are appended to the output stream whether or not the
    MAC that follows them matches: with a wrong MAC the call fails with
    "HMAC mismatch" after the bytes have been written.  What is written
    does not depend on BUFSIZ, the size of the chunks. *)
Theorem sbk_write_file_writes_before_check
    (file : sbk_file) (o : list byte) (ctx : sbk_ctx) f ct tag rest :
  (0 < BUFSIZ)%nat -> Z.of_nat BUFSIZ <= SIZE_MAX - EVP_MAX_BLOCK_LENGTH ->
  fp ctx = Some f ->
  skipn (pos file) (f_data f) = ct ++ tag ++ rest ->
  len_ file = len ct -> List.length tag = SBK_MAC_LEN ->
  let ivc := counter_iv (iv ctx) (counter_ file) in
  let r := sbk_write_file file (Some o) ctx in
  snd (fst r) = Some (o ++ ctr_crypt (cipherkey ctx) ivc 0 ct)
  /\ (tag <> firstn SBK_MAC_LEN
               (HMAC_SHA256 (hmac_key (hmac ctx))
                  (firstn SBK_IV_LEN ivc ++ ct)) ->
      fst (fst r) = None
      /\ error (snd r) = Some (Errx "HMAC mismatch")).
Proof.
  intros Hbuf Hsz Hfp Hskip Hlen Htag ivc r.
  destruct (sbk_write_file_eq file (Some o) ctx f ct tag rest
              Hbuf Hsz Hfp Hskip Hlen Htag)
    as (ctxF & _ & _ & _ & _ & E).
  fold ivc in E. subst r. rewrite E.
  destruct (bytes_eqb _ tag) eqn:Heq.
  - split; [reflexivity|]. intros Hne. apply bytes_eqb_eq in Heq.
    congruence.
  - split; [reflexivity|]. intros _. split; reflexivity.
Qed.

End Stream.

(** * Opening a backup *)

(** The fields of a Header message with an IV and, possibly, a salt. *)
Definition header_fields (iv : list byte) (salt : option (list byte))
  : list Wire.field :=
  {| Wire.number := 1; Wire.payload := Wire.LengthDelim iv |}
  :: match salt with
     | Some s => [ {| Wire.number := 2; Wire.payload := Wire.LengthDelim s |} ]
     | None => []
     end.

(** The bytes of a frame that holds such a header. *)
Definition header_frame_bytes (iv : list byte) (salt : option (list byte))
  : list byte :=
  Wire.encode
    [ {| Wire.number := 1;
         Wire.payload := Wire.LengthDelim (Wire.encode (header_fields iv salt))
      |} ].

Definition header_of (iv : list byte) (salt : option (list byte))
  : Pb.Signal__Header :=
  {| Pb.has_iv := true; Pb.iv := iv;
     Pb.has_salt := non_null salt;
     Pb.salt := match salt with Some s => s | None => [] end |}.

Lemma encode_field_length (f : Wire.field) (data : list byte) :
  Wire.payload f = Wire.LengthDelim data ->
  (List.length data <= List.length (Wire.encode_field f))%nat.
Proof.
  intros E. unfold Wire.encode_field. rewrite E. cbn [Wire.encode_value].
  rewrite !length_app. lia.
Qed.

Lemma header_unpack (iv : list byte) (salt : option (list byte)) :
  iv <> [] -> salt <> Some [] ->
  len iv < 2 ^ 64 -> (forall s, salt = Some s -> len s < 2 ^ 64) ->
  Pb.signal__header__unpack (Wire.encode (header_fields iv salt))
  = Some (header_of iv salt).
Proof.
  intros Hiv Hsalt Hl Hs. unfold Pb.signal__header__unpack.
  rewrite unpack_run; [|exact header_aligned|].
  2: { unfold header_fields. destruct salt as [s|];
         repeat constructor; cbn; try lia; auto. }
  unfold header_fields, Pb.header_field, Pb.header_init, header_of.
  decode_open. decode_simpl. rewrite firstn_all.
  assert (Hz : (List.length iv =? 0)%nat = false).
  { destruct iv; [congruence | reflexivity]. }
  rewrite Hz.
  destruct salt as [s|]; decode_simpl; [|reflexivity].
  rewrite length_delim_encode by (apply Hs; reflexivity).
  rewrite firstn_all.
  assert (Hz' : (List.length s =? 0)%nat = false).
  { destruct s; [congruence | reflexivity]. }
  rewrite Hz'. reflexivity.
Qed.

Lemma header_frame_unpack (iv : list byte) (salt : option (list byte)) :
  iv <> [] -> salt <> Some [] ->
  len (header_frame_bytes iv salt) < 2 ^ 64 ->
  Pb.signal__backup_frame__unpack (header_frame_bytes iv salt)
  = Some {| Pb.frm_header := Some (header_of iv salt);
            Pb.frm_statement := None; Pb.frm_preference := None;
            Pb.frm_attachment := None; Pb.frm_version := None;
            Pb.frm_has_end := false; Pb.frm_end := false;
            Pb.frm_avatar := None; Pb.frm_sticker := None |}.
Proof.
  intros Hiv Hsalt Hlen.
  set (header := Wire.encode (header_fields iv salt)).
  assert (Hh : len header <= len (header_frame_bytes iv salt)).
  { unfold header_frame_bytes. fold header. rewrite encode_cons.
    unfold len. rewrite length_app.
    pose proof (encode_field_length
                  {| Wire.number := 1;
                     Wire.payload := Wire.LengthDelim header |} header
                  eq_refl). lia. }
  assert (Hi : len iv <= len header).
  { unfold header, header_fields. rewrite encode_cons.
    unfold len. rewrite length_app.
    pose proof (encode_field_length
                  {| Wire.number := 1; Wire.payload := Wire.LengthDelim iv |}
                  iv eq_refl). lia. }
  assert (Hs : forall s, salt = Some s -> len s <= len header).
  { intros s ->. unfold header, header_fields.
    rewrite !encode_cons. unfold len. rewrite !length_app.
    pose proof (encode_field_length
                  {| Wire.number := 2; Wire.payload := Wire.LengthDelim s |}
                  s eq_refl). lia. }
  unfold Pb.signal__backup_frame__unpack, header_frame_bytes. fold header.
  rewrite unpack_run; [|exact backup_frame_aligned|].
  2: { constructor; [|constructor].
       split; [cbn; lia | cbn [Wire.payload Wire.value_ok]; lia]. }
  unfold Pb.backup_frame_field, Pb.backup_frame_init.
  decode_open. decode_simpl.
  rewrite length_delim_encode by lia.
  unfold header. rewrite header_unpack; try assumption; [reflexivity|lia|].
  intros s E. specialize (Hs s E). lia.
Qed.

Section Open.
Context `{OpenSSL} `{Libc} `{SQLite}.

Ltac ctx_simpl :=
  cbn [fst snd
       fp db db_version attachments recipients cipher hmac cipherkey mackey
       iv counter ibuf ibufsize obuf obufsize firstframe eof error
       set_fp set_db set_db_version set_attachments set_recipients
       set_cipher set_hmac set_cipherkey set_mackey set_iv set_counter
       set_ibuf set_ibufsize set_obuf set_obufsize set_firstframe set_eof
       set_error
       cipher_key cipher_iv cipher_num hmac_key hmac_data f_data f_pos
       pos len_ counter_ negb].

(** X16: sbk_open accepts a well-formed header.  For a file that starts
    with a record holding a frame with a Header whose IV has 16 bytes,
    with or without a salt, sbk_open succeeds whenever HKDF does, whatever
    follows the record.  It leaves the IV of the header, the counter of
    its first four bytes, the two halves of the derived key, the stream
    rewound to the start with the first-frame flag set, no database and
    an empty attachment tree. *)
Theorem sbk_open_accepts_header
    (fs : string -> option (list byte)) (path : string)
    (passphr : list byte) (ctx : sbk_ctx) (b0 b1 b2 b3 : byte)
    (iv0 : list byte) (salt : option (list byte)) (rest derivkey : list byte) :
  let hdr := header_frame_bytes iv0 salt in
  let data := b0 :: b1 :: b2 :: b3 :: hdr ++ rest in
  List.length iv0 = SBK_IV_LEN -> salt <> Some [] ->
  fs path = Some data ->
  be32 b0 b1 b2 b3 = len hdr -> len hdr < 2 ^ 31 ->
  len hdr <= SIZE_MAX - EVP_MAX_BLOCK_LENGTH ->
  HKDF_SHA256 64
    (firstn 32
       (sha512_round passphr (match salt with Some s => s | None => [] end)
          (N.to_nat 249999)))
    [] (cstr "Backup Export")
  = Some derivkey ->
  exists ctx',
    sbk_open fs path passphr ctx = (Some tt, ctx')
    /\ iv ctx' = iv0
    /\ counter ctx'
       = be32 (nth 0 iv0 x00) (nth 1 iv0 x00) (nth 2 iv0 x00)
           (nth 3 iv0 x00)
    /\ cipherkey ctx' = firstn 32 derivkey
    /\ mackey ctx' = firstn 32 (skipn 32 derivkey)
    /\ hmac_key (hmac ctx') = firstn 32 (mackey ctx')
    /\ fp ctx' = Some {| f_data := data; f_pos := 0 |}
    /\ firstframe ctx' = true /\ eof ctx' = false
    /\ db ctx' = None /\ attachments ctx' = ∅ /\ recipients ctx' = []
    /\ error ctx' = error ctx.
Proof.
  intros hdr data Hiv Hsalt Hfs HL Hlt Hsz Hkdf.
  assert (Hne : iv0 <> []).
  { intros ->. discriminate Hiv. }
  assert (Hpos : 0 < len hdr).
  { unfold hdr, header_frame_bytes. rewrite encode_cons.
    destruct (encode_field_nonempty
                {| Wire.number := 1;
                   Wire.payload :=
                     Wire.LengthDelim
                       (Wire.encode (header_fields iv0 salt)) |}
                (Wire.encode [])) as (b & buf & E).
    rewrite E. unfold len. cbn [List.length]. lia. }
  rewrite (sbk_open_eq fs path passphr ctx b0 b1 b2 b3 hdr rest Hfs HL
             (conj Hpos Hlt) Hsz).
  unfold hdr at 1. rewrite header_frame_unpack; [|exact Hne|exact Hsalt|].
  2: { fold hdr. lia. }
  unfold open_tail. cbn [Pb.frm_header header_of Pb.has_iv Pb.iv negb].
  rewrite Hiv. cbn [Nat.eqb SBK_IV_LEN negb].
  replace (SBK_IV_LEN =? SBK_IV_LEN)%nat with true by reflexivity.
  cbn [negb Pb.has_salt Pb.salt].
  assert (Hkeys : forall c : sbk_ctx,
            sbk_compute_keys passphr
              (if non_null salt
               then Some match salt with Some s => s | None => [] end
               else None) c
            = (Some tt,
               set_mackey (firstn 32 (skipn 32 derivkey))
                 (set_cipherkey (firstn 32 derivkey) c))).
  { intros c. unfold sbk_compute_keys.
    change (SBK_ROUNDS - 1)%N with 249999%N.
    replace (match (if non_null salt
                    then Some match salt with Some s => s | None => [] end
                    else None) with Some s => s | None => [] end)
      with (match salt with Some s => s | None => [] end)
      by (destruct salt; reflexivity).
    rewrite N_iter_rounds.
    change SBK_DERIVKEY_LEN with 64%nat. change SBK_KEY_LEN with 32%nat.
    change SBK_HKDF_INFO with (cstr "Backup Export").
    rewrite Hkdf. reflexivity. }
  unfold bind at 1, modify at 1. cbv beta iota.
  unfold bind at 1, modify at 1. cbv beta iota.
  unfold bind at 1. rewrite Hkeys.
  unfold bind, get, modify, sbk_rewind, fseek_set, bind, get, modify,
    open_read.
  ctx_simpl. unfold open_exit.
  eexists. split; [reflexivity|]. ctx_simpl.
  repeat split.
  unfold uint32. rewrite be32_value. fold (be32 (nth 0 iv0 x00)
    (nth 1 iv0 x00) (nth 2 iv0 x00) (nth 3 iv0 x00)).
  apply Z.mod_small. apply be32_range.
Qed.


End Open.

(** * The database and the attachment tree *)

(** X18: the order of the attachment tree.  sbk_cmp_attachment_entries
    orders the entries by row id and then by attachment id: it returns 0
    exactly for equal keys, a negative result one way means a positive
    one the other way, and the order is transitive. *)
Theorem sbk_cmp_attachment_entries_total_order (a b c : Z * Z) :
  (sbk_cmp_attachment_entries a b = 0 <-> a = b)
  /\ (sbk_cmp_attachment_entries a b < 0
      <-> sbk_cmp_attachment_entries b a > 0)
  /\ (sbk_cmp_attachment_entries a b < 0 ->
      sbk_cmp_attachment_entries b c < 0 ->
      sbk_cmp_attachment_entries a c < 0)
  /\ (sbk_cmp_attachment_entries a b < 0
      <-> fst a < fst b \/ (fst a = fst b /\ snd a < snd b)).
Proof.
  destruct a as [a1 a2], b as [b1 b2], c as [c1 c2].
  unfold sbk_cmp_attachment_entries. cbn [fst snd].
  repeat split;
    repeat match goal with
           | |- context [?x <? ?y] => destruct (Z.ltb_spec x y)
           end;
    try lia; try (intros E; injection E; lia);
    try (intros; f_equal; lia); try (intros [?|[? ?]]; lia).
Qed.

Section Database.
Context `{OpenSSL} `{Libc} `{SQLite}.

Ltac ctx_simpl :=
  cbn [fst snd
       fp db db_version attachments recipients cipher hmac cipherkey mackey
       iv counter ibuf ibufsize obuf obufsize firstframe eof error
       set_fp set_db set_db_version set_attachments set_recipients
       set_cipher set_hmac set_cipherkey set_mackey set_iv set_counter
       set_ibuf set_ibufsize set_obuf set_obufsize set_firstframe set_eof
       set_error
       cipher_key cipher_iv cipher_num hmac_key hmac_data f_data f_pos
       pos len_ counter_ negb].

(** X19: inserting into the attachment tree and looking up.  An attachment
    frame with a row id and an attachment id is entered under the two
    ids; when the tree had no entry for them, sbk_get_attachment_file
    finds the frame's file afterwards, and when it had one the tree is
    left as it was (the first entry stays).  Entries under other ids are
    not touched.  A frame without one of the ids is refused with
    "Invalid attachment frame". *)
Theorem attachment_tree_insert_lookup
    (frm : Pb.Signal__BackupFrame) (att : Pb.Signal__Attachment)
    (file : option sbk_file) (ctx : sbk_ctx) :
  Pb.frm_attachment frm = Some att ->
  let rowid := to_signed 64 (Pb.att_rowid att) in
  let attachmentid := to_signed 64 (Pb.att_attachmentid att) in
  (Pb.att_has_rowid att = true -> Pb.att_has_attachmentid att = true ->
   exists ctx',
     sbk_insert_attachment_entry frm file ctx = (Some tt, ctx')
     /\ (attachments ctx !! (rowid, attachmentid) = None ->
         sbk_get_attachment_file ctx' rowid attachmentid = file)
     /\ (attachments ctx !! (rowid, attachmentid) <> None -> ctx' = ctx)
     /\ (forall r a,
           (r, a) <> (rowid, attachmentid) ->
           sbk_get_attachment_file ctx' r a
           = sbk_get_attachment_file ctx r a)
     /\ db ctx' = db ctx /\ counter ctx' = counter ctx
     /\ fp ctx' = fp ctx /\ error ctx' = error ctx)
  /\ (Pb.att_has_rowid att = false \/ Pb.att_has_attachmentid att = false ->
      sbk_insert_attachment_entry frm file ctx
      = (None, set_error (Some (Errx "Invalid attachment frame")) ctx)).
Proof.
  intros Hatt rowid attachmentid. unfold sbk_insert_attachment_entry.
  rewrite Hatt. split.
  - intros -> ->. cbn [negb orb]. unfold bind, get, modify, ret.
    fold rowid attachmentid.
    destruct (attachments ctx !! (rowid, attachmentid)) as [f0|] eqn:E.
    + exists ctx. split; [reflexivity|].
      split; [intros E'; discriminate E'|]. repeat split.
    + eexists. split; [reflexivity|]. unfold sbk_get_attachment_file.
      ctx_simpl. split; [|split; [|split]].
      * intros _. rewrite lookup_insert_eq. reflexivity.
      * intros E'. congruence.
      * intros r a Hne. rewrite lookup_insert_ne by congruence.
        reflexivity.
      * repeat split.
  - intros [-> | ->]; [|destruct (Pb.att_has_rowid att)]; reflexivity.
Qed.

Lemma bind_ok {A B} (m : M A) (k : A -> M B) (ctx ctx2 : sbk_ctx) (b : B) :
  bind m k ctx = (Some b, ctx2) ->
  exists a ctx1, m ctx = (Some a, ctx1) /\ k a ctx1 = (Some b, ctx2).
Proof.
  unfold bind. destruct (m ctx) as [[a|] ctx1]; intros E;
    [|discriminate E].
  exists a, ctx1. split; [reflexivity | exact E].
Qed.

(** X20: sbk_create_database builds the database once.  With a database
    already there it returns 0 and changes nothing, so a second call
    after a successful one does nothing.  When it builds the database and
    succeeds, the database is set and the end-of-file flag is set. *)
Theorem sbk_create_database_once (ctx : sbk_ctx) :
  (db ctx <> None -> sbk_create_database ctx = (Some tt, ctx))
  /\ (forall ctx',
        sbk_create_database ctx = (Some tt, ctx') ->
        db ctx' <> None
        /\ (db ctx = None -> eof ctx' = true)
        /\ sbk_create_database ctx' = (Some tt, ctx')).
Proof.
  assert (Hset : db ctx <> None ->
                 sbk_create_database ctx = (Some tt, ctx)).
  { intros Hdb. unfold sbk_create_database.
    destruct (db ctx); [reflexivity | congruence]. }
  split; [exact Hset|].
  intros ctx' E.
  assert (Hdb' : db ctx' <> None /\ (db ctx = None -> eof ctx' = true)).
  { destruct (db ctx) as [d|] eqn:Hd.
    { rewrite Hset in E by discriminate.
      injection E as <-. rewrite Hd. split; [discriminate|].
      intros E'. discriminate E'. }
    unfold sbk_create_database in E. rewrite Hd in E. cbn [non_null] in E.
    match type of E with
    | match ?c with _ => _ end = _ =>
        destruct c as [[u|] c9] eqn:Echain; [|discriminate E]
    end.
    injection E as <-.
    apply bind_ok in Echain as (d0 & c1 & _ & Echain).
    apply bind_ok in Echain as (u1 & c2 & _ & Echain).
    apply bind_ok in Echain as (u2 & c3 & _ & Echain).
    apply bind_ok in Echain as (u3 & c4 & _ & Echain).
    apply bind_ok in Echain as (c4' & c5 & _ & Echain).
    apply bind_ok in Echain as (u5 & c6 & _ & Echain).
    apply bind_ok in Echain as (u6 & c7 & Eend & Echain).
    apply bind_ok in Echain as (c7' & c8 & Eget & Echain).
    unfold get in Eget. injection Eget as <- <-.
    unfold sbk_sqlite_exec, bind, get, modify, sbk_error_sqlite_set
      in Eend.
    cbv beta iota zeta in Eend.
    destruct (db c6) as [d7|]; [|discriminate Eend].
    destruct (sqlite3_exec d7 _) as [d8|]; [|discriminate Eend].
    injection Eend as _ <-.
    destruct (eof (set_db (Some d8) c6)) eqn:Heof;
      cbn [negb] in Echain; unfold fail, ret in Echain;
      [|discriminate Echain].
    injection Echain as _ <-. split; [ctx_simpl; discriminate|].
    intros _. exact Heof. }
  split; [exact (proj1 Hdb')|]. split; [exact (proj2 Hdb')|].
  unfold sbk_create_database.
  destruct (db ctx'); [reflexivity | destruct Hdb' as [N _]; congruence].
Qed.

(** X21: the attachments of a query come in the order of its rows.  When
    sbk_get_attachments succeeds, the statement ended with SQLITE_DONE,
    the context is as it was, and the list has one attachment for each
    row, in order, with the row's ids, status and size; an attachment
    with status SBK_ATTACHMENT_TRANSFER_DONE carries the file the tree has
    for its ids, any other carries none. *)
Theorem sbk_get_attachments_in_row_order
    (q : sqlite3_stmt) (ctx ctx' : sbk_ctx) (d : sqlite3)
    (lst : list sbk_attachment) :
  db ctx = Some d ->
  sbk_get_attachments q ctx = (Some lst, ctx') ->
  snd (sqlite3_rows d q) = SQLITE_DONE /\ ctx' = ctx
  /\ Forall2
       (fun row att =>
          att_rowid_ att = sqlite3_column_int64 row 2
          /\ att_attachmentid_ att = sqlite3_column_int64 row 3
          /\ att_status att = sqlite3_column_int row 4
          /\ att_size att = sqlite3_column_int64 row 5
          /\ att_file att
             = (if att_status att =? SBK_ATTACHMENT_TRANSFER_DONE then
                  sbk_get_attachment_file ctx (att_rowid_ att)
                    (att_attachmentid_ att)
                else None))
       (fst (sqlite3_rows d q)) lst.
Proof.
  intros Hd E. unfold sbk_get_attachments, bind at 1, get in E.
  rewrite Hd in E. destruct (sqlite3_rows d q) as [rows rc].
  cbn [fst snd]. apply bind_ok in E as (l & c1 & Erows & E).
  assert (Hrows : forall rows l c c1,
            sbk_get_attachment_rows rows c = (Some l, c1) ->
            c1 = c
            /\ Forall2
                 (fun row att =>
                    att_rowid_ att = sqlite3_column_int64 row 2
                    /\ att_attachmentid_ att = sqlite3_column_int64 row 3
                    /\ att_status att = sqlite3_column_int row 4
                    /\ att_size att = sqlite3_column_int64 row 5
                    /\ att_file att
                       = (if att_status att =? SBK_ATTACHMENT_TRANSFER_DONE
                          then
                            sbk_get_attachment_file c (att_rowid_ att)
                              (att_attachmentid_ att)
                          else None)) rows l).
  { clear. induction rows as [|row rows IH]; intros l c c1 E.
    - injection E as <- <-. split; [reflexivity | constructor].
    - cbn [sbk_get_attachment_rows] in E.
      apply bind_ok in E as (att & c2 & Eatt & E).
      apply bind_ok in E as (l' & c3 & El & E).
      injection E as <- <-.
      pose proof (sbk_get_attachment_keeps _ _ _ _ Eatt) as ->.
      destruct (IH _ _ _ El) as [-> HF]. split; [reflexivity|].
      constructor; [|exact HF].
      destruct (sbk_get_attachment_eq row c)
        as [[En _]|(fn & ct & _ & _ & Eq)].
      { rewrite Eatt in En. discriminate En. }
      rewrite Eq in Eatt. unfold sbk_get_attachment_file.
      destruct (sqlite3_column_int row 4 =? SBK_ATTACHMENT_TRANSFER_DONE)
        eqn:Est.
      + destruct (attachments c !! _) as [[file|]|] eqn:El';
          try discriminate Eatt.
        destruct (_ =? len_ file); [|discriminate Eatt].
        injection Eatt as <-. cbn [attachment_of att_rowid_
          att_attachmentid_ att_status att_size att_file].
        rewrite Est, El'. repeat split.
      + injection Eatt as <-. cbn [attachment_of att_rowid_
          att_attachmentid_ att_status att_size att_file].
        rewrite Est. repeat split. }
  destruct (Hrows _ _ _ _ Erows) as [-> HF].
  destruct (Z.eqb_spec rc SQLITE_DONE) as [->|Hrc]; cbn [negb] in E.
  - injection E as <- <-. repeat split. exact HF.
  - discriminate E.
Qed.

End Database.

(** * cmd-attachments.c: the names and the files written *)

Definition is_digit (c : byte) : bool := (48 <=? Zb c) && (Zb c <=? 57).

Definition uint_digits (d : uint) : list byte :=
  cstr (NilEmpty.string_of_uint d).

Lemma uint_digits_digits (d : uint) :
  Forall (fun c => is_digit c = true) (uint_digits d).
Proof.
  unfold uint_digits.
  induction d; cbn [NilEmpty.string_of_uint cstr]; constructor;
    solve [reflexivity | exact IHd].
Qed.

Lemma uint_digits_inj (d1 : uint) :
  forall d2, uint_digits d1 = uint_digits d2 -> d1 = d2.
Proof.
  unfold uint_digits.
  induction d1; intros d2 E; destruct d2;
    cbn [NilEmpty.string_of_uint cstr] in E;
    try reflexivity; try discriminate E;
    injection E as E; f_equal; apply IHd1; exact E.
Qed.

Lemma uint_digits_nonempty (d : uint) : d <> Nil -> uint_digits d <> [].
Proof. destruct d; intros N E; try discriminate E. congruence. Qed.

Lemma to_uint_nonnil (p : positive) : Pos.to_uint p <> Nil.
Proof.
  intros E. pose proof (DecimalPos.Unsigned.of_to p) as Hp.
  rewrite E in Hp. discriminate Hp.
Qed.

(** A printed number: an optional minus sign and at least one digit. *)
Lemma PRId64_form (z : Z) :
  exists d, d <> Nil
    /\ Z.to_int z = (if z <? 0 then Neg d else Pos d)
    /\ PRId64 z
       = (if z <? 0 then cstr "-" else []) ++ uint_digits d.
Proof.
  unfold PRId64. destruct z as [|p|p]; cbn [Z.to_int Z.ltb Z.compare].
  - exists (D0 Nil). repeat split. discriminate.
  - exists (Pos.to_uint p). pose proof (to_uint_nonnil p) as N.
    repeat split; [exact N|]. cbn [NilZero.string_of_int].
    unfold NilZero.string_of_uint, uint_digits.
    destruct (Pos.to_uint p); [congruence | reflexivity..].
  - exists (Pos.to_uint p). pose proof (to_uint_nonnil p) as N.
    repeat split; [exact N|]. cbn [NilZero.string_of_int cstr app].
    unfold NilZero.string_of_uint, uint_digits.
    destruct (Pos.to_uint p); [congruence | reflexivity..].
Qed.

(** What follows a number: nothing, or a byte that is no digit. *)
Definition no_digit_first (r : list byte) : Prop :=
  match r with
  | [] => True
  | c :: _ => is_digit c = false
  end.

Lemma digits_split (ds1 : list byte) :
  forall ds2 r1 r2,
    Forall (fun c => is_digit c = true) ds1 ->
    Forall (fun c => is_digit c = true) ds2 ->
    no_digit_first r1 -> no_digit_first r2 ->
    ds1 ++ r1 = ds2 ++ r2 -> ds1 = ds2 /\ r1 = r2.
Proof.
  induction ds1 as [|c ds1 IH]; intros ds2 r1 r2 F1 F2 N1 N2 E.
  - destruct ds2 as [|c2 ds2]; [split; [reflexivity | exact E]|].
    cbn [app] in E. subst r1. cbn in N1.
    inversion F2 as [|? ? Hc _]. congruence.
  - destruct ds2 as [|c2 ds2].
    + cbn [app] in E. subst r2. cbn in N2.
      inversion F1 as [|? ? Hc _]. congruence.
    + cbn [app] in E. injection E as -> E.
      inversion F1 as [|? ? _ F1']. inversion F2 as [|? ? _ F2'].
      destruct (IH ds2 r1 r2 F1' F2' N1 N2 E) as [-> ->].
      split; reflexivity.
Qed.

(** A printed number is read back from the front of a string. *)
Lemma PRId64_prefix (x y : Z) (r1 r2 : list byte) :
  no_digit_first r1 -> no_digit_first r2 ->
  PRId64 x ++ r1 = PRId64 y ++ r2 -> x = y /\ r1 = r2.
Proof.
  intros N1 N2 E.
  destruct (PRId64_form x) as (d1 & Hd1 & Ex & Px).
  destruct (PRId64_form y) as (d2 & Hd2 & Ey & Py).
  rewrite Px, Py, <- !app_assoc in E.
  pose proof (uint_digits_digits d1) as F1.
  pose proof (uint_digits_digits d2) as F2.
  pose proof (uint_digits_nonempty d1 Hd1) as G1.
  pose proof (uint_digits_nonempty d2 Hd2) as G2.
  assert (Hxy : Z.to_int x = Z.to_int y /\ r1 = r2).
  { destruct (x <? 0), (y <? 0); cbn [cstr app byte_of_ascii] in E.
    - injection E as E.
      destruct (digits_split _ _ _ _ F1 F2 N1 N2 E) as [Ed ->].
      apply uint_digits_inj in Ed. subst d2. rewrite Ex, Ey.
      split; reflexivity.
    - destruct (uint_digits d2) as [|c ds]; [congruence|].
      inversion F2 as [|? ? Hc _]. cbn [app] in E. injection E as <- _.
      discriminate Hc.
    - destruct (uint_digits d1) as [|c ds]; [congruence|].
      inversion F1 as [|? ? Hc _]. cbn [app] in E. injection E as -> _.
      discriminate Hc.
    - destruct (digits_split _ _ _ _ F1 F2 N1 N2 E) as [Ed ->].
      apply uint_digits_inj in Ed. subst d2. rewrite Ex, Ey.
      split; reflexivity. }
  destruct Hxy as [Hxy ->]. split; [|reflexivity].
  rewrite <- (DecimalZ.of_to x), <- (DecimalZ.of_to y), Hxy. reflexivity.
Qed.

(** The end of a file name: nothing, or a dot and an extension. *)
Definition suffix (att : sbk_attachment) : list byte :=
  let ext :=
    match att_content_type att with
    | None => None
    | Some type => get_extension type
    end in
  (if non_null ext then cstr "." else cstr "")
  ++ (match ext with Some e => e | None => cstr "" end).

Lemma suffix_no_digit_first (att : sbk_attachment) :
  no_digit_first (suffix att).
Proof.
  unfold suffix.
  destruct (match att_content_type att with
            | Some type => get_extension type
            | None => None
            end); cbn; [reflexivity | exact I].
Qed.

Lemma get_filename_eq (att : sbk_attachment) :
  get_filename att
  = PRId64 (att_rowid_ att)
    ++ cstr "-" ++ PRId64 (att_attachmentid_ att) ++ suffix att.
Proof. reflexivity. Qed.

(** X22: the file names tell the attachments apart.  Two attachments that
    get_filename gives the same name have the same row id and the same
    attachment id. *)
Theorem get_filename_injective (a b : sbk_attachment) :
  get_filename a = get_filename b ->
  att_rowid_ a = att_rowid_ b /\ att_attachmentid_ a = att_attachmentid_ b.
Proof.
  rewrite !get_filename_eq. intros E.
  apply PRId64_prefix in E as [Er E]; [|reflexivity..].
  split; [exact Er|]. cbn [cstr app] in E. injection E as E.
  apply PRId64_prefix in E as [Ea _];
    [exact Ea | apply suffix_no_digit_first..].
Qed.

(** The bytes a file name is made of. *)
Definition name_byte (c : byte) : bool :=
  is_digit c || (Zb c =? 45) || (Zb c =? 46)
  || ((97 <=? Zb c) && (Zb c <=? 122)).

Lemma get_extension_from_bytes (tbl : list (string * string)) :
  Forall (fun te => forallb name_byte (cstr (snd te)) = true) tbl ->
  forall type e,
    get_extension_from tbl type = Some e -> forallb name_byte e = true.
Proof.
  induction 1 as [|[t e0] tbl Hte _ IH]; intros type e E;
    cbn [get_extension_from] in E; [discriminate E|].
  destruct (strcmp (cstr t) type =? 0).
  - injection E as <-. exact Hte.
  - exact (IH _ _ E).
Qed.

Lemma extensions_bytes :
  Forall (fun te => forallb name_byte (cstr (snd te)) = true) extensions.
Proof. repeat constructor. Qed.

Lemma PRId64_bytes (z : Z) : forallb name_byte (PRId64 z) = true.
Proof.
  destruct (PRId64_form z) as (d & _ & _ & ->).
  rewrite forallb_app. apply andb_true_iff. split.
  - destruct (z <? 0); reflexivity.
  - apply forallb_forall. intros c Hc.
    pose proof (uint_digits_digits d) as F.
    rewrite List.Forall_forall in F. unfold name_byte.
    rewrite (F c Hc). reflexivity.
Qed.

(** X23: a file name stays in the output directory.  Whatever content type
    the backup gives an attachment, its file name is made of digits,
    minus signs, dots and small letters only: it holds no slash and no
    NUL byte, and it is not empty. *)
Theorem get_filename_in_directory (att : sbk_attachment) :
  forallb name_byte (get_filename att) = true
  /\ ~ In "/"%byte (get_filename att)
  /\ ~ In x00 (get_filename att)
  /\ get_filename att <> [].
Proof.
  assert (Hb : forallb name_byte (get_filename att) = true).
  { rewrite get_filename_eq. unfold suffix.
    rewrite !forallb_app, !PRId64_bytes.
    destruct (att_content_type att) as [type|]; [|reflexivity].
    destruct (get_extension type) as [e|] eqn:E; [|reflexivity].
    cbn [non_null]. rewrite (get_extension_from_bytes _ extensions_bytes _ _ E).
    reflexivity. }
  split; [exact Hb|]. rewrite forallb_forall in Hb.
  split; [|split].
  - intros Hin. apply Hb in Hin. discriminate Hin.
  - intros Hin. apply Hb in Hin. discriminate Hin.
  - rewrite get_filename_eq.
    destruct (PRId64_form (att_rowid_ att)) as (d & Hd & _ & ->).
    pose proof (uint_digits_nonempty d Hd) as G.
    destruct (att_rowid_ att <? 0); [discriminate|].
    cbn [app]. destruct (uint_digits d); [congruence | discriminate].
Qed.

Section Written.
Context `{OpenSSL} `{Libc} `{SQLite}.

(** What the loop of write_attachments keeps, for any value of [ret] it
    starts from. *)
Lemma write_attachments_loop_ok (lst : list sbk_attachment) :
  forall dir ret ctx ret' dir' ctx',
    write_attachments_loop lst dir ret ctx = (ret', dir', ctx') ->
    (forall name content,
       dir !! name = Some content -> dir' !! name = Some content)
    /\ (forall name,
          dir !! name = None -> dir' !! name <> None ->
          exists att, In att lst /\ att_file att <> None
                      /\ get_filename att = name)
    /\ (ret' = ret \/ ret' = 1)
    /\ (ret' = 0 ->
        ret = 0
        /\ (forall att, In att lst -> att_file att <> None ->
              dir !! get_filename att = None
              /\ dir' !! get_filename att <> None)
        /\ List.NoDup (map get_filename
                    (List.filter (fun att => non_null (att_file att)) lst))).
Proof.
  induction lst as [|att lst IH]; intros dir ret ctx ret' dir' ctx' E;
    cbn [write_attachments_loop] in E.
  - injection E as <- <- <-. split; [auto|]. split; [intros n E1 E2; congruence|].
    split; [auto|]. intros ->. split; [reflexivity|].
    split; [intros att []|constructor].
  - cbn [List.filter].
    destruct (att_file att) as [file|] eqn:Ef; cbn [non_null].
    2:{ destruct (IH _ _ _ _ _ _ E) as (Hk & Hn & Hr & Hz).
        split; [exact Hk|]. split.
        { intros n E1 E2. destruct (Hn n E1 E2) as (a & Ha & Hfa & Hna).
          exists a. split; [right; exact Ha | split; assumption]. }
        split; [exact Hr|]. intros E0.
        destruct (Hz E0) as (Hret & Hall & Hnd).
        split; [exact Hret|]. split; [|exact Hnd].
        intros a [<-|Ha] Hfa; [congruence | exact (Hall a Ha Hfa)]. }
    unfold fopen_wx in E.
    destruct (dir !! get_filename att) as [old|] eqn:Eold.
    + destruct (IH _ _ _ _ _ _ E) as (Hk & Hn & Hr & Hz).
      split; [exact Hk|]. split.
      { intros n E1 E2. destruct (Hn n E1 E2) as (a & Ha & Hfa & Hna).
        exists a. split; [right; exact Ha | split; assumption]. }
      split; [destruct Hr as [->| ->]; right; reflexivity|].
      intros E0. destruct (Hz E0) as (Hret & _). discriminate Hret.
    + destruct (sbk_write_file file (Some []) ctx) as [[r out] ctx1].
      set (written := match out with Some o => o | None => [] end) in E.
      destruct (IH _ _ _ _ _ _ E) as (Hk & Hn & Hr & Hz).
      split.
      { intros n c En. apply Hk. rewrite lookup_insert_ne; [exact En|].
        intros <-. congruence. }
      split.
      { intros n E1 E2.
        destruct (decide (get_filename att = n)) as [<-|Hne].
        - exists att. split; [left; reflexivity|].
          split; [congruence | reflexivity].
        - rewrite <- (lookup_insert_ne dir _ _ written Hne) in E1.
          destruct (Hn n E1 E2) as (a & Ha & Hfa & Hna).
          exists a. split; [right; exact Ha | split; assumption]. }
      split.
      { destruct Hr as [->| ->]; [|right; reflexivity].
        destruct r; cbn [non_null]; auto. }
      intros E0. destruct (Hz E0) as (Hret & Hall & Hnd).
      assert (Hr0 : ret = 0).
      { destruct r; cbn [non_null] in Hret; [exact Hret | discriminate]. }
      split; [exact Hr0|]. split.
      * intros a [<-|Ha] Hfa.
        -- split; [exact Eold|].
           rewrite (Hk _ written (lookup_insert_eq dir _ written)).
           discriminate.
        -- destruct (Hall a Ha Hfa) as [Hnew Hthere].
           split; [|exact Hthere].
           destruct (decide (get_filename att = get_filename a))
             as [Heq|Hne].
           ++ rewrite <- Heq, lookup_insert_eq in Hnew. discriminate Hnew.
           ++ rewrite lookup_insert_ne in Hnew by exact Hne. exact Hnew.
      * cbn [map]. constructor; [|exact Hnd].
        intros Hin. apply in_map_iff in Hin as (a & Heq & Ha).
        apply List.filter_In in Ha as [Ha Hfa].
        assert (Hfa' : att_file a <> None)
          by (destruct (att_file a); [discriminate | discriminate Hfa]).
        destruct (Hall a Ha Hfa') as [Hnew _].
        rewrite Heq, lookup_insert_eq in Hnew. discriminate Hnew.
Qed.

(** X24: write_attachments never touches a file that is there.  Every file
    of the directory has afterwards the contents it had; the files that
    are new have the names get_filename gives to attachments of the list
    that have a file; and the result is 0 or 1. *)
Theorem write_attachments_keeps_files
    (lst : list sbk_attachment) (dir : directory) (ctx : sbk_ctx) :
  let '(ret, dir', _) := write_attachments lst dir ctx in
  (forall name content,
     dir !! name = Some content -> dir' !! name = Some content)
  /\ (forall name,
        dir !! name = None -> dir' !! name <> None ->
        exists att, In att lst /\ att_file att <> None
                    /\ get_filename att = name)
  /\ (ret = 0 \/ ret = 1).
Proof.
  destruct (write_attachments lst dir ctx) as [[ret dir'] ctx'] eqn:E.
  destruct (write_attachments_loop_ok _ _ _ _ _ _ _ E) as (Hk & Hn & Hr & _).
  repeat split; assumption.
Qed.

(** X25: what the result 0 of write_attachments means.  When it returns 0,
    every attachment of the list that has a file was written to a file
    that was not there before, and the names of these attachments are all
    different: with an attachment listed twice, or a name already taken,
    the result is not 0. *)
Theorem write_attachments_success
    (lst : list sbk_attachment) (dir dir' : directory) (ctx ctx' : sbk_ctx) :
  write_attachments lst dir ctx = (0, dir', ctx') ->
  (forall att, In att lst -> att_file att <> None ->
     dir !! get_filename att = None /\ dir' !! get_filename att <> None)
  /\ List.NoDup (map get_filename
              (List.filter (fun att => non_null (att_file att)) lst)).
Proof.
  intros E.
  destruct (write_attachments_loop_ok _ _ _ _ _ _ _ E) as (_ & _ & _ & Hz).
  destruct (Hz eq_refl) as (_ & Hall & Hnd). split; assumption.
Qed.

End Written.

(** * Examples *)

Module Witness.
Import Toy.

(** The context sbk_open leaves for the sample backup, and the one after
    its header frame has been read. *)
Definition ready : sbk_ctx :=
  Eval vm_compute in
    snd (sbk_open (fs backup) "backup" passphrase ctx_new).

Definition after_header : sbk_ctx :=
  Eval vm_compute in snd (sbk_get_frame true ready).

(** The first encrypted frame of the sample: it starts at offset 30. *)
Definition frame1_ct : list byte :=
  Eval vm_compute in firstn 4 (skipn 34 backup).

Definition frame1_tag : list byte :=
  Eval vm_compute in firstn 10 (skipn 38 backup).






(** What reading the first encrypted frame of the sample gives. *)
Definition after_frame1 :
  option (Pb.Signal__BackupFrame * option sbk_file) * sbk_ctx :=
  Eval vm_compute in sbk_get_frame true after_header.

(** C2 as stated fails: the first encrypted frame of the sample is
    accepted, and its tag is not the truncated HMAC over IV ++ ciphertext,
    neither with the frame's IV nor with the header's. *)
Lemma frame_mac_excludes_iv :
  non_null (fst (sbk_get_frame true after_header)) = true
  /\ iv after_header = header_iv
  /\ counter after_header = 66051
  /\ frame1_tag
     <> firstn 10 (HMAC_SHA256 (mackey after_header)
                     (counter_iv header_iv 66051 ++ frame1_ct))
  /\ frame1_tag
     <> firstn 10 (HMAC_SHA256 (mackey after_header)
                     (header_iv ++ frame1_ct))
  /\ frame1_tag
     = firstn 10 (HMAC_SHA256 (mackey after_header) frame1_ct).
Proof.
  split; [|split; [|split; [|split; [|split]]]].
  - vm_compute. reflexivity.
  - vm_compute. reflexivity.
  - vm_compute. reflexivity.
  - vm_compute. intros E. discriminate E.
  - vm_compute. intros E. discriminate E.
  - vm_compute. reflexivity.
Qed.


Lemma frame_mac_over_ciphertext_witness :
  frame1_tag = firstn 10 (HMAC_SHA256 (mackey after_header) frame1_ct).
Proof.
  assert (E : sbk_get_frame true after_header = after_frame1)
    by reflexivity.
  unfold after_frame1 in E.
  assert (H1 : fp after_header = Some {| f_data := backup; f_pos := 30 |}) by (vm_compute; reflexivity).
  assert (H2 : eof after_header = false) by (vm_compute; reflexivity).
  assert (H3 : firstframe after_header = false) by (vm_compute; reflexivity).
  assert (H4 : skipn 30 backup = x00 :: x00 :: x00 :: x0e :: frame1_ct ++ frame1_tag ++ skipn 48 backup) by (vm_compute; reflexivity).
  assert (H5 : List.length frame1_tag = SBK_MAC_LEN) by (vm_compute; reflexivity).
  assert (H6 : frame1_ct <> []) by (intros E'; discriminate E').
  assert (H7 : be32 x00 x00 x00 x0e = len frame1_ct + 10) by (vm_compute; reflexivity).
  assert (H8 : len frame1_ct + 10 < 2 ^ 31) by (vm_compute; reflexivity).
  assert (H9 : len frame1_ct + 10 <= SIZE_MAX - EVP_MAX_BLOCK_LENGTH) by (vm_compute; intros E'; discriminate E').
  assert (H10 : hmac_key (hmac after_header) = mackey after_header) by (vm_compute; reflexivity).
  pose proof (frame_mac_over_ciphertext after_header
             {| f_data := backup; f_pos := 30 |}
             x00 x00 x00 x0e frame1_ct frame1_tag (skipn 48 backup) true
             H1 H2 H3 H4 H5 H6 H7 H8 H9 H10) as P.
  destruct P as [P _].
  exact (P _ _ E).
Defined.

(** The sample read to its End frame, file data skipped. *)
Definition sample_frames : list Pb.Signal__BackupFrame * sbk_ctx :=
  Eval vm_compute in
    match read_frames 6 false after_header with
    | Some r => r
    | None => ([], after_header)
    end.

Lemma counter_progress_witness :
  counter (snd sample_frames)
  = uint32 (counter after_header + len (fst sample_frames)
            + len (List.filter sbk_has_file_data (fst sample_frames)))
  /\ len (fst sample_frames) = 6
  /\ len (List.filter sbk_has_file_data (fst sample_frames)) = 1
  /\ counter after_header = 66051 /\ counter (snd sample_frames) = 66058.
Proof.
  split; [|repeat split; vm_compute; reflexivity].
  destruct counter_progress as (_ & _ & Hsum & _).
  apply (Hsum false).
  - apply (read_frames_ok 6). reflexivity.
  - reflexivity.
  - vm_compute. split; [intros E; discriminate E | reflexivity].
Defined.

(** The file of the sample's attachment frame. *)
Definition sample_file : sbk_file :=
  {| pos := 230; len_ := 5; counter_ := 66056 |}.

Lemma file_mac_includes_iv_witness :
  fst (sbk_get_file_as_string sample_file (snd sample_frames))
  = (if bytes_eqb
          (firstn SBK_MAC_LEN
             (HMAC_SHA256 (hmac_key (hmac (snd sample_frames)))
                (firstn SBK_IV_LEN
                   (counter_iv (iv (snd sample_frames)) 66056)
                 ++ firstn 5 (skipn 230 backup))))
          (firstn 10 (skipn 235 backup))
     then Some (ctr_crypt (cipherkey (snd sample_frames))
                  (counter_iv (iv (snd sample_frames)) 66056) 0
                  (firstn 5 (skipn 230 backup)))
     else None)
  /\ fst (sbk_get_file_as_string sample_file (snd sample_frames))
     = Some (cstr "hello").
Proof.
  split; [|vm_compute; reflexivity].
  destruct file_mac_includes_iv as (Hfile & _).
  apply (Hfile sample_file None (snd sample_frames)
           {| f_data := backup; f_pos := 261 |}
           (firstn 5 (skipn 230 backup)) (firstn 10 (skipn 235 backup))
           (skipn 245 backup)).
  - vm_compute. lia.
  - vm_compute. intros E. discriminate E.
  - vm_compute. intros E. discriminate E.
  - vm_compute. reflexivity.
  - vm_compute. reflexivity.
  - vm_compute. reflexivity.
  - vm_compute. reflexivity.
Defined.

(** A stream whose next length field has its top bit set. *)
Definition negative_length : sbk_ctx :=
  set_fp (Some {| f_data := [xff; xff; xff; xfe; x01]; f_pos := 0 |})
    ctx_new.

Lemma sbk_read_frame_signed_length_witness :
  sbk_read_frame negative_length
  = (None,
     set_error (Some (Errx "Invalid frame size"))
       (set_fp (Some {| f_data := [xff; xff; xff; xfe; x01]; f_pos := 4 |})
          negative_length)).
Proof.
  apply (proj1 (sbk_read_frame_signed_length negative_length
                  {| f_data := [xff; xff; xff; xfe; x01]; f_pos := 0 |}
                  xff xff xff xfe [x01] eq_refl eq_refl)).
  right. vm_compute. intros E. discriminate E.
Defined.



(** A row of the part table: file name, content type, _id, unique_id,
    pending_push and data_size. *)
Definition part_row (status size : Z) : stmt :=
  {| st_sql := SBK_ATTACHMENTS_QUERY_ALL; st_binds := [];
     st_row := [VText (cstr "a.jpg"); VText (cstr "image/jpeg"); VInt 1;
                VInt 2; VInt status; VInt size] |}.

Lemma sbk_get_attachment_requires_file_witness :
  fst (sbk_get_attachment (part_row 0 5) ctx_new) = None
  /\ error (snd (sbk_get_attachment (part_row 0 5) ctx_new))
     = Some (Errx "Cannot find attachment file")
  /\ exists att,
       sbk_get_attachment (part_row 1 5) ctx_new = (Some att, ctx_new)
       /\ att_file att = None /\ att_status att = 1.
Proof.
  pose proof (sbk_get_attachment_requires_file (part_row 0 5) ctx_new)
    as (Hdone & _ & _).
  pose proof (sbk_get_attachment_requires_file (part_row 1 5) ctx_new)
    as (_ & Hother & _).
  destruct (Hdone eq_refl) as (_ & Hmissing & _).
  destruct (Hmissing eq_refl) as [Hnone Herr].
  split; [exact Hnone|]. split.
  - apply Herr; vm_compute; intros E; discriminate E.
  - apply Hother; vm_compute; intros E; discriminate E.
Defined.

(** A frame whose statement has a parameter with two integer values. *)
Definition twice_integer : list Wire.field :=
  [ {| Wire.number := 2; Wire.payload := Wire.Varint 1 |};
    {| Wire.number := 2; Wire.payload := Wire.Varint 2 |} ].

Definition statement_fields : list Wire.field :=
  [ {| Wire.number := 1; Wire.payload := Wire.LengthDelim (cstr "x") |};
    {| Wire.number := 2;
       Wire.payload := Wire.LengthDelim (Wire.encode twice_integer) |} ].

Definition frame_fields : list Wire.field :=
  [ {| Wire.number := 2;
       Wire.payload := Wire.LengthDelim (Wire.encode statement_fields) |} ].

Ltac fields_ok :=
  repeat constructor; cbn; try lia; vm_compute; try reflexivity;
  intros E; discriminate E.

Lemma unpack_rejects_defective_witness :
  decodes BackupFrame (Wire.encode frame_fields) = false.
Proof.
  apply unpack_rejects_defective; [fields_ok|].
  right. right.
  exists {| Wire.number := 2;
            Wire.payload :=
              Wire.LengthDelim (Wire.encode statement_fields) |},
    (Wire.encode statement_fields), SqlStatement.
  split; [left; reflexivity|]. split; [reflexivity|].
  split; [reflexivity|].
  apply unpack_rejects_defective; [fields_ok|].
  right. right.
  exists {| Wire.number := 2;
            Wire.payload := Wire.LengthDelim (Wire.encode twice_integer) |},
    (Wire.encode twice_integer), SqlParameter.
  split; [right; left; reflexivity|]. split; [reflexivity|].
  split; [reflexivity|].
  apply unpack_rejects_defective; [fields_ok|].
  right. left.
  exists [], {| Wire.number := 2; Wire.payload := Wire.Varint 1 |}, [],
    {| Wire.number := 2; Wire.payload := Wire.Varint 2 |}, [].
  repeat split.
Defined.






(** ** The decoder on concrete buffers *)

Lemma varint_round_trip_witness :
  Wire.varint 300 = [xac; x02]
  /\ Pb.varint_unpack [xac; x02; x07] = Some (2%nat, 300)
  /\ Pb.uint32_unpack (Wire.varint (2 ^ 32) ++ [x07]) = None.
Proof.
  split; [reflexivity|]. split.
  - apply (varint_round_trip 300 [x07]). lia.
  - apply (varint_round_trip (2 ^ 32) [x07]). lia.
Defined.

Lemma varint_unpack_within_buffer_witness :
  Pb.varint_unpack [x80; x80] = None
  /\ (2 <= List.length [xac; x02; x07])%nat /\ Zb x02 < 128.
Proof.
  destruct (varint_unpack_within_buffer [x80; x80]) as (_ & _ & Hnone).
  destruct (varint_unpack_within_buffer [xac; x02; x07]) as (Hsome & _).
  destruct (Hsome 2%nat 300 eq_refl) as (_ & Hlen & _ & Hlast & _).
  split; [|split; [exact Hlen | exact Hlast]].
  apply Hnone. intros [|[|j]] Hj; cbn in Hj |- *; lia.
Defined.

Definition one_byte_field : Wire.field :=
  {| Wire.number := 4; Wire.payload := Wire.LengthDelim [x01] |}.

Lemma tag_round_trip_witness :
  Wire.encode_field one_byte_field = [x22; x01; x01]
  /\ exists n,
       Pb.tag_unpack ([x22; x01; x01] ++ [x07])
       = Some (n, {| Pb.fieldnum := 4; Pb.wiretype := 2 |})
       /\ skipn n ([x22; x01; x01] ++ [x07]) = [x01; x01] ++ [x07].
Proof.
  split; [reflexivity|].
  apply (tag_round_trip one_byte_field [x07]).
  fields_ok.
Defined.

Lemma length_delim_within_buffer_witness :
  Pb.length_delim [x05; x01] = None
  /\ exists n,
       Pb.varint_unpack [x02; x01; x02; x03] = Some (n, len [x01; x02])
       /\ (1 <= n)%nat /\ skipn n [x02; x01; x02; x03] = [x01; x02] ++ [x03].
Proof.
  split.
  - apply (proj2 (length_delim_within_buffer [x05; x01]) 1%nat 5 eq_refl).
    reflexivity.
  - apply (proj1 (length_delim_within_buffer [x02; x01; x02; x03])
             [x01; x02] [x03] eq_refl).
Defined.

Lemma unpack_loops_end_witness :
  Pb.unpack_loop Pb.backup_frame_field 100 Pb.backup_frame_init header_frame
  = Pb.signal__backup_frame__unpack header_frame
  /\ non_null (Pb.signal__backup_frame__unpack header_frame) = true.
Proof.
  split; [|reflexivity].
  apply (unpack_loops_end 100 header_frame). vm_compute. lia.
Defined.

(** A row id written as a byte string. *)
Definition bytes_rowid : Wire.field :=
  {| Wire.number := 1; Wire.payload := Wire.LengthDelim [x01] |}.

Lemma wrong_wire_type_rejected_witness :
  decodes Attachment (Wire.encode [bytes_rowid]) = false
  /\ expected_wire_type Attachment 1 = Pb.WIRETYPE_VARINT.
Proof.
  split; [|reflexivity].
  apply (wrong_wire_type_rejected Attachment [bytes_rowid] bytes_rowid).
  - fields_ok.
  - left. reflexivity.
  - reflexivity.
  - intros E. discriminate E.
Defined.

Definition empty_iv : Wire.field :=
  {| Wire.number := 1; Wire.payload := Wire.LengthDelim [] |}.

Lemma empty_bytes_field_rejected_witness :
  decodes Header (Wire.encode [empty_iv]) = false.
Proof.
  apply (empty_bytes_field_rejected Header 1 [empty_iv]).
  - reflexivity.
  - fields_ok.
  - left. reflexivity.
Defined.

Lemma attachment_frame_round_trip_witness :
  Pb.signal__attachment__unpack
    (Wire.encode
       [ {| Wire.number := 1; Wire.payload := Wire.Varint 1 |};
         {| Wire.number := 2; Wire.payload := Wire.Varint 2 |};
         {| Wire.number := 3; Wire.payload := Wire.Varint 5 |} ])
  = Some {| Pb.att_has_rowid := true; Pb.att_rowid := 1;
            Pb.att_has_attachmentid := true; Pb.att_attachmentid := 2;
            Pb.att_has_length := true; Pb.att_length := 5 |}
  /\ Pb.signal__attachment__unpack
       (Wire.encode
          [ {| Wire.number := 1; Wire.payload := Wire.Varint 1 |};
            {| Wire.number := 2; Wire.payload := Wire.Varint 2 |};
            {| Wire.number := 3; Wire.payload := Wire.Varint (2 ^ 32) |} ])
     = None.
Proof.
  assert (H1 : 0 <= 1 < 2 ^ 64) by lia.
  assert (H2 : 0 <= 2 < 2 ^ 64) by lia.
  assert (H5 : 0 <= 5 < 2 ^ 64) by lia.
  assert (H32 : 0 <= 2 ^ 32 < 2 ^ 64) by lia.
  pose proof (attachment_frame_round_trip 1 2 5 H1 H2 H5) as P.
  pose proof (attachment_frame_round_trip 1 2 (2 ^ 32) H1 H2 H32) as Q.
  cbv beta zeta in P, Q.
  change (5 <? 2 ^ 32) with true in P.
  change (2 ^ 32 <? 2 ^ 32) with false in Q.
  cbv iota in P, Q.
  split; [exact (proj1 P) | exact (proj1 Q)].
Defined.

(** A parameter with the integer 7. *)
Definition seven : list byte :=
  Wire.encode [ {| Wire.number := 2; Wire.payload := Wire.Varint 7 |} ].

Definition seven_parameter : Pb.Signal__SqlStatement__SqlParameter :=
  {| Pb.stringparamter := None;
     Pb.has_integerparameter := true; Pb.integerparameter := 7;
     Pb.has_doubleparameter := false; Pb.doubleparameter := 0;
     Pb.has_blobparameter := false; Pb.blobparameter := [];
     Pb.has_nullparameter := false; Pb.nullparameter := false |}.

Definition hi_parameter : Pb.Signal__SqlStatement__SqlParameter :=
  {| Pb.stringparamter := Some (cstr "hi");
     Pb.has_integerparameter := false; Pb.integerparameter := 0;
     Pb.has_doubleparameter := false; Pb.doubleparameter := 0;
     Pb.has_blobparameter := false; Pb.blobparameter := [];
     Pb.has_nullparameter := false; Pb.nullparameter := false |}.

Definition hi : list byte :=
  Wire.encode
    [ {| Wire.number := 1; Wire.payload := Wire.LengthDelim (cstr "hi") |} ].

Lemma sql_statement_parameters_in_order_witness :
  Pb.signal__sql_statement__unpack
    (Wire.encode
       ({| Wire.number := 1; Wire.payload := Wire.LengthDelim (cstr "x") |}
        :: map parameter_field [seven; hi; seven]))
  = Some {| Pb.statement := Some (cstr "x");
            Pb.parameters :=
              [seven_parameter; hi_parameter; seven_parameter] |}.
Proof.
  apply (sql_statement_parameters_in_order (cstr "x") [seven; hi; seven]
           [seven_parameter; hi_parameter; seven_parameter]).
  - reflexivity.
  - repeat constructor.
Defined.

(** ** The frame stream of the sample *)

Lemma counter_iv_round_trip_witness :
  counter_iv header_iv 66055
  = [x00; x01; x02; x07; x04; x05; x06; x07;
     x08; x09; x0a; x0b; x0c; x0d; x0e; x0f]
  /\ be32 x00 x01 x02 x07 = 66055
  /\ counter_iv (counter_iv header_iv 66055) 66056
     = counter_iv header_iv 66056.
Proof.
  assert (Hl : (4 <= List.length header_iv)%nat) by (vm_compute; lia).
  assert (Hc : 0 <= 66055 < 2 ^ 32) by lia.
  destruct (counter_iv_round_trip header_iv 66055 66056 Hl Hc)
    as (_ & _ & Hread & Hlater).
  split; [reflexivity|]. split; [exact Hread | exact Hlater].
Defined.

(** The contexts before the attachment frame and before the End frame of
    the sample. *)
Definition before_attachment : sbk_ctx :=
  Eval vm_compute in
    match read_frames 4 false after_header with
    | Some r => snd r
    | None => after_header
    end.

Definition before_end : sbk_ctx :=
  Eval vm_compute in
    match read_frames 5 false after_header with
    | Some r => snd r
    | None => after_header
    end.

Definition the_end : Pb.Signal__BackupFrame :=
  {| Pb.frm_header := None; Pb.frm_statement := None;
     Pb.frm_preference := None; Pb.frm_attachment := None;
     Pb.frm_version := None; Pb.frm_has_end := true; Pb.frm_end := true;
     Pb.frm_avatar := None; Pb.frm_sticker := None |}.

Definition the_attachment : Pb.Signal__Attachment :=
  {| Pb.att_has_rowid := true; Pb.att_rowid := 1;
     Pb.att_has_attachmentid := true; Pb.att_attachmentid := 2;
     Pb.att_has_length := true; Pb.att_length := 5 |}.

Definition the_attachment_frame : Pb.Signal__BackupFrame :=
  {| Pb.frm_header := None; Pb.frm_statement := None;
     Pb.frm_preference := None; Pb.frm_attachment := Some the_attachment;
     Pb.frm_version := None; Pb.frm_has_end := false; Pb.frm_end := false;
     Pb.frm_avatar := None; Pb.frm_sticker := None |}.

Lemma end_frame_stops_reading_witness :
  exists ctx1,
    sbk_get_frame true before_end = (Some (the_end, None), ctx1)
    /\ eof ctx1 = true /\ counter ctx1 = uint32 (counter before_end + 1)
    /\ error ctx1 = error before_end
    /\ fp ctx1 = Some {| f_data := backup; f_pos := 245 + 4 + 2 + 10 |}
    /\ forall w', sbk_get_frame w' ctx1 = (None, ctx1).
Proof.
  apply (end_frame_stops_reading before_end
           {| f_data := backup; f_pos := 245 |}
           x00 x00 x00 x0c (firstn 2 (skipn 249 backup))
           (firstn 10 (skipn 251 backup)) (skipn 261 backup) true the_end).
  - vm_compute; reflexivity.
  - vm_compute; reflexivity.
  - vm_compute; reflexivity.
  - vm_compute; reflexivity.
  - vm_compute; reflexivity.
  - vm_compute; intros E; discriminate E.
  - vm_compute; reflexivity.
  - vm_compute; reflexivity.
  - vm_compute; intros E; discriminate E.
  - vm_compute; reflexivity.
  - vm_compute; reflexivity.
  - reflexivity.
  - reflexivity.
Defined.

(** A stream, after the header, whose next frame has three bytes. *)
Definition short_frame : sbk_ctx :=
  set_fp (Some {| f_data := [x00; x00; x00; x03; x01; x02; x03];
                  f_pos := 0 |})
    after_header.

Lemma short_encrypted_frame_rejected_witness :
  fst (sbk_get_frame true short_frame) = None
  /\ error (snd (sbk_get_frame true short_frame))
     = Some (Errx "Invalid frame size")
  /\ counter (snd (sbk_get_frame true short_frame)) = counter short_frame
  /\ fp (snd (sbk_get_frame true short_frame))
     = Some {| f_data := [x00; x00; x00; x03; x01; x02; x03];
               f_pos := 0 + 4 + 3 |}.
Proof.
  apply (short_encrypted_frame_rejected short_frame
           {| f_data := [x00; x00; x00; x03; x01; x02; x03]; f_pos := 0 |}
           x00 x00 x00 x03 [x01; x02; x03] [] true).
  - reflexivity.
  - vm_compute; reflexivity.
  - vm_compute; reflexivity.
  - reflexivity.
  - vm_compute; reflexivity.
  - vm_compute. split; [reflexivity | intros E; discriminate E].
  - vm_compute; intros E; discriminate E.
Defined.

(** A stream that ends in the middle of a length, and one that ends in
    the middle of a frame. *)
Definition cut_length : sbk_ctx :=
  set_fp (Some {| f_data := [x00; x00]; f_pos := 0 |}) ctx_new.

Definition cut_frame : sbk_ctx :=
  set_fp (Some {| f_data := [x00; x00; x00; x05; x01; x02]; f_pos := 0 |})
    ctx_new.

Lemma truncated_frame_detected_witness :
  error (snd (sbk_read_frame cut_length))
  = Some (Errx "Unexpected end of file")
  /\ error (snd (sbk_read_frame cut_frame))
     = Some (Errx "Unexpected end of file").
Proof.
  split.
  - apply (proj1 (truncated_frame_detected cut_length
                    {| f_data := [x00; x00]; f_pos := 0 |} eq_refl)).
    vm_compute. lia.
  - apply (proj2 (truncated_frame_detected cut_frame
                    {| f_data := [x00; x00; x00; x05; x01; x02];
                       f_pos := 0 |} eq_refl)
             x00 x00 x00 x05 [x01; x02] eq_refl).
    + vm_compute. split; reflexivity.
    + vm_compute; intros E; discriminate E.
    + vm_compute; reflexivity.
Defined.

Lemma file_follows_frame_witness :
  exists ctx1,
    sbk_get_frame true before_attachment
    = (Some (the_attachment_frame, Some sample_file), ctx1)
    /\ fp ctx1 = Some {| f_data := backup; f_pos := 245 |}
    /\ counter ctx1 = 66057
    /\ eof ctx1 = false.
Proof.
  apply (file_follows_frame before_attachment
           {| f_data := backup; f_pos := 208 |}
           x00 x00 x00 x12 (firstn 8 (skipn 212 backup))
           (firstn 10 (skipn 220 backup)) (skipn 230 backup)
           the_attachment_frame the_attachment true).
  - vm_compute; reflexivity.
  - vm_compute; reflexivity.
  - vm_compute; reflexivity.
  - vm_compute; reflexivity.
  - vm_compute; reflexivity.
  - vm_compute; intros E; discriminate E.
  - vm_compute; reflexivity.
  - vm_compute; reflexivity.
  - vm_compute; intros E; discriminate E.
  - vm_compute; reflexivity.
  - vm_compute; reflexivity.
  - reflexivity.
  - reflexivity.
Defined.

(** The sample with the last byte of the file's MAC changed. *)
Definition bad_file_mac : list byte :=
  Eval vm_compute in
    firstn 244 backup ++ [byte_xor (nth 244 backup x00) x01]
    ++ skipn 245 backup.

Definition at_bad_file : sbk_ctx :=
  set_fp (Some {| f_data := bad_file_mac; f_pos := 261 |})
    (snd sample_frames).

Lemma sbk_write_file_writes_before_check_witness :
  snd (fst (sbk_write_file sample_file (Some []) at_bad_file))
  = Some (cstr "hello")
  /\ fst (fst (sbk_write_file sample_file (Some []) at_bad_file)) = None
  /\ error (snd (sbk_write_file sample_file (Some []) at_bad_file))
     = Some (Errx "HMAC mismatch").
Proof.
  assert (H1 : (0 < BUFSIZ)%nat) by (vm_compute; lia).
  assert (H2 : Z.of_nat BUFSIZ <= SIZE_MAX - EVP_MAX_BLOCK_LENGTH)
    by (vm_compute; intros E; discriminate E).
  assert (H3 : fp at_bad_file
               = Some {| f_data := bad_file_mac; f_pos := 261 |})
    by reflexivity.
  assert (H4 : skipn (pos sample_file) bad_file_mac
               = firstn 5 (skipn 230 bad_file_mac)
                 ++ firstn 10 (skipn 235 bad_file_mac)
                 ++ skipn 245 bad_file_mac)
    by (vm_compute; reflexivity).
  assert (H5 : len_ sample_file = len (firstn 5 (skipn 230 bad_file_mac)))
    by (vm_compute; reflexivity).
  assert (H6 : List.length (firstn 10 (skipn 235 bad_file_mac))
               = SBK_MAC_LEN)
    by (vm_compute; reflexivity).
  destruct (sbk_write_file_writes_before_check sample_file [] at_bad_file
              {| f_data := bad_file_mac; f_pos := 261 |}
              (firstn 5 (skipn 230 bad_file_mac))
              (firstn 10 (skipn 235 bad_file_mac))
              (skipn 245 bad_file_mac) H1 H2 H3 H4 H5 H6)
    as [Hout Hbad].
  split.
  - rewrite Hout. vm_compute. reflexivity.
  - apply Hbad. vm_compute. intros E. discriminate E.
Defined.

(** ** Opening the sample *)

Definition sample_derivkey : list byte :=
  Eval vm_compute in
    match HKDF_SHA256 64
            (firstn 32
               (sha512_round passphrase [xaa; xbb; xcc; xdd]
                  (N.to_nat 249999)))
            [] (cstr "Backup Export") with
    | Some k => k
    | None => []
    end.

Lemma sbk_open_accepts_header_witness :
  exists ctx',
    sbk_open (fs backup) "backup" passphrase ctx_new = (Some tt, ctx')
    /\ iv ctx' = header_iv
    /\ counter ctx' = 66051
    /\ cipherkey ctx' = firstn 32 sample_derivkey
    /\ mackey ctx' = firstn 32 (skipn 32 sample_derivkey)
    /\ fp ctx' = Some {| f_data := backup; f_pos := 0 |}
    /\ firstframe ctx' = true /\ eof ctx' = false.
Proof.
  assert (H1 : List.length header_iv = SBK_IV_LEN) by reflexivity.
  assert (H2 : Some [xaa; xbb; xcc; xdd] <> Some [])
    by (intros E; discriminate E).
  assert (H3 : fs backup "backup"
               = Some (x00 :: x00 :: x00 :: x1a
                       :: header_frame_bytes header_iv
                            (Some [xaa; xbb; xcc; xdd])
                       ++ skipn 30 backup))
    by (vm_compute; reflexivity).
  assert (H4 : be32 x00 x00 x00 x1a
               = len (header_frame_bytes header_iv
                        (Some [xaa; xbb; xcc; xdd])))
    by (vm_compute; reflexivity).
  assert (H5 : len (header_frame_bytes header_iv
                      (Some [xaa; xbb; xcc; xdd])) < 2 ^ 31)
    by (vm_compute; reflexivity).
  assert (H6 : len (header_frame_bytes header_iv
                      (Some [xaa; xbb; xcc; xdd]))
               <= SIZE_MAX - EVP_MAX_BLOCK_LENGTH)
    by (vm_compute; intros E; discriminate E).
  assert (H7 : HKDF_SHA256 64
                 (firstn 32
                    (sha512_round passphrase [xaa; xbb; xcc; xdd]
                       (N.to_nat 249999)))
                 [] (cstr "Backup Export")
               = Some sample_derivkey)
    by (vm_compute; reflexivity).
  destruct (sbk_open_accepts_header (fs backup) "backup" passphrase ctx_new
              x00 x00 x00 x1a header_iv (Some [xaa; xbb; xcc; xdd])
              (skipn 30 backup) sample_derivkey H1 H2 H3 H4 H5 H6 H7)
    as (ctx' & Hopen & Hiv & Hcounter & Hck & Hmk & _ & Hfp & Hff & Heof
        & _).
  exists ctx'. split; [exact Hopen|]. split; [exact Hiv|].
  split; [exact Hcounter|]. split; [exact Hck|]. split; [exact Hmk|].
  split; [|split; [exact Hff | exact Heof]].
  rewrite Hfp. vm_compute. reflexivity.
Defined.


(** ** The attachment tree, the database and the files written *)

Lemma sbk_cmp_attachment_entries_total_order_witness :
  sbk_cmp_attachment_entries (1, 2) (1, 3) < 0
  /\ sbk_cmp_attachment_entries (1, 3) (1, 2) > 0
  /\ sbk_cmp_attachment_entries (1, 2) (2, 0) < 0.
Proof.
  destruct (sbk_cmp_attachment_entries_total_order (1, 2) (1, 3) (2, 0))
    as (_ & Hanti & Htrans & Hlt).
  destruct (sbk_cmp_attachment_entries_total_order (1, 3) (2, 0) (2, 0))
    as (_ & _ & _ & Hlt').
  assert (H12 : sbk_cmp_attachment_entries (1, 2) (1, 3) < 0)
    by (apply Hlt; right; cbn; lia).
  assert (H23 : sbk_cmp_attachment_entries (1, 3) (2, 0) < 0)
    by (apply Hlt'; left; cbn; lia).
  split; [exact H12|]. split; [apply Hanti; exact H12|].
  exact (Htrans H12 H23).
Defined.

Lemma attachment_tree_insert_lookup_witness :
  exists ctx',
    sbk_insert_attachment_entry the_attachment_frame (Some sample_file)
      ctx_new
    = (Some tt, ctx')
    /\ sbk_get_attachment_file ctx' 1 2 = Some sample_file
    /\ sbk_get_attachment_file ctx' 1 3 = None.
Proof.
  destruct (attachment_tree_insert_lookup the_attachment_frame
              the_attachment (Some sample_file) ctx_new eq_refl)
    as [Hin _].
  destruct (Hin eq_refl eq_refl) as (ctx' & E & Hnew & _ & Hother & _).
  exists ctx'. split; [exact E|]. split.
  - apply Hnew. reflexivity.
  - rewrite (Hother 1 3); [reflexivity|].
    intros E'. injection E' as E'. discriminate E'.
Defined.

Lemma sbk_create_database_once_witness :
  eof (snd (sbk_create_database ready)) = true
  /\ sbk_create_database (snd (sbk_create_database ready))
     = (Some tt, snd (sbk_create_database ready)).
Proof.
  assert (Hok : fst (sbk_create_database ready) = Some tt)
    by (vm_compute; reflexivity).
  assert (Hdb : db ready = None) by (vm_compute; reflexivity).
  revert Hok.
  destruct (sbk_create_database ready) as [r c] eqn:E. cbn [fst snd].
  intros ->.
  destruct (sbk_create_database_once ready) as [_ Hbuilt].
  destruct (Hbuilt c E) as (_ & Heof & Hagain).
  split; [exact (Heof Hdb) | exact Hagain].
Defined.

(** A database whose part table has two rows, and the tree with the file
    of the first. *)
Definition parts : sqlite3 :=
  {| db_log := [];
     db_rows := [(SBK_ATTACHMENTS_QUERY_ALL,
                  [st_row (part_row 0 5); st_row (part_row 1 9)])] |}.

Definition parts_db : sbk_ctx :=
  set_attachments {[ (1, 2) := Some sample_file ]}
    (set_db (Some parts) ctx_new).

Definition parts_query : sqlite3_stmt :=
  {| st_sql := SBK_ATTACHMENTS_QUERY_ALL; st_binds := []; st_row := [] |}.

Lemma sbk_get_attachments_in_row_order_witness :
  exists a1 a2,
    fst (sbk_get_attachments parts_query parts_db) = Some [a1; a2]
    /\ att_status a1 = 0 /\ att_size a1 = 5
    /\ att_status a2 = 1 /\ att_size a2 = 9.
Proof.
  assert (Hsome : non_null (fst (sbk_get_attachments parts_query parts_db))
                  = true) by (vm_compute; reflexivity).
  revert Hsome.
  destruct (sbk_get_attachments parts_query parts_db) as [[lst|] c] eqn:E;
    cbn [fst non_null]; intros Hsome; [|discriminate Hsome].
  destruct (sbk_get_attachments_in_row_order parts_query parts_db c parts
              lst eq_refl E) as (_ & _ & HF).
  change (fst (sqlite3_rows parts parts_query))
    with [part_row 0 5; part_row 1 9] in HF.
  inversion HF as [|r1 a1 rs l1 P1 HF1]; subst.
  inversion HF1 as [|r2 a2 rs2 l2 P2 HF2]; subst.
  inversion HF2; subst.
  destruct P1 as (_ & _ & S1 & Z1 & _). destruct P2 as (_ & _ & S2 & Z2 & _).
  exists a1, a2. split; [reflexivity|].
  split; [exact S1|]. split; [exact Z1|]. split; [exact S2 | exact Z2].
Defined.

(** The attachment of the sample, as a photograph. *)
Definition photo (name : option (list byte)) (size : Z) : sbk_attachment :=
  {| att_filename := name; att_content_type := Some (cstr "image/jpeg");
     att_rowid_ := 1; att_attachmentid_ := 2; att_status := 0;
     att_size := size; att_file := Some sample_file |}.

Lemma get_filename_injective_witness :
  get_filename (photo None 5) = cstr "1-2.jpg"
  /\ att_rowid_ (photo (Some (cstr "a.jpg")) 7) = att_rowid_ (photo None 5)
  /\ att_attachmentid_ (photo (Some (cstr "a.jpg")) 7)
     = att_attachmentid_ (photo None 5).
Proof.
  split; [reflexivity|].
  apply (get_filename_injective (photo (Some (cstr "a.jpg")) 7)
           (photo None 5)).
  reflexivity.
Defined.

Lemma get_filename_in_directory_witness :
  forallb name_byte (get_filename (photo None 5)) = true
  /\ name_byte "/" = false.
Proof.
  split; [|reflexivity].
  apply (get_filename_in_directory (photo None 5)).
Defined.

(** A directory in which the name of the photograph is taken. *)
Definition taken : directory := {[ cstr "1-2.jpg" := cstr "old" ]}.

Lemma write_attachments_keeps_files_witness :
  snd (fst (write_attachments [photo None 5] taken (snd sample_frames)))
    !! cstr "1-2.jpg"
  = Some (cstr "old")
  /\ fst (fst (write_attachments [photo None 5] taken (snd sample_frames)))
     = 1.
Proof.
  pose proof (write_attachments_keeps_files [photo None 5] taken
                (snd sample_frames)) as P.
  assert (R : fst (fst (write_attachments [photo None 5] taken
                          (snd sample_frames))) = 1)
    by (vm_compute; reflexivity).
  revert P R.
  destruct (write_attachments [photo None 5] taken (snd sample_frames))
    as [[r d] c].
  cbn [fst snd]. intros (Hkeeps & _ & _) R.
  split; [|exact R]. apply Hkeeps. reflexivity.
Defined.

Lemma write_attachments_success_witness :
  (∅ : directory) !! get_filename (photo None 5) = None
  /\ snd (fst (write_attachments [photo None 5] ∅ (snd sample_frames)))
       !! get_filename (photo None 5)
     <> None
  /\ snd (fst (write_attachments [photo None 5] ∅ (snd sample_frames)))
       !! cstr "1-2.jpg"
     = Some (cstr "hello").
Proof.
  assert (R : fst (fst (write_attachments [photo None 5] ∅
                          (snd sample_frames))) = 0)
    by (vm_compute; reflexivity).
  assert (W : snd (fst (write_attachments [photo None 5] ∅
                          (snd sample_frames)))
                !! cstr "1-2.jpg"
              = Some (cstr "hello"))
    by (vm_compute; reflexivity).
  revert R W.
  destruct (write_attachments [photo None 5] ∅ (snd sample_frames))
    as [[r d] c] eqn:E.
  cbn [fst snd]. intros -> W.
  destruct (write_attachments_success _ _ _ _ _ E) as [Hall _].
  assert (Hfile : att_file (photo None 5) <> None)
    by (intros E'; discriminate E').
  destruct (Hall (photo None 5) (or_introl eq_refl) Hfile)
    as [Hnew Hthere].
  split; [exact Hnew|]. split; [exact Hthere | exact W].
Defined.

End Witness.
